(** * Cognitive-architecture demo repository: verified properties

    A shallow embedding of the mechanical pieces of the repository
    (the build-graph resolver and topological sort, the LSP framing
    reader and document store, the MCP dispatch table, the blueprint
    validator and hash manifest, the particle-swarm loop) together
    with the properties the specification states about them.

    Python dictionaries whose iteration order matters are association
    lists in insertion order; dictionaries used only through lookup,
    insertion and deletion are [gmap]s; sets are [gset]s.  Python
    floats are the kernel's binary64 floats. *)

From Stdlib Require Import String Ascii ZArith List Lia.
From Stdlib Require Import Decimal DecimalString DecimalNat.
From Stdlib Require Import Floats Sorted.
From stdpp Require Import base option list gmap sets strings relations.

Set Warnings "-clear-no-such-hyp,-register-all,-inexact-float".

Local Open Scope string_scope.
Local Open Scope list_scope.

(** * Definitions *)

(** ** Python building blocks shared by the modules *)

Module Py.

(** Values of type [Any]: what [json.loads] produces and what the
    handlers put into their response dictionaries. *)
Inductive pyval : Type :=
| PNone
| PBool (b : bool)
| PInt (n : Z)
| PFloat (x : float)
| PStr (s : string)
| PList (xs : list pyval)
| PDict (kvs : list (string * pyval)).

(** [for x in xs: body(x)] over a state that the body may fail to
    produce (fuel exhausted, exception raised). *)
Fixpoint for_each {A S : Type} (body : A -> S -> option S)
         (xs : list A) (s : S) : option S :=
  match xs with
  | [] => Some s
  | x :: xs' =>
      match body x s with
      | Some s' => for_each body xs' s'
      | None => None
      end
  end.

(** An insertion-ordered [dict] keyed by strings. *)
Definition dict (V : Type) : Type := list (string * V).

(** [list(d)] *)
Definition dict_keys {V} (d : dict V) : list string := d.*1.

(** [d[k]], [None] standing for [KeyError]. *)
Fixpoint dict_get {V} (d : dict V) (k : string) : option V :=
  match d with
  | [] => None
  | (k', v) :: d' => if decide (k' = k) then Some v else dict_get d' k
  end.

(** [d.get(k, dflt)] *)
Definition dict_get_or {V} (d : dict V) (k : string) (dflt : V) : V :=
  default dflt (dict_get d k).

(** [d[k] = v]: overwrite in place when the key exists, append
    at the end otherwise. *)
Fixpoint dict_set {V} (d : dict V) (k : string) (v : V) : dict V :=
  match d with
  | [] => [(k, v)]
  | (k', v') :: d' =>
      if decide (k' = k) then (k, v) :: d' else (k', v') :: dict_set d' k v
  end.

(** In-place mutation of the value stored under [k], as in
    [d[k].append(x)]; used on present keys only. *)
Fixpoint dict_update {V} (d : dict V) (k : string) (f : V -> V) : dict V :=
  match d with
  | [] => []
  | (k', v') :: d' =>
      if decide (k' = k) then (k', f v') :: d' else (k', v') :: dict_update d' k f
  end.

(** What a call that may raise produces: the value returned, or the
    message of the exception raised. *)
Inductive outcome (A : Type) : Type :=
| Returned (a : A)
| Raised (msg : string).
Arguments Returned {A} a.
Arguments Raised {A} msg.

(** Truth value of a string and of a list: empty is false. *)
Definition nonempty_str (s : string) : bool :=
  match s with EmptyString => false | String _ _ => true end.

Definition nonempty_list {A} (l : list A) : bool :=
  match l with [] => false | _ :: _ => true end.

(** [str(n)] for a length or a count. *)
Definition str_of_nat (n : nat) : string := NilZero.string_of_uint (Nat.to_uint n).

(** A string between double quotes, as it stands in JSON text. *)
Definition quoted (s : string) : string :=
  String (ascii_of_nat 34) s +:+ String (ascii_of_nat 34) EmptyString.

(** [s.split(sep)] for a separator of one character. *)
Fixpoint split_on (sep : ascii) (s : string) : list string :=
  match s with
  | EmptyString => [EmptyString]
  | String c s' =>
      if Ascii.eqb c sep then EmptyString :: split_on sep s'
      else match split_on sep s' with
           | l :: ls => String c l :: ls
           | [] => [String c EmptyString]
           end
  end.

(** Reading a value of type [Any] at the type a typed field declares;
    [None] when the value has another type. *)
Definition as_str (v : pyval) : option string :=
  match v with PStr s => Some s | _ => None end.

Definition as_opt_str (v : pyval) : option (option string) :=
  match v with
  | PNone => Some None
  | PStr s => Some (Some s)
  | _ => None
  end.

Fixpoint as_strs (xs : list pyval) : option (list string) :=
  match xs with
  | [] => Some []
  | x :: xs' =>
      match as_str x, as_strs xs' with
      | Some s, Some l => Some (s :: l)
      | _, _ => None
      end
  end.

Definition as_str_list (v : pyval) : option (list string) :=
  match v with PList xs => as_strs xs | _ => None end.

Fixpoint as_str_items (kvs : dict pyval) : option (dict string) :=
  match kvs with
  | [] => Some []
  | (k, v) :: kvs' =>
      match as_str v, as_str_items kvs' with
      | Some s, Some d => Some ((k, s) :: d)
      | _, _ => None
      end
  end.

Definition as_str_dict (v : pyval) : option (dict string) :=
  match v with PDict kvs => as_str_items kvs | _ => None end.

Definition as_dict (v : pyval) : option (dict pyval) :=
  match v with PDict kvs => Some kvs | _ => None end.

End Py.

(** ** cognitive-ecology/reproducible_ai_builder.py *)

Module ReproducibleAIBuilder.

Import Py.

Record BuildComponent := {
  name : string;
  version : string;
  source_hash : string;
  build_inputs : list string;
  build_outputs : list string;
  build_system : string;
  configuration : dict pyval;
  environment_variables : dict string
}.

(** The dependency graph: [Dict[str, List[str]]]. *)
Abbreviation graph := (dict (list string)).

Record BuildManifest := {
  manifest_id : string;
  target_name : string;
  target_version : string;
  build_timestamp : string;
  components : list BuildComponent;
  dependency_graph : graph;
  build_environment : dict pyval;
  verification_checksums : dict string
}.

(** *** [_resolve_dependency_graph] *)

(** The inner function [add_dependencies]; [graph] is the dictionary
    it closes over.  Python recursion becomes recursion on [fuel];
    [None] is "out of fuel". *)
Fixpoint add_dependencies (fuel : nat) (component_registry : dict BuildComponent)
         (component_key : string) (gr : graph) : option graph :=
  match fuel with
  | 0 => None
  | S fuel' =>
      if decide (component_key ∈ dict_keys gr) then Some gr
      else
        let gr1 := dict_set gr component_key [] in
        match dict_get component_registry component_key with
        | None => Some gr1
        | Some component =>
            for_each
              (fun dep gr2 =>
                 add_dependencies fuel' component_registry dep
                   (dict_update gr2 component_key (fun l => l ++ [dep])))
              (build_inputs component) gr1
        end
  end.

(** Every name the resolver can meet: the targets and the inputs of
    the registered components. *)
Definition registry_names (component_registry : dict BuildComponent)
           (target_components : list string) : list string :=
  target_components ++ concat (build_inputs <$> component_registry.*2).

(** [_resolve_dependency_graph].  The nesting depth of
    [add_dependencies] never exceeds the number of names, which is
    the fuel supplied. *)
Definition _resolve_dependency_graph (component_registry : dict BuildComponent)
           (target_components : list string) : option graph :=
  for_each
    (add_dependencies
       (S (length (registry_names component_registry target_components)))
       component_registry)
    target_components [].

(** *** [_topological_sort] *)

(** [dependency_graph.get(node, [])] *)
Definition deps (g : graph) (node : string) : list string :=
  dict_get_or g node [].

Record sort_state := SortState {
  visited : gset string;
  result : list string
}.

(** The inner function [visit], by recursion on [fuel]. *)
Fixpoint visit (fuel : nat) (g : graph) (node : string) (st : sort_state)
  : option sort_state :=
  match fuel with
  | 0 => None
  | S fuel' =>
      if decide (node ∈ visited st) then Some st
      else
        let st1 := SortState ({[node]} ∪ visited st) (result st) in
        match for_each (visit fuel' g) (deps g node) st1 with
        | Some st2 => Some (SortState (visited st2) (result st2 ++ [node]))
        | None => None
        end
  end.

(** Every name the graph mentions, as a key or as a dependency. *)
Definition nodes (g : graph) : list string := dict_keys g ++ concat g.*2.

(** [_topological_sort]: [for node in dependency_graph: visit(node)]
    from an empty visited set and an empty result.  The nesting depth
    of [visit] never exceeds the number of names in the graph, which
    is the fuel supplied. *)
Definition _topological_sort (g : graph) : option (list string) :=
  result <$> for_each (visit (S (length (nodes g))) g) (dict_keys g)
                      (SortState ∅ []).

(** *** Vocabulary of the specification *)

Definition edge (g : graph) (n d : string) : Prop := d ∈ deps g n.

Definition acyclic (g : graph) : Prop := forall n, ~ tc (edge g) n n.

(** Every dependency name is itself a key. *)
Definition closed (g : graph) : Prop :=
  forall n d, edge g n d -> d ∈ dict_keys g.

(** [x] occurs strictly before [y] in [l]. *)
Definition before (x y : string) (l : list string) : Prop :=
  exists l1 l2 l3 : list string, l = l1 ++ x :: l2 ++ y :: l3.

(** A node is gray when [visit] has entered it and not yet appended it. *)
Definition gray (st : sort_state) (x : string) : Prop :=
  x ∈ visited st /\ x ∉ result st.

(** [st'] extends [st]: the result grew by exactly the newly visited
    nodes, each once. *)
Definition extends (st st' : sort_state) : Prop :=
  visited st ⊆ visited st' /\
  exists l : list string,
    result st' = result st ++ l /\ NoDup l /\
    forall x, x ∈ l <-> x ∈ visited st' /\ x ∉ visited st.

(** Every dependency of a node of the result precedes it. *)
Definition ordered (g : graph) (st : sort_state) : Prop :=
  forall m d, m ∈ result st -> edge g m d -> before d m (result st).

(** What one call of [add_dependencies] does to the graph: keys only
    grow and stay distinct, entries that existed are untouched, and
    every entry that is new has all its dependencies as keys. *)
Definition grows (gr gr' : graph) : Prop :=
  NoDup (dict_keys gr') /\
  (forall x, x ∈ dict_keys gr -> x ∈ dict_keys gr') /\
  (forall x, x ∈ dict_keys gr -> deps gr' x = deps gr x) /\
  (forall x d, x ∈ dict_keys gr' -> x ∉ dict_keys gr ->
               d ∈ deps gr' x -> d ∈ dict_keys gr').

(** *** [execute_reproducible_build] *)

Record component_result := {
  success : bool;
  build_time : float;
  output_hash : string;
  artifacts : list string
}.

Record verification := {
  all_verified : bool;
  verification_details : dict pyval;
  failed_verifications : list string
}.

Record build_results := {
  r_manifest_id : string;
  build_status : string;
  component_results : dict component_result;
  verification_results : option verification;  (* [None] is the initial [{}] *)
  build_artifacts : list string;
  build_log : list string
}.

Definition _setup_build_environment (env_spec : dict pyval) : dict pyval :=
  [("environment_ready", PBool true); ("env_id", PStr "build_env_001")].

Definition _build_component (component : BuildComponent) (build_env : dict pyval)
  : component_result :=
  {| success := true;
     build_time := 42.5%float;
     output_hash := "abc123def456";
     artifacts := build_outputs component |}.

Definition _verify_build_outputs (manifest : BuildManifest) : verification :=
  {| all_verified := true;
     verification_details := [];
     failed_verifications := [] |}.

Definition set_status (r : build_results) (status : string) : build_results :=
  {| r_manifest_id := r_manifest_id r;
     build_status := status;
     component_results := component_results r;
     verification_results := verification_results r;
     build_artifacts := build_artifacts r;
     build_log := build_log r |}.

Definition set_component_result (r : build_results) (key : string)
           (cr : component_result) : build_results :=
  {| r_manifest_id := r_manifest_id r;
     build_status := build_status r;
     component_results := dict_set (component_results r) key cr;
     verification_results := verification_results r;
     build_artifacts := build_artifacts r;
     build_log := build_log r |}.

Definition set_verification (r : build_results) (v : verification)
  : build_results :=
  {| r_manifest_id := r_manifest_id r;
     build_status := build_status r;
     component_results := component_results r;
     verification_results := Some v;
     build_artifacts := build_artifacts r;
     build_log := build_log r |}.

(** The [for component in manifest.components] loop: [inl] is the
    early [return build_results] of the "failed" branch, [inr] the
    state on normal loop exit. *)
Fixpoint build_loop (build_env : dict pyval) (cs : list BuildComponent)
         (r : build_results) : build_results + build_results :=
  match cs with
  | [] => inr r
  | component :: cs' =>
      let cr := _build_component component build_env in
      let r1 := set_component_result r (name component) cr in
      if negb (success cr) then inl (set_status r1 "failed")
      else build_loop build_env cs' r1
  end.

(** [execute_reproducible_build].  On typed inputs no statement of the
    [try] block raises, so the [except] branch ("error") has no
    counterpart here. *)
Definition execute_reproducible_build (manifest : BuildManifest) : build_results :=
  let r0 := {| r_manifest_id := manifest_id manifest;
               build_status := "in_progress";
               component_results := [];
               verification_results := None;
               build_artifacts := [];
               build_log := [] |} in
  let build_env := _setup_build_environment (build_environment manifest) in
  match build_loop build_env (components manifest) r0 with
  | inl r => r
  | inr r =>
      let v := _verify_build_outputs manifest in
      let r1 := set_verification r v in
      if all_verified v then set_status r1 "success"
      else set_status r1 "verification_failed"
  end.

(** *** [generate_build_manifest] *)

(** [asdict(component)] *)
Definition asdict_component (c : BuildComponent) : pyval :=
  PDict [("name", PStr (name c));
         ("version", PStr (version c));
         ("source_hash", PStr (source_hash c));
         ("build_inputs", PList (PStr <$> build_inputs c));
         ("build_outputs", PList (PStr <$> build_outputs c));
         ("build_system", PStr (build_system c));
         ("configuration", PDict (configuration c));
         ("environment_variables",
          PDict ((fun kv => (kv.1, PStr kv.2)) <$> environment_variables c))].

(** [build_config.get(k, dflt)] for the two fields that the manifest
    types as strings: [None] when the configuration holds a value of
    another type there, which the typed manifest cannot hold. *)
Definition config_str (build_config : dict pyval) (k dflt : string) : option string :=
  match dict_get build_config k with
  | None => Some dflt
  | Some (PStr s) => Some s
  | Some _ => None
  end.

Definition _create_build_environment (build_config : dict pyval) : dict pyval :=
  [("base_image", dict_get_or build_config "base_image" (PStr "ubuntu:22.04"));
   ("python_version", dict_get_or build_config "python_version" (PStr "3.11"));
   ("system_packages", dict_get_or build_config "system_packages" (PList []));
   ("environment_variables",
    dict_get_or build_config "environment_variables" (PDict []));
   ("build_tools",
    dict_get_or build_config "build_tools"
                (PList [PStr "gcc"; PStr "make"; PStr "cmake"]));
   ("isolation_level", dict_get_or build_config "isolation_level" (PStr "container"))].

(** The components of the build order that are registered:
    [if component_key in self.component_registry: all_components.append(...)]. *)
Definition collect_components (component_registry : dict BuildComponent)
           (build_order : list string) : list BuildComponent :=
  fold_left
    (fun all_components component_key =>
       match dict_get component_registry component_key with
       | Some component => all_components ++ [component]
       | None => all_components
       end)
    build_order [].

Section Manifest.

(** [json.dumps(_, sort_keys=True)], [hashlib.sha256(_).hexdigest()]
    and the value of [datetime.now().isoformat()]. *)
Variable json_dumps_sorted : pyval -> string.
Variable sha256_hexdigest : string -> string.
Variable timestamp : string.

Definition _generate_verification_checksums (components : list BuildComponent)
  : dict string :=
  fold_left
    (fun checksums component =>
       let component_data := json_dumps_sorted (asdict_component component) in
       dict_set checksums (name component) (sha256_hexdigest component_data))
    components [].

Definition generate_build_manifest (component_registry : dict BuildComponent)
           (target_components : list string) (build_config : dict pyval)
  : option BuildManifest :=
  match _resolve_dependency_graph component_registry target_components with
  | None => None
  | Some dependency_graph =>
      match _topological_sort dependency_graph with
      | None => None
      | Some build_order =>
          let all_components := collect_components component_registry build_order in
          let verification_checksums :=
            _generate_verification_checksums all_components in
          let build_environment := _create_build_environment build_config in
          let manifest_content :=
            PDict [("target_components", PList (PStr <$> target_components));
                   ("build_config", PDict build_config);
                   ("components", PList (asdict_component <$> all_components));
                   ("dependency_graph",
                    PDict ((fun kv => (kv.1, PList (PStr <$> kv.2)))
                             <$> dependency_graph));
                   ("build_environment", PDict build_environment)] in
          let manifest_id := sha256_hexdigest (json_dumps_sorted manifest_content) in
          match config_str build_config "target_name" "ai_system",
                config_str build_config "target_version" "1.0.0" with
          | Some target_name, Some target_version =>
              Some {| manifest_id := manifest_id;
                      target_name := target_name;
                      target_version := target_version;
                      build_timestamp := timestamp;
                      components := all_components;
                      dependency_graph := dependency_graph;
                      build_environment := build_environment;
                      verification_checksums := verification_checksums |}
          | _, _ => None
          end
      end
  end.

End Manifest.


(** *** [define_build_component] *)

(** The build procedure: the keys [define_build_component] reads,
    each of which may be absent. *)
Record BuildProcedure := {
  proc_inputs : option (list string);
  proc_outputs : option (list string);
  proc_build_system : option string;
  proc_configuration : option (dict pyval);
  proc_environment : option (dict string)
}.

Section Define.

Variable json_dumps_sorted : pyval -> string.
Variable sha256_hexdigest : string -> string.

(** [f"{name}-{version}-{source_hash[:8]}"] *)
Definition component_key_of (n v source_hash : string) : string :=
  n +:+ "-" +:+ v +:+ "-" +:+ substring 0 8 source_hash.

(** [define_build_component]: the component, and the registry with
    the component stored under its key. *)
Definition define_build_component (n v : string) (source_specification : pyval)
           (build_procedure : BuildProcedure)
           (component_registry : dict BuildComponent)
  : BuildComponent * dict BuildComponent :=
  let source_content := json_dumps_sorted source_specification in
  let source_hash := sha256_hexdigest source_content in
  let component :=
    {| name := n;
       version := v;
       source_hash := source_hash;
       build_inputs := default [] (proc_inputs build_procedure);
       build_outputs := default [] (proc_outputs build_procedure);
       build_system := default "generic" (proc_build_system build_procedure);
       configuration := default [] (proc_configuration build_procedure);
       environment_variables := default [] (proc_environment build_procedure) |} in
  let component_key := component_key_of n v source_hash in
  (component, dict_set component_registry component_key component).

End Define.


(** *** [create_ai_system_blueprint] *)

(** Computations on the component registry that may raise.  A
    computation maps the registry to the outcome and the registry it
    leaves; [None] stands for a specification of type [Dict[str, Any]]
    that holds a value of another type than the typed field it goes
    to declares. *)
Definition M (A : Type) : Type :=
  dict BuildComponent -> option (outcome A * dict BuildComponent).

Definition ret {A} (a : A) : M A := fun registry => Some (Returned a, registry).

Definition raise {A} (e : string) : M A := fun registry => Some (Raised e, registry).

Definition typed {A} (o : option A) : M A :=
  fun registry =>
    match o with
    | Some a => Some (Returned a, registry)
    | None => None
    end.

Definition mbind {A B} (m : M A) (f : A -> M B) : M B :=
  fun registry =>
    match m registry with
    | None => None
    | Some (Raised e, registry') => Some (Raised e, registry')
    | Some (Returned a, registry') => f a registry'
    end.

Notation "x <- m ;; k" := (mbind m (fun x => k))
  (at level 100, m at next level, right associativity).

(** [config[k]] *)
Definition required (config : dict pyval) (k : string) : M pyval :=
  match dict_get config k with
  | Some v => ret v
  | None => raise "KeyError"
  end.

(** [for x in v]: the items the loop visits.  A string gives its
    characters and a dictionary its keys; numbers, booleans and [None]
    are not iterable. *)
Definition iter_of (v : pyval) : M (list pyval) :=
  match v with
  | PList xs => ret xs
  | PStr s => ret ((fun c => PStr (String c EmptyString)) <$> list_ascii_of_string s)
  | PDict kvs => ret (PStr <$> dict_keys kvs)
  | _ => raise "TypeError"
  end.

Section Blueprint.

Variable json_dumps_sorted : pyval -> string.
Variable sha256_hexdigest : string -> string.

(** [now i] is the value of [datetime.now().isoformat()] when the
    manifest of the [i]-th deployment scenario is generated. *)
Variable now : nat -> string.

Definition define (n v : string) (source_specification : pyval)
           (build_procedure : BuildProcedure) : M BuildComponent :=
  fun registry =>
    let r := define_build_component json_dumps_sorted sha256_hexdigest n v
                                    source_specification build_procedure registry in
    Some (Returned r.1, r.2).

Definition create_ml_model_component (model_name : string)
           (model_config : dict pyval) : M BuildComponent :=
  v <- typed (config_str model_config "version" "1.0.0") ;;
  architecture <- required model_config "architecture" ;;
  training_data <- required model_config "training_data" ;;
  hyperparameters <- required model_config "hyperparameters" ;;
  define model_name v
    (PDict [("model_architecture", architecture);
            ("training_data", training_data);
            ("hyperparameters", hyperparameters);
            ("random_seeds",
             dict_get_or model_config "random_seeds"
                         (PList [PInt 42; PInt 1337; PInt 2023]))])
    {| proc_build_system := Some "pytorch_trainer";
       proc_inputs := Some ["python-pytorch"; "python-transformers"; "training-datasets"];
       proc_outputs := Some [model_name +:+ ".pth";
                             model_name +:+ "_config.json";
                             model_name +:+ "_metrics.json"];
       proc_configuration :=
         Some [("training_script",
                dict_get_or model_config "training_script" (PStr "train.py"));
               ("evaluation_script",
                dict_get_or model_config "evaluation_script" (PStr "evaluate.py"));
               ("validation_requirements",
                dict_get_or model_config "validation" (PDict []))];
       proc_environment :=
         Some [("CUDA_VISIBLE_DEVICES", "0");
               ("PYTHONHASHSEED", "0");
               ("TORCH_DETERMINISTIC", "1")] |}.

Definition create_protocol_component (protocol_name : string)
           (protocol_spec : dict pyval) : M BuildComponent :=
  v <- typed (config_str protocol_spec "version" "1.0.0") ;;
  definition <- required protocol_spec "definition" ;;
  interfaces <- required protocol_spec "interfaces" ;;
  define protocol_name v
    (PDict [("protocol_definition", definition);
            ("interface_specification", interfaces);
            ("implementation_language",
             dict_get_or protocol_spec "language" (PStr "python"));
            ("dependencies", dict_get_or protocol_spec "dependencies" (PList []))])
    {| proc_build_system := Some "protocol_compiler";
       proc_inputs := Some ["protocol-compiler"; "code-generator"; "validation-tools"];
       proc_outputs := Some [protocol_name +:+ "_implementation.py";
                             protocol_name +:+ "_client.py";
                             protocol_name +:+ "_server.py";
                             protocol_name +:+ "_tests.py"];
       proc_configuration :=
         Some [("code_generation_templates",
                dict_get_or protocol_spec "templates" (PDict []));
               ("validation_suite",
                dict_get_or protocol_spec "validation" (PDict []));
               ("performance_requirements",
                dict_get_or protocol_spec "performance" (PDict []))];
       proc_environment :=
         Some [("PROTOCOL_VERSION", v);
               ("VALIDATION_LEVEL", "strict")] |}.

Definition create_cognitive_architecture_component (architecture_name : string)
           (architecture_spec : dict pyval) : M BuildComponent :=
  v <- typed (config_str architecture_spec "version" "1.0.0") ;;
  modules <- required architecture_spec "modules" ;;
  topology <- required architecture_spec "topology" ;;
  define architecture_name v
    (PDict [("cognitive_modules", modules);
            ("neural_topology", topology);
            ("knowledge_bases",
             dict_get_or architecture_spec "knowledge_bases" (PList []));
            ("reasoning_engines",
             dict_get_or architecture_spec "reasoning_engines" (PList []))])
    {| proc_build_system := Some "cognitive_assembler";
       proc_inputs := Some ["cognitive-framework"; "neural-network-components";
                            "knowledge-processing-tools"; "reasoning-engines"];
       proc_outputs := Some [architecture_name +:+ "_cognitive_system";
                             architecture_name +:+ "_knowledge_base";
                             architecture_name +:+ "_reasoning_engine";
                             architecture_name +:+ "_benchmarks"];
       proc_configuration :=
         Some [("assembly_strategy",
                dict_get_or architecture_spec "assembly" (PStr "modular"));
               ("optimization_level",
                dict_get_or architecture_spec "optimization" (PStr "balanced"));
               ("validation_suite",
                dict_get_or architecture_spec "validation" (PDict []))];
       proc_environment :=
         Some [("COGNITIVE_ARCH_VERSION", v);
               ("OPTIMIZATION_LEVEL", "3");
               ("MEMORY_LIMIT", "16GB")] |}.

Definition _create_benchmark_suites (system_spec : dict pyval) : dict pyval :=
  [("performance_benchmarks",
    PDict [("latency_tests", PStr "measure response times");
           ("throughput_tests", PStr "measure request handling capacity");
           ("memory_tests", PStr "measure memory usage patterns")]);
   ("accuracy_benchmarks",
    PDict [("model_accuracy", PStr "measure model prediction accuracy");
           ("protocol_correctness", PStr "verify protocol compliance");
           ("system_integration", PStr "test end-to-end functionality")]);
   ("reproducibility_benchmarks",
    PDict [("build_determinism", PStr "verify bit-for-bit reproducibility");
           ("environment_isolation", PStr "test environment independence");
           ("version_consistency", PStr "verify version compatibility")])].

(** The blueprint dictionary.  Its [components] and [build_manifests]
    hold the [asdict] of the dataclass values kept here. *)
Record system_blueprint := {
  sys_name : string;
  sys_version : pyval;
  sys_components : dict BuildComponent;
  sys_build_manifests : dict BuildManifest;
  sys_deployment_specifications : dict pyval;
  sys_benchmark_suites : dict pyval
}.

(** One of the three loops over component specifications:
    [component = create(spec["name"], spec)] and
    [blueprint["components"][prefix + spec["name"]] = asdict(component)]. *)
Fixpoint create_components (create : string -> dict pyval -> M BuildComponent)
         (prefix : string) (specs : list pyval) (comps : dict BuildComponent)
  : M (dict BuildComponent) :=
  match specs with
  | [] => ret comps
  | PDict spec :: specs' =>
      n <- required spec "name" ;;
      n <- typed (as_str n) ;;
      component <- create n spec ;;
      create_components create prefix specs' (dict_set comps (prefix +:+ n) component)
  | _ :: _ => raise "TypeError"
  end.

(** [scenario_config.get("components", list(blueprint["components"].keys()))] *)
Definition target_components_of (scenario_config : dict pyval)
           (comps : dict BuildComponent) : option (list string) :=
  match dict_get scenario_config "components" with
  | None => Some (dict_keys comps)
  | Some v => as_str_list v
  end.

(** The loop over the deployment scenarios. *)
Fixpoint create_manifests (i : nat) (scenarios : dict pyval)
         (comps : dict BuildComponent) (manifests : dict BuildManifest)
  : M (dict BuildManifest) :=
  match scenarios with
  | [] => ret manifests
  | (scenario_name, PDict scenario_config) :: scenarios' =>
      target_components <- typed (target_components_of scenario_config comps) ;;
      manifest <-
        (fun registry =>
           typed (generate_build_manifest json_dumps_sorted sha256_hexdigest (now i)
                                          registry target_components scenario_config)
                 registry) ;;
      create_manifests (S i) scenarios' comps
                       (dict_set manifests scenario_name manifest)
  | (_, _) :: _ => raise "AttributeError"
  end.

(** [system_specification.get("deployment_scenarios", {}).items()] *)
Definition scenarios_of (system_specification : dict pyval) : M (dict pyval) :=
  match dict_get_or system_specification "deployment_scenarios" (PDict []) with
  | PDict kvs => ret kvs
  | _ => raise "AttributeError"
  end.

Definition create_ai_system_blueprint (system_name : string)
           (system_specification : dict pyval) : M system_blueprint :=
  models <- iter_of (dict_get_or system_specification "models" (PList [])) ;;
  comps <- create_components create_ml_model_component "model_" models [] ;;
  protocols <- iter_of (dict_get_or system_specification "protocols" (PList [])) ;;
  comps <- create_components create_protocol_component "protocol_" protocols comps ;;
  architectures <-
    iter_of (dict_get_or system_specification "architectures" (PList [])) ;;
  comps <- create_components create_cognitive_architecture_component
                             "architecture_" architectures comps ;;
  scenarios <- scenarios_of system_specification ;;
  manifests <- create_manifests 0 scenarios comps [] ;;
  ret {| sys_name := system_name;
         sys_version := dict_get_or system_specification "version" (PStr "1.0.0");
         sys_components := comps;
         sys_build_manifests := manifests;
         sys_deployment_specifications := [];
         sys_benchmark_suites := _create_benchmark_suites system_specification |}.

End Blueprint.


End ReproducibleAIBuilder.

(** ** blueprints/guix_builder.py *)

Module GuixBuilder.

Import Py.

Record PackageSpec := {
  pkg_name : string;
  pkg_version : string;
  pkg_source : string;
  pkg_build_system : string;
  pkg_dependencies : list string;
  pkg_build_args : dict pyval;
  pkg_patches : list string;
  pkg_environment : dict string;
  pkg_checksum : option string           (* [Optional[str] = None] *)
}.

Record EnvironmentSpec := {
  env_name : string;
  env_description : string;
  env_base_system : string;
  env_packages : list PackageSpec;
  env_environment_vars : dict string;
  env_services : list (dict pyval);
  env_volumes : list string;
  env_network_config : dict pyval;
  env_ai_specific : dict pyval
}.

Record BuildBlueprint := {
  bp_name : string;
  bp_version : string;
  bp_created_at : string;
  bp_environment : EnvironmentSpec;
  bp_build_instructions : list string;
  bp_test_suite : list string;
  bp_benchmark_suite : list string;
  bp_deployment_config : dict pyval;
  bp_metadata : dict pyval;
  bp_hash_manifest : dict string
}.

(** [blueprint.hash_manifest = m] *)
Definition set_hash_manifest (b : BuildBlueprint) (m : dict string) : BuildBlueprint :=
  {| bp_name := bp_name b;
     bp_version := bp_version b;
     bp_created_at := bp_created_at b;
     bp_environment := bp_environment b;
     bp_build_instructions := bp_build_instructions b;
     bp_test_suite := bp_test_suite b;
     bp_benchmark_suite := bp_benchmark_suite b;
     bp_deployment_config := bp_deployment_config b;
     bp_metadata := bp_metadata b;
     bp_hash_manifest := m |}.

(** *** Python truthiness, as [not x] and [bool(x)] use it *)

Definition truthy_str (s : string) : bool :=
  match s with EmptyString => false | _ => true end.

Definition truthy_opt_str (o : option string) : bool :=
  match o with None => false | Some s => truthy_str s end.

Definition truthy_dict {V} (d : dict V) : bool :=
  match d with [] => false | _ => true end.

(** *** [validate_reproducibility] *)

Record validation_results := {
  has_version_pinning : bool;
  has_checksums : bool;
  has_hash_manifest : bool;
  build_deterministic : bool;
  dependencies_resolved : bool
}.

Definition clear_version_pinning (r : validation_results) : validation_results :=
  {| has_version_pinning := false;
     has_checksums := has_checksums r;
     has_hash_manifest := has_hash_manifest r;
     build_deterministic := build_deterministic r;
     dependencies_resolved := dependencies_resolved r |}.

Definition clear_checksums (r : validation_results) : validation_results :=
  {| has_version_pinning := has_version_pinning r;
     has_checksums := false;
     has_hash_manifest := has_hash_manifest r;
     build_deterministic := build_deterministic r;
     dependencies_resolved := dependencies_resolved r |}.

(** [if not package.version or package.version == "latest": ...] *)
Definition check_version (r : validation_results) (package : PackageSpec)
  : validation_results :=
  if negb (truthy_str (pkg_version package)) || String.eqb (pkg_version package) "latest"
  then clear_version_pinning r else r.

(** [if not package.checksum: ...] *)
Definition check_checksum (r : validation_results) (package : PackageSpec)
  : validation_results :=
  if negb (truthy_opt_str (pkg_checksum package)) then clear_checksums r else r.

Definition validate_reproducibility (blueprint : BuildBlueprint) : validation_results :=
  let r0 := {| has_version_pinning := true;
               has_checksums := true;
               has_hash_manifest := truthy_dict (bp_hash_manifest blueprint);
               build_deterministic := true;
               dependencies_resolved := true |} in
  let packages := env_packages (bp_environment blueprint) in
  let r1 := fold_left check_version packages r0 in
  fold_left check_checksum packages r1.

(** *** [dataclasses.asdict] *)

Definition str_list (l : list string) : pyval := PList (PStr <$> l).

Definition str_dict (d : dict string) : pyval :=
  PDict ((fun kv => (kv.1, PStr kv.2)) <$> d).

Definition opt_str (o : option string) : pyval :=
  match o with None => PNone | Some s => PStr s end.

Definition asdict_package (p : PackageSpec) : dict pyval :=
  [("name", PStr (pkg_name p));
   ("version", PStr (pkg_version p));
   ("source", PStr (pkg_source p));
   ("build_system", PStr (pkg_build_system p));
   ("dependencies", str_list (pkg_dependencies p));
   ("build_args", PDict (pkg_build_args p));
   ("patches", str_list (pkg_patches p));
   ("environment", str_dict (pkg_environment p));
   ("checksum", opt_str (pkg_checksum p))].

Definition asdict_environment (e : EnvironmentSpec) : dict pyval :=
  [("name", PStr (env_name e));
   ("description", PStr (env_description e));
   ("base_system", PStr (env_base_system e));
   ("packages", PList ((fun p => PDict (asdict_package p)) <$> env_packages e));
   ("environment_vars", str_dict (env_environment_vars e));
   ("services", PList (PDict <$> env_services e));
   ("volumes", str_list (env_volumes e));
   ("network_config", PDict (env_network_config e));
   ("ai_specific", PDict (env_ai_specific e))].

Definition asdict_blueprint (b : BuildBlueprint) : dict pyval :=
  [("name", PStr (bp_name b));
   ("version", PStr (bp_version b));
   ("created_at", PStr (bp_created_at b));
   ("environment", PDict (asdict_environment (bp_environment b)));
   ("build_instructions", str_list (bp_build_instructions b));
   ("test_suite", str_list (bp_test_suite b));
   ("benchmark_suite", str_list (bp_benchmark_suite b));
   ("deployment_config", PDict (bp_deployment_config b));
   ("metadata", PDict (bp_metadata b));
   ("hash_manifest", str_dict (bp_hash_manifest b))].

(** [d.pop(k, None)], keeping the dictionary only. *)
Fixpoint dict_pop {V} (d : dict V) (k : string) : dict V :=
  match d with
  | [] => []
  | (k', v) :: d' => if String.eqb k' k then d' else (k', v) :: dict_pop d' k
  end.

(** *** [_generate_hash_manifest] *)

Section HashManifest.

(** [json.dumps(_, sort_keys=True)] and
    [hashlib.sha256(_.encode()).hexdigest()] are library functions;
    the manifest is defined for any two such functions. *)
Variable json_dumps_sorted : pyval -> string.
Variable sha256_hexdigest : string -> string.

Definition hash_package (manifest : dict string) (package : PackageSpec)
  : dict string :=
  let package_json := json_dumps_sorted (PDict (asdict_package package)) in
  dict_set manifest ("package_" +:+ pkg_name package) (sha256_hexdigest package_json).

Definition _generate_hash_manifest (blueprint : BuildBlueprint) : dict string :=
  let blueprint_dict := dict_pop (asdict_blueprint blueprint) "hash_manifest" in
  let blueprint_json := json_dumps_sorted (PDict blueprint_dict) in
  let manifest := dict_set [] "blueprint_spec" (sha256_hexdigest blueprint_json) in
  let manifest :=
    fold_left hash_package (env_packages (bp_environment blueprint)) manifest in
  let build_instructions_str :=
    String.concat (String (ascii_of_nat 10) EmptyString)
                  (bp_build_instructions blueprint) in
  dict_set manifest "build_instructions" (sha256_hexdigest build_instructions_str).

End HashManifest.

(** *** [_generate_build_instructions] *)

Section BuildInstructions.

(** [str(v)] on the values that are not strings. *)
Variable repr : pyval -> string.

Definition format_value (v : pyval) : string :=
  match v with
  | PStr s => s
  | _ => repr v
  end.

(** The lines a package adds: an install step for the build systems
    [python] and [nodejs], nothing for any other. *)
Definition install_lines (package : PackageSpec) : list string :=
  if String.eqb (pkg_build_system package) "python" then
    ["# Install " +:+ pkg_name package +:+ " v" +:+ pkg_version package;
     "RUN pip install " +:+ pkg_name package +:+ "==" +:+ pkg_version package;
     ""]
  else if String.eqb (pkg_build_system package) "nodejs" then
    ["# Install " +:+ pkg_name package +:+ " v" +:+ pkg_version package;
     "RUN npm install -g " +:+ pkg_name package +:+ "@" +:+ pkg_version package;
     ""]
  else [].

(** [v[0]] *)
Definition first_item (v : pyval) : outcome pyval :=
  match v with
  | PList (x :: _) => Returned x
  | PList [] => Raised "IndexError"
  | PStr (String c _) => Returned (PStr (String c EmptyString))
  | PStr EmptyString => Raised "IndexError"
  | PDict _ => Raised "KeyError"
  | _ => Raised "TypeError"
  end.

(** [service['ports'][0].split(':')[1]] *)
Definition exposed_port (service : dict pyval) : outcome string :=
  match dict_get service "ports" with
  | None => Raised "KeyError"
  | Some ports =>
      match first_item ports with
      | Raised e => Raised e
      | Returned (PStr mapping) =>
          match split_on ":" mapping !! 1 with
          | Some port => Returned port
          | None => Raised "IndexError"
          end
      | Returned _ => Raised "AttributeError"
      end
  end.

(** The two lines a service adds. *)
Definition service_lines (service : dict pyval) : outcome (list string) :=
  match dict_get service "name" with
  | None => Raised "KeyError"
  | Some service_name =>
      match exposed_port service with
      | Raised e => Raised e
      | Returned port =>
          Returned ["# Service: " +:+ format_value service_name; "EXPOSE " +:+ port]
      end
  end.

Fixpoint all_service_lines (services : list (dict pyval)) : outcome (list string) :=
  match services with
  | [] => Returned []
  | service :: services' =>
      match service_lines service with
      | Raised e => Raised e
      | Returned lines =>
          match all_service_lines services' with
          | Raised e => Raised e
          | Returned lines' => Returned (lines ++ lines')
          end
      end
  end.

Definition _generate_build_instructions (env_spec : EnvironmentSpec)
  : outcome (list string) :=
  let instructions :=
    ["# Build instructions for " +:+ env_name env_spec;
     "FROM " +:+ env_base_system env_spec;
     "";
     "# Set up base system";
     "RUN apt-get update && apt-get install -y curl wget git build-essential";
     ""] in
  let instructions :=
    fold_left (fun instructions package => instructions ++ install_lines package)
              (env_packages env_spec) instructions in
  let instructions :=
    if truthy_dict (env_environment_vars env_spec) then
      instructions ++ ["# Set environment variables"]
        ++ ((fun kv => "ENV " +:+ kv.1 +:+ "=" +:+ kv.2)
              <$> env_environment_vars env_spec)
        ++ [""]
    else instructions in
  match env_services env_spec with
  | [] => Returned instructions
  | services =>
      match all_service_lines services with
      | Raised e => Raised e
      | Returned lines =>
          Returned (instructions ++ ["# Set up services"] ++ lines ++ [""])
      end
  end.

End BuildInstructions.


(** *** [create_ai_workbench_blueprint] *)

(** [bool(v)] *)
Definition truthy (v : pyval) : bool :=
  match v with
  | PNone => false
  | PBool b => b
  | PInt n => negb (n =? 0)%Z
  | PFloat x => negb (PrimFloat.eqb x 0%float)
  | PStr s => truthy_str s
  | PList xs => nonempty_list xs
  | PDict kvs => truthy_dict kvs
  end.

(** [{**a, **b}] *)
Definition dict_merge {V} (a b : dict V) : dict V :=
  fold_left (fun m kv => dict_set m kv.1 kv.2) b a.

(** The configuration is a [Dict[str, Any]], the dataclasses are
    typed.  Building a specification from a configuration gives
    [Some (Returned x)], [Some (Raised e)] when the code raises before
    any ill-typed value was stored, and [None] when the configuration
    holds a value of another type than the field it goes to declares. *)
Definition built (A : Type) : Type := option (outcome A).

Definition bind {A B} (m : built A) (f : A -> built B) : built B :=
  match m with
  | None => None
  | Some (Raised e) => Some (Raised e)
  | Some (Returned a) => f a
  end.

Definition typed {A} (o : option A) : built A :=
  match o with
  | Some a => Some (Returned a)
  | None => None
  end.

(** [config.get(k, dflt)] where a string is expected. *)
Definition get_str (config : dict pyval) (k dflt : string) : option string :=
  match dict_get config k with
  | None => Some dflt
  | Some v => as_str v
  end.

(** [kw.get(k, dflt)] through a reader of the expected type. *)
Definition field_or {A} (kw : dict pyval) (k : string)
           (read : pyval -> option A) (dflt : A) : option A :=
  match dict_get kw k with
  | None => Some dflt
  | Some v => read v
  end.

Definition package_fields : list string :=
  ["name"; "version"; "source"; "build_system"; "dependencies";
   "build_args"; "patches"; "environment"; "checksum"].

(** [PackageSpec] called with the keyword arguments [kw]:
    [TypeError] on a keyword that is no field and on a missing
    required field. *)
Definition package_of_kwargs (kw : dict pyval) : built PackageSpec :=
  if negb (forallb (fun k => bool_decide (k ∈ package_fields)) (dict_keys kw))
  then Some (Raised "TypeError")
  else
    match dict_get kw "name", dict_get kw "version",
          dict_get kw "source", dict_get kw "build_system" with
    | Some name, Some version, Some source, Some build_system =>
        match as_str name, as_str version, as_str source, as_str build_system,
              field_or kw "dependencies" as_str_list [],
              field_or kw "build_args" as_dict [],
              field_or kw "patches" as_str_list [],
              field_or kw "environment" as_str_dict [],
              field_or kw "checksum" as_opt_str None with
        | Some name, Some version, Some source, Some build_system,
          Some dependencies, Some build_args, Some patches,
          Some environment, Some checksum =>
            Some (Returned
              {| pkg_name := name; pkg_version := version; pkg_source := source;
                 pkg_build_system := build_system;
                 pkg_dependencies := dependencies; pkg_build_args := build_args;
                 pkg_patches := patches; pkg_environment := environment;
                 pkg_checksum := checksum |})
        | _, _, _, _, _, _, _, _, _ => None
        end
    | _, _, _, _ => Some (Raised "TypeError")
    end.

(** [PackageSpec] called with [pkg] unpacked as keyword arguments:
    [TypeError] when [pkg] is no mapping. *)
Definition package_of (pkg : pyval) : built PackageSpec :=
  match pkg with
  | PDict kw => package_of_kwargs kw
  | _ => Some (Raised "TypeError")
  end.

(** The list comprehension over [items]. *)
Fixpoint packages_of (items : list pyval) : built (list PackageSpec) :=
  match items with
  | [] => Some (Returned [])
  | pkg :: items' =>
      bind (package_of pkg) (fun p =>
      bind (packages_of items') (fun ps =>
      Some (Returned (p :: ps))))
  end.

(** The packages [config["enterprise_ml_packages"]] adds.  Iterating
    over a string gives strings, over a dictionary its keys, and a
    number is not iterable: a true value that is no list raises. *)
Definition enterprise_packages (config : dict pyval) : built (list PackageSpec) :=
  match dict_get config "enterprise_ml_packages" with
  | None => Some (Returned [])
  | Some v =>
      if truthy v then
        match v with
        | PList items => packages_of items
        | _ => Some (Raised "TypeError")
        end
      else Some (Returned [])
  end.

(** [{..., **config.get("environment_vars", {})}] *)
Definition merged_environment_vars (base : dict string) (config : dict pyval)
  : built (dict string) :=
  match dict_get config "environment_vars" with
  | None => Some (Returned base)
  | Some (PDict kvs) => typed (dict_merge base <$> as_str_items kvs)
  | Some _ => Some (Raised "TypeError")
  end.

Definition package (name version source build_system : string)
           (dependencies : list string) (build_args : dict pyval) : PackageSpec :=
  {| pkg_name := name; pkg_version := version; pkg_source := source;
     pkg_build_system := build_system; pkg_dependencies := dependencies;
     pkg_build_args := build_args; pkg_patches := []; pkg_environment := [];
     pkg_checksum := None |}.

Definition _create_ml_research_environment (config : dict pyval)
  : built EnvironmentSpec :=
  bind (typed (get_str config "pytorch_version" "2.1.0")) (fun pytorch_version =>
  bind (typed (get_str config "transformers_version" "4.35.0")) (fun transformers_version =>
  bind (typed (get_str config "datasets_version" "2.14.0")) (fun datasets_version =>
  let packages :=
    [package "pytorch" pytorch_version "https://download.pytorch.org/whl/cpu"
             "python" ["numpy"; "pillow"]
             [("index_url", PStr "https://download.pytorch.org/whl/cpu")];
     package "transformers" transformers_version
             "https://github.com/huggingface/transformers"
             "python" ["torch"; "tokenizers"; "safetensors"] [];
     package "datasets" datasets_version
             "https://github.com/huggingface/datasets"
             "python" ["pandas"; "pyarrow"; "fsspec"] [];
     package "jupyter" "1.0.0" "https://github.com/jupyter/jupyter"
             "python" ["notebook"; "ipykernel"; "ipywidgets"] []] in
  bind (enterprise_packages config) (fun enterprise =>
  let packages := packages ++ enterprise in
  bind (typed (get_str config "base_system" "python:3.11-slim")) (fun base_system =>
  bind (merged_environment_vars
          [("PYTORCH_CUDA_ALLOC_CONF", "max_split_size_mb:512");
           ("TRANSFORMERS_CACHE", "/workspace/cache/transformers");
           ("HF_DATASETS_CACHE", "/workspace/cache/datasets")] config)
       (fun environment_vars =>
  Some (Returned
    {| env_name := "ml_research_environment";
       env_description := "Optimized environment for ML research and experimentation";
       env_base_system := base_system;
       env_packages := packages;
       env_environment_vars := environment_vars;
       env_services := [];
       env_volumes := [];
       env_network_config := [];
       env_ai_specific :=
         [("gpu_support", dict_get_or config "gpu_support" (PBool false));
          ("distributed_training",
           dict_get_or config "distributed_training" (PBool false));
          ("model_parallelism", dict_get_or config "model_parallelism" (PBool false));
          ("memory_optimization",
           dict_get_or config "memory_optimization" (PBool true))] |}))))))).

Definition protocol_services : list (dict pyval) :=
  [[("name", PStr "mcp_server");
    ("command", PStr "node protocols/mcp/server.js");
    ("ports", PList [PStr "8765:8765"]);
    ("health_check", PStr "ws://localhost:8765/health")];
   [("name", PStr "lsp_server");
    ("command", PStr "node protocols/lsp/server.js");
    ("ports", PList [PStr "8766:8766"]);
    ("health_check", PStr "tcp://localhost:8766")]].

Definition _create_protocol_design_environment (config : dict pyval)
  : built EnvironmentSpec :=
  bind (typed (get_str config "node_version" "20.0.0")) (fun node_version =>
  bind (typed (get_str config "mcp_version" "1.0.0")) (fun mcp_version =>
  let packages :=
    [package "nodejs" node_version "https://nodejs.org/dist/" "make" [] [];
     package "typescript" "5.3.0" "https://registry.npmjs.org/typescript"
             "nodejs" ["nodejs"] [];
     package "mcp-sdk" mcp_version "https://github.com/microsoft/mcp-sdk"
             "nodejs" ["typescript"; "websockets"] [];
     package "vscode-languageserver" "9.0.1"
             "https://github.com/microsoft/vscode-languageserver-node"
             "nodejs" ["typescript"] [];
     package "antlr4" "4.13.1" "https://github.com/antlr/antlr4"
             "java" ["openjdk-11"] []] in
  bind (typed (get_str config "base_system" "node:20-slim")) (fun base_system =>
  bind (merged_environment_vars
          [("NODE_ENV", "development");
           ("MCP_SERVER_PORT", "8765");
           ("LSP_SERVER_PORT", "8766")] config)
       (fun environment_vars =>
  Some (Returned
    {| env_name := "protocol_design_environment";
       env_description := "Environment for MCP/LSP protocol design and implementation";
       env_base_system := base_system;
       env_packages := packages;
       env_environment_vars := environment_vars;
       env_services := protocol_services;
       env_volumes := [];
       env_network_config := [];
       env_ai_specific :=
         [("protocol_introspection", PBool true);
          ("real_time_optimization", PBool true);
          ("natural_language_interface", PBool true);
          ("enterprise_integration",
           dict_get_or config "enterprise_integration" (PBool true))] |}))))).

Definition _create_hybrid_workbench_environment (config : dict pyval)
  : built EnvironmentSpec :=
  bind (_create_ml_research_environment config) (fun ml_env =>
  bind (_create_protocol_design_environment config) (fun protocol_env =>
  let all_packages := env_packages ml_env ++ env_packages protocol_env in
  let merged_env_vars :=
    dict_merge (env_environment_vars ml_env) (env_environment_vars protocol_env) in
  let merged_ai_config :=
    dict_merge (env_ai_specific ml_env) (env_ai_specific protocol_env) in
  bind (typed (get_str config "base_system" "ubuntu:24.04")) (fun base_system =>
  Some (Returned
    {| env_name := "hybrid_workbench_environment";
       env_description := "Complete AI workbench with ML and protocol capabilities";
       env_base_system := base_system;
       env_packages := all_packages;
       env_environment_vars := merged_env_vars;
       env_services := env_services protocol_env;
       env_volumes := [];
       env_network_config := [];
       env_ai_specific := merged_ai_config |})))).

(** [workbench_type in ["ml_research", "hybrid_workbench"]] and
    [workbench_type in ["protocol_design", "hybrid_workbench"]] *)
Definition is_ml (workbench_type : string) : bool :=
  String.eqb workbench_type "ml_research" || String.eqb workbench_type "hybrid_workbench".

Definition is_protocol (workbench_type : string) : bool :=
  String.eqb workbench_type "protocol_design"
  || String.eqb workbench_type "hybrid_workbench".

Definition _generate_test_suite (workbench_type : string) : list string :=
  let base_tests :=
    ["# Basic environment tests";
     "python --version";
     "pip list";
     "python -c 'import sys; print(sys.path)'"] in
  let base_tests :=
    if is_ml workbench_type then
      base_tests ++
      ["# ML framework tests";
       "python -c 'import torch; print(f" +:+ quoted "PyTorch: {torch.__version__}"
         +:+ ")'";
       "python -c 'import transformers; print(f"
         +:+ quoted "Transformers: {transformers.__version__}" +:+ ")'";
       "python -c 'import torch; x = torch.randn(10, 10); print(f"
         +:+ quoted "Tensor ops work: {x.sum()}" +:+ ")'"]
    else base_tests in
  if is_protocol workbench_type then
    base_tests ++
    ["# Protocol framework tests";
     "node --version";
     "npm list -g typescript";
     "node -e 'console.log(" +:+ quoted "Node.js runtime works" +:+ ")'"]
  else base_tests.

Definition _generate_benchmark_suite (workbench_type : string) : list string :=
  let benchmarks :=
    ["# Performance benchmarks";
     "time python -c 'import torch; torch.randn(1000, 1000).sum()'"] in
  let benchmarks :=
    if is_ml workbench_type then
      benchmarks ++
      ["# ML performance benchmarks";
       "python -c 'import torch; import time; start=time.time(); x=torch.randn(5000,5000); y=torch.matmul(x,x); print(f"
         +:+ quoted "Matrix multiply time: {time.time()-start:.3f}s" +:+ ")'";
       "python -c 'from transformers import AutoTokenizer; tokenizer = AutoTokenizer.from_pretrained("
         +:+ quoted "bert-base-uncased" +:+ "); print(f"
         +:+ quoted "Tokenizer load time measured" +:+ ")'"]
    else benchmarks in
  if is_protocol workbench_type then
    benchmarks ++
    ["# Protocol performance benchmarks";
     "node -e 'console.time(" +:+ quoted "startup" +:+ "); require("
       +:+ quoted "ws" +:+ "); console.timeEnd(" +:+ quoted "startup" +:+ ")'"]
  else benchmarks.

Definition _generate_deployment_config (config : dict pyval) : dict pyval :=
  [("container_runtime", dict_get_or config "container_runtime" (PStr "docker"));
   ("orchestration", dict_get_or config "orchestration" (PStr "kubernetes"));
   ("scaling",
    PDict [("min_replicas", dict_get_or config "min_replicas" (PInt 1));
           ("max_replicas", dict_get_or config "max_replicas" (PInt 10));
           ("target_cpu", dict_get_or config "target_cpu" (PInt 70))]);
   ("networking",
    PDict [("service_mesh", dict_get_or config "service_mesh" (PBool false));
           ("load_balancer", dict_get_or config "load_balancer" (PStr "nginx"))]);
   ("security",
    PDict [("pod_security_context", dict_get_or config "security_context" (PDict []));
           ("network_policies", dict_get_or config "network_policies" (PList []))])].

(** The environment of a workbench type.  The class has no method
    [_create_nn_development_environment]: looking it up raises. *)
Definition environment_of (workbench_type : string) (config : dict pyval)
  : built EnvironmentSpec :=
  if String.eqb workbench_type "ml_research" then
    _create_ml_research_environment config
  else if String.eqb workbench_type "nn_development" then
    Some (Raised "AttributeError")
  else if String.eqb workbench_type "protocol_design" then
    _create_protocol_design_environment config
  else if String.eqb workbench_type "hybrid_workbench" then
    _create_hybrid_workbench_environment config
  else Some (Raised "ValueError").

Section Create.

Variable json_dumps_sorted : pyval -> string.
Variable sha256_hexdigest : string -> string.
Variable repr : pyval -> string.

(** [now] is [datetime.now().isoformat()], [build_history] the
    generator's list of blueprints; the result pairs the outcome with
    the list after the call. *)
Definition create_ai_workbench_blueprint
           (now : string) (build_history : list BuildBlueprint)
           (workbench_type : string) (enterprise_config : option (dict pyval))
  : option (outcome BuildBlueprint * list BuildBlueprint) :=
  let enterprise_config := default [] enterprise_config in
  match environment_of workbench_type enterprise_config with
  | None => None
  | Some (Raised e) => Some (Raised e, build_history)
  | Some (Returned env_spec) =>
      match _generate_build_instructions repr env_spec with
      | Raised e => Some (Raised e, build_history)
      | Returned build_instructions =>
          let blueprint :=
            {| bp_name := workbench_type +:+ "_blueprint";
               bp_version := "1." +:+ str_of_nat (length build_history);
               bp_created_at := now;
               bp_environment := env_spec;
               bp_build_instructions := build_instructions;
               bp_test_suite := _generate_test_suite workbench_type;
               bp_benchmark_suite := _generate_benchmark_suite workbench_type;
               bp_deployment_config := _generate_deployment_config enterprise_config;
               bp_metadata :=
                 [("workbench_type", PStr workbench_type);
                  ("enterprise_customizations",
                   PBool (truthy_dict enterprise_config));
                  ("reproducible", PBool true);
                  ("ai_optimized", PBool true)];
               bp_hash_manifest := [] |} in
          let blueprint :=
            set_hash_manifest blueprint
              (_generate_hash_manifest json_dumps_sorted sha256_hexdigest blueprint) in
          Some (Returned blueprint, build_history ++ [blueprint])
      end
  end.

End Create.


End GuixBuilder.


(** ** protocols/lsp/server.py *)

Module LSPServer.

Import Py.

(** *** Characters and strings

    A [str] is a sequence of code points; the embedding covers the
    code points below 256, where the character classes of Python are
    the following. *)

Definition between (lo hi n : nat) : bool := Nat.leb lo n && Nat.leb n hi.

Definition LF : ascii := ascii_of_nat 10.
Definition CR : ascii := ascii_of_nat 13.

(** [c.isspace()] *)
Definition isspace (c : ascii) : bool :=
  let n := nat_of_ascii c in
  between 9 13 n || between 28 32 n || Nat.eqb n 133 || Nat.eqb n 160.

(** [c.isdigit()]: the decimal digits and the superscripts 1, 2, 3. *)
Definition isdigit_char (c : ascii) : bool :=
  let n := nat_of_ascii c in
  between 48 57 n || Nat.eqb n 178 || Nat.eqb n 179 || Nat.eqb n 185.

(** [c.isalnum()] *)
Definition isalnum (c : ascii) : bool :=
  let n := nat_of_ascii c in
  between 48 57 n || between 65 90 n || between 97 122 n
  || Nat.eqb n 170 || Nat.eqb n 178 || Nat.eqb n 179 || Nat.eqb n 181
  || Nat.eqb n 185 || Nat.eqb n 186 || between 188 190 n
  || (between 192 255 n && negb (Nat.eqb n 215) && negb (Nat.eqb n 247)).

Fixpoint str_forall (f : ascii -> bool) (s : string) : bool :=
  match s with
  | EmptyString => true
  | String c s' => f c && str_forall f s'
  end.

(** [s.isdigit()]: false on the empty string. *)
Definition isdigit (s : string) : bool := nonempty_str s && str_forall isdigit_char s.

(** [s.lstrip()], [s.rstrip()], [s.strip()] *)
Fixpoint lstrip (s : string) : string :=
  match s with
  | EmptyString => EmptyString
  | String c s' => if isspace c then lstrip s' else s
  end.

Fixpoint rstrip (s : string) : string :=
  match s with
  | EmptyString => EmptyString
  | String c s' =>
      match rstrip s' with
      | EmptyString => if isspace c then EmptyString else String c EmptyString
      | r => String c r
      end
  end.

Definition strip (s : string) : string := rstrip (lstrip s).

(** [s.split(sep, 1)] when [sep in s], [None] when it is not. *)
Fixpoint split_once (sep : ascii) (s : string) : option (string * string) :=
  match s with
  | EmptyString => None
  | String c s' =>
      if Ascii.eqb c sep then Some (EmptyString, s')
      else match split_once sep s' with
           | Some (l, r) => Some (String c l, r)
           | None => None
           end
  end.

(** [s.split(sep)] *)
Fixpoint split (sep : ascii) (s : string) : list string :=
  match s with
  | EmptyString => [EmptyString]
  | String c s' =>
      if Ascii.eqb c sep then EmptyString :: split sep s'
      else match split sep s' with
           | l :: ls => String c l :: ls
           | [] => [String c EmptyString]
           end
  end.

(** [int(s)] on a string for which [s.isdigit()] holds: the value in
    base ten, [None] ([ValueError]) when a superscript digit occurs. *)
Definition int_of_digits (s : string) : option Z :=
  match NilZero.uint_of_string s with
  | Some d => Some (Z.of_nat (Nat.of_uint d))
  | None => None
  end.

(** *** Standard input as a text stream *)

(** [stdin.readline()]: the line read, its newline included, and
    what is left of the stream; the empty string at end of file. *)
Fixpoint readline (stdin : string) : string * string :=
  match stdin with
  | EmptyString => (EmptyString, EmptyString)
  | String c rest =>
      if Ascii.eqb c LF then (String c EmptyString, rest)
      else let (l, rest') := readline rest in (String c l, rest')
  end.

(** [stdin.read(n)] for [n >= 0]. *)
Fixpoint read_chars (n : nat) (stdin : string) : string * string :=
  match n, stdin with
  | S n', String c rest => let (l, rest') := read_chars n' rest in (String c l, rest')
  | _, _ => (EmptyString, stdin)
  end.

(** [stdin.read(n)]: a negative size reads to the end of the stream. *)
Definition read (n : Z) (stdin : string) : string * string :=
  if (n <? 0)%Z then (stdin, EmptyString) else read_chars (Z.to_nat n) stdin.

(** What a text stream opened with universal newlines hands to
    [readline] and [read]: CR LF and a lone CR arrive as LF. *)
Fixpoint universal_newlines (s : string) : string :=
  match s with
  | EmptyString => EmptyString
  | String c s' =>
      if Ascii.eqb c CR then
        match s' with
        | String c' s'' =>
            if Ascii.eqb c' LF then String LF (universal_newlines s'')
            else String LF (universal_newlines s')
        | EmptyString => String LF EmptyString
        end
      else String c (universal_newlines s')
  end.


(** *** The framing reader and writer *)

(** [_read_header]: the loop reads lines until a blank one.  The
    fuel bounds the number of lines read; [None] is fuel exhausted.
    The result carries what is left of the stream. *)
Fixpoint read_header_loop (fuel : nat) (stdin : string) (header : dict pyval)
  : option (outcome (option (dict pyval)) * string) :=
  match fuel with
  | O => None
  | S fuel' =>
      let (raw, stdin') := readline stdin in
      let line := strip raw in
      if negb (nonempty_str line) then
        if nonempty_list header then Some (Returned (Some header), stdin')
        else Some (Returned None, stdin')
      else
        match split_once ":" line with
        | Some (key, value) =>
            if isdigit (strip value) then
              match int_of_digits (strip value) with
              | Some n =>
                  read_header_loop fuel' stdin' (dict_set header (strip key) (PInt n))
              | None => Some (Raised "ValueError", stdin')
              end
            else
              read_header_loop fuel' stdin'
                               (dict_set header (strip key) (PStr (strip value)))
        | None => read_header_loop fuel' stdin' header
        end
  end.

(** Every line but the last takes a character off the stream, so
    one more than the length of the stream is fuel enough. *)
Definition _read_header (stdin : string)
  : option (outcome (option (dict pyval)) * string) :=
  read_header_loop (S (String.length stdin)) stdin [].

(** [_read_content]: [read] raises nothing on an [int]. *)
Definition _read_content (length : Z) (stdin : string) : option string * string :=
  let (content, stdin') := read length stdin in
  (if nonempty_str content then Some content else None, stdin').

Section Framing.

(** [json.dumps] *)
Variable json_dumps : pyval -> string.

Definition response_of (msg_id result : pyval) : pyval :=
  PDict [("jsonrpc", PStr "2.0"); ("id", msg_id); ("result", result)].

(** [_send_response]: what standard output holds after the write. *)
Definition _send_response (msg_id result : pyval) (stdout : string) : string :=
  let response := response_of msg_id result in
  let content := json_dumps response in
  let header :=
    "Content-Length: " +:+ str_of_nat (String.length content)
      +:+ String CR (String LF (String CR (String LF EmptyString))) in
  stdout +:+ (header +:+ content).

End Framing.

(** *** The document store *)

(** The parameters of a request or notification.  URIs and texts
    are strings and positions are unsigned, as the protocol types
    them; the handlers read every field with [.get] and a default, so
    every field may be absent. *)
Record TextDocument := {
  uri : option string;
  text : option string
}.

Record ContentChange := {
  change_text : option string
}.

Record Position := {
  line : option nat;
  character : option nat
}.

Record Params := {
  textDocument : option TextDocument;
  position : option Position;
  contentChanges : option (list ContentChange)
}.

(** The empty dictionary that [.get] defaults to. *)
Definition no_document : TextDocument := {| uri := None; text := None |}.
Definition no_position : Position := {| line := None; character := None |}.

(** [self.documents] *)
Abbreviation documents := (gmap string string).

Definition _handle_did_open (params : Params) (docs : documents) : documents :=
  let text_document := default no_document (textDocument params) in
  let uri := default "" (uri text_document) in
  let text := default "" (text text_document) in
  <[uri := text]> docs.

Definition _handle_did_change (params : Params) (docs : documents) : documents :=
  let text_document := default no_document (textDocument params) in
  let uri := default "" (uri text_document) in
  let changes := default [] (contentChanges params) in
  match changes with
  | change :: _ =>
      if decide (is_Some (docs !! uri))
      then <[uri := default "" (change_text change)]> docs
      else docs
  | [] => docs
  end.

Definition _handle_did_close (params : Params) (docs : documents) : documents :=
  let text_document := default no_document (textDocument params) in
  let uri := default "" (uri text_document) in
  if decide (is_Some (docs !! uri)) then delete uri docs else docs.

(** The three document notifications and the branch of
    [_process_message] each one takes. *)
Inductive notification : Type :=
| DidOpen (params : Params)
| DidChange (params : Params)
| DidClose (params : Params).

Definition method (n : notification) : string :=
  match n with
  | DidOpen _ => "textDocument/didOpen"
  | DidChange _ => "textDocument/didChange"
  | DidClose _ => "textDocument/didClose"
  end.

Definition notify (docs : documents) (n : notification) : documents :=
  match n with
  | DidOpen params => _handle_did_open params docs
  | DidChange params => _handle_did_change params docs
  | DidClose params => _handle_did_close params docs
  end.

(** The store after a sequence of notifications, oldest first. *)
Definition run (trace : list notification) (docs : documents) : documents :=
  fold_left notify trace docs.


(** The store as the specification words it, read off the trace
    from the most recent notification backwards: the URI a
    notification names, whether that URI was opened and not closed
    since, and the text most recently supplied for it. *)
Definition uri_of (params : Params) : string :=
  default "" (uri (default no_document (textDocument params))).

Fixpoint opened_not_closed (u : string) (newest_first : list notification) : bool :=
  match newest_first with
  | [] => false
  | DidOpen params :: older =>
      if decide (uri_of params = u) then true else opened_not_closed u older
  | DidClose params :: older =>
      if decide (uri_of params = u) then false else opened_not_closed u older
  | DidChange _ :: older => opened_not_closed u older
  end.

Fixpoint latest_text (u : string) (newest_first : list notification) : option string :=
  match newest_first with
  | [] => None
  | DidOpen params :: older =>
      if decide (uri_of params = u)
      then Some (default "" (text (default no_document (textDocument params))))
      else latest_text u older
  | DidChange params :: older =>
      match default [] (contentChanges params) with
      | change :: _ =>
          if decide (uri_of params = u) then Some (default "" (change_text change))
          else latest_text u older
      | [] => latest_text u older
      end
  | DidClose _ :: older => latest_text u older
  end.

Definition expected_document (u : string) (trace : list notification) : option string :=
  if opened_not_closed u (rev trace) then latest_text u (rev trace) else None.

(** *** Hover *)

Definition is_word_char (c : ascii) : bool := isalnum c || Ascii.eqb c "_".

(** [while start > 0 and (line[start - 1].isalnum() or line[start - 1] == '_'):
       start -= 1]; an index out of the line raises [IndexError]. *)
Fixpoint word_start (line : string) (start : nat) : outcome nat :=
  match start with
  | O => Returned O
  | S before =>
      match String.get before line with
      | Some c => if is_word_char c then word_start line before else Returned start
      | None => Raised "IndexError"
      end
  end.

(** [while end < len(line) and (line[end].isalnum() or line[end] == '_'):
       end += 1]; the loop runs at most [len(line) - end] times. *)
Fixpoint word_end (fuel : nat) (line : string) (end_ : nat) : nat :=
  match fuel with
  | O => end_
  | S fuel' =>
      if Nat.ltb end_ (String.length line) then
        match String.get end_ line with
        | Some c => if is_word_char c then word_end fuel' line (S end_) else end_
        | None => end_
        end
      else end_
  end.

Definition _get_word_at_position (docs : documents) (uri : string) (position : Position)
  : outcome (option string) :=
  match docs !! uri with
  | None => Returned None
  | Some content =>
      let lines := split LF content in
      let line_num := default 0 (line position) in
      let char_num := default 0 (character position) in
      if Nat.leb (length lines) line_num then Returned None
      else
        match lines !! line_num with
        | None => Raised "IndexError"
        | Some line =>
            if Nat.leb (String.length line) char_num then Returned None
            else
              match word_start line char_num with
              | Raised e => Raised e
              | Returned start =>
                  let end_ := word_end (String.length line - char_num) line char_num in
                  Returned (if Nat.ltb start end_
                            then Some (substring start (end_ - start) line)
                            else None)
              end
        end
  end.

Definition hover_map : dict string :=
  [("CognitiveCity", "**CognitiveCity**: A GitHub organization functioning as a cognitive city with neural transport capabilities.");
   ("ContextualMemoryPattern", "**ContextualMemoryPattern**: Patterns of action and execution traces for progressive encoding.");
   ("OperationalizedRAGFabric", "**OperationalizedRAGFabric**: Links project imperatives to agent-based issue clustering.");
   ("NeuralTransportNetwork", "**NeuralTransportNetwork**: High-bandwidth communication system between cognitive cities.");
   ("particle_swarm", "**Particle Swarm**: LLM-as-particle-swarm-accelerator for distributed cognition optimization.");
   ("activation_landscape", "**Activation Landscape**: Current state of cognitive activation across different specializations.");
   ("salience_score", "**Salience Score**: Measure of importance/relevance of a memory pattern or cognitive element.");
   ("enterprise_ai", "**Enterprise AI**: AI systems designed for enterprise-scale cognitive architectures.");
   ("neural_transport", "**Neural Transport**: Communication protocol for inter-organizational cognitive data transfer.")].

Definition _generate_hover_info (word : string) : option string :=
  dict_get hover_map word.

(** The dictionary a successful hover returns. *)
Definition markdown (value : string) : pyval :=
  PDict [("contents", PDict [("kind", PStr "markdown"); ("value", PStr value)])].

Definition _handle_hover (docs : documents) (params : Params) : outcome (option pyval) :=
  let text_document := default no_document (textDocument params) in
  let position := default no_position (position params) in
  let uri := default "" (uri text_document) in
  if decide (docs !! uri = None) then Returned None
  else
    match _get_word_at_position docs uri position with
    | Raised e => Raised e
    | Returned None => Returned None
    | Returned (Some word) =>
        if negb (nonempty_str word) then Returned None
        else
          match _generate_hover_info word with
          | None => Returned None
          | Some hover_info =>
              if negb (nonempty_str hover_info) then Returned None
              else Returned (Some (markdown hover_info))
          end
    end.

(** *** The server loop *)

Section Serve.

(** [_process_message] on the state of the server; [None] is the
    [sys.exit] of the [exit] method, which [except Exception] does not
    catch. *)
Variable State : Type.
Variable _process_message : string -> State -> option State.

(** [start_server]: read a header, read the content, process it,
    until the header is missing or something raises.  The result is
    the state the loop ends with ([None] when the process has exited)
    and what is left of the stream.  Each round but the last takes a
    character off the stream; the fuel bounds the rounds. *)
Fixpoint serve_loop (fuel : nat) (stdin : string) (st : State)
  : option (option State * string) :=
  match fuel with
  | O => None
  | S fuel' =>
      match _read_header stdin with
      | None => None
      | Some (Raised _, stdin') => Some (Some st, stdin')
      | Some (Returned None, stdin') => Some (Some st, stdin')
      | Some (Returned (Some header), stdin') =>
          match dict_get_or header "Content-Length" (PInt 0) with
          | PInt content_length =>
              if (content_length =? 0)%Z then serve_loop fuel' stdin' st
              else
                match _read_content content_length stdin' with
                | (None, stdin'') => serve_loop fuel' stdin'' st
                | (Some content, stdin'') =>
                    match _process_message content st with
                    | Some st' => serve_loop fuel' stdin'' st'
                    | None => Some (None, stdin'')
                    end
                end
          | _ =>
              (* [read] raises [TypeError] on a length that is a string,
                 [_read_content] returns [None] *)
              serve_loop fuel' stdin' st
          end
      end
  end.

Definition start_server (stdin : string) (st : State) : option (option State * string) :=
  serve_loop (S (String.length stdin)) stdin st.

End Serve.


(** *** Document symbols *)

(** [s.split()]: the maximal runs of characters that are not
    whitespace. *)
Fixpoint words (s : string) : list string :=
  match s with
  | EmptyString => []
  | String c s' =>
      if isspace c then words s'
      else
        match s' with
        | EmptyString => [String c EmptyString]
        | String c' _ =>
            if isspace c' then String c EmptyString :: words s'
            else
              match words s' with
              | w :: ws => String c w :: ws
              | [] => [String c EmptyString]
              end
        end
  end.

(** [s.rstrip(':')] *)
Fixpoint rstrip_colons (s : string) : string :=
  match s with
  | EmptyString => EmptyString
  | String c s' =>
      match rstrip_colons s' with
      | EmptyString => if Ascii.eqb c ":" then EmptyString else String c EmptyString
      | r => String c r
      end
  end.

(** [s.find(sub)]: the index of the first occurrence, [-1] when
    there is none. *)
Definition find (sub s : string) : Z :=
  match String.index 0 sub s with
  | Some i => Z.of_nat i
  | None => (-1)%Z
  end.

(** [s[start:]] for a start that is not negative. *)
Fixpoint drop_chars (n : nat) (s : string) : string :=
  match n, s with
  | S n', String _ s' => drop_chars n' s'
  | _, _ => s
  end.

(** A document symbol: its name, its kind (5 for a class, 12 for a
    function), its line, and on that line the end of its range and the
    start and end of its selection range (the range starts at 0). *)
Record symbol := {
  sym_name : string;
  sym_kind : nat;
  sym_line : nat;
  sym_range_end : nat;
  sym_selection_start : nat;
  sym_selection_end : nat
}.

(** The body of the loop of [_extract_symbols] on one line. *)
Definition symbol_of_line (line_num : nat) (raw : string) : outcome (option symbol) :=
  let line := strip raw in
  if String.prefix "class " line then
    match words line !! 1 with
    | None => Raised "IndexError"
    | Some second =>
        let class_name := rstrip_colons (default "" (head (split "(" second))) in
        Returned (Some {| sym_name := class_name;
                          sym_kind := 5;
                          sym_line := line_num;
                          sym_range_end := String.length line;
                          sym_selection_start := 6;
                          sym_selection_end := 6 + String.length class_name |})
    end
  else if String.prefix "def " line || String.prefix "async def " line then
    let func_start := Z.to_nat (find "def " line + 4) in
    let func_name := default "" (head (split "(" (drop_chars func_start line))) in
    Returned (Some {| sym_name := func_name;
                      sym_kind := 12;
                      sym_line := line_num;
                      sym_range_end := String.length line;
                      sym_selection_start := func_start;
                      sym_selection_end := func_start + String.length func_name |})
  else Returned None.

(** [for line_num, line in enumerate(lines)] *)
Fixpoint symbols_from (line_num : nat) (lines : list string) (symbols : list symbol)
  : outcome (list symbol) :=
  match lines with
  | [] => Returned symbols
  | raw :: lines' =>
      match symbol_of_line line_num raw with
      | Raised e => Raised e
      | Returned None => symbols_from (S line_num) lines' symbols
      | Returned (Some s) => symbols_from (S line_num) lines' (symbols ++ [s])
      end
  end.

Definition _extract_symbols (docs : documents) (uri : string) : outcome (list symbol) :=
  match docs !! uri with
  | None => Returned []
  | Some content => symbols_from 0 (split LF content) []
  end.

Definition _handle_document_symbol (docs : documents) (params : Params)
  : outcome (list symbol) :=
  let text_document := default no_document (textDocument params) in
  let uri := default "" (uri text_document) in
  if decide (docs !! uri = None) then Returned []
  else _extract_symbols docs uri.


End LSPServer.


(** ** protocols/mcp/server.py *)

Module MCPServer.

Import Py.

(** A websocket connection: which connection it is, and whether it
    is still open ([send] on a closed one raises [ConnectionClosed]). *)
Record websocket := {
  ws_id : nat;
  ws_open : bool
}.

Abbreviation clients_map := (gmap string websocket).

(** [self.clients], [self.study_sessions], and how many times the
    clock has been read. *)
Record server := {
  clients : clients_map;
  study_sessions : dict pyval;
  clock : nat
}.

Definition set_study_sessions (st : server) (sessions : dict pyval) : server :=
  {| clients := clients st; study_sessions := sessions; clock := clock st |}.

Definition tick (st : server) : server :=
  {| clients := clients st; study_sessions := study_sessions st;
     clock := S (clock st) |}.

(** A text frame sent on a connection. *)
Definition frame : Type := nat * string.

(** [v == "literal"]: only a string equals a string. *)
Definition is_str (v : pyval) (s : string) : bool :=
  match v with
  | PStr s' => String.eqb s' s
  | _ => false
  end.

(** [type(v).__name__] *)
Definition type_name (v : pyval) : string :=
  match v with
  | PNone => "NoneType"
  | PBool _ => "bool"
  | PInt _ => "int"
  | PFloat _ => "float"
  | PStr _ => "str"
  | PList _ => "list"
  | PDict _ => "dict"
  end.

(** Lists and dictionaries cannot be dictionary keys. *)
Definition hashable (v : pyval) : bool :=
  match v with
  | PList _ | PDict _ => false
  | _ => true
  end.

Definition str_list (l : list string) : pyval := PList (PStr <$> l).

Section Server.

(** [json.loads] ([None] is [JSONDecodeError]; the dictionaries it
    returns have distinct keys), [json.dumps], [repr] on the values
    that are not strings, and the text of the n-th reading of
    [datetime.now().isoformat()]. *)
Variable json_loads : string -> option pyval.
Variable json_dumps : pyval -> string.
Variable repr : pyval -> string.
Variable isoformat : nat -> string.

(** [str(v)], also what an f-string puts in place of [{v}]. *)
Definition str_of (v : pyval) : string :=
  match v with
  | PStr s => s
  | _ => repr v
  end.

(** [datetime.now().isoformat()] *)
Definition now (st : server) : string * server := (isoformat (clock st), tick st).

Definition generate_ml_study_content (topic : pyval) : outcome pyval :=
  let content_map : dict pyval :=
    [("hello_world",
      PDict [("concept", PStr "Introduction to Machine Learning");
             ("description", PStr "Basic ML concepts and PyTorch introduction");
             ("example_code",
              PStr ("model = nn.Linear(10, 1)" +:+ String (ascii_of_nat 10)
                      "output = model(torch.randn(1, 10))"));
             ("key_points", str_list ["Tensors"; "Neural Networks"; "Forward Pass"])]);
     ("neural_networks",
      PDict [("concept", PStr "Neural Network Architectures");
             ("description", PStr "Understanding different neural network types");
             ("example_code",
              PStr ("class MLP(nn.Module):" +:+ String (ascii_of_nat 10)
                      ("    def __init__(self):" +:+ String (ascii_of_nat 10)
                         "        super().__init__()")));
             ("key_points",
              str_list ["Layers"; "Activation Functions"; "Backpropagation"])])] in
  let fallback :=
    PDict [("concept", PStr ("Study topic: " +:+ str_of topic));
           ("description", PStr "Custom study content");
           ("note", PStr "Content generation for this topic is in development")] in
  if hashable topic then
    match topic with
    | PStr s => Returned (dict_get_or content_map s fallback)
    | _ => Returned fallback
    end
  else Raised ("unhashable type: '" +:+ type_name topic +:+ "'").

Definition generate_nn_study_content (topic : pyval) : pyval :=
  PDict [("architecture_type", topic);
         ("description",
          PStr ("Neural network architecture study for " +:+ str_of topic));
         ("implementation_notes", PStr "PyTorch-based implementation examples");
         ("research_papers",
          str_list ["Attention Is All You Need"; "ResNet"; "BERT"])].

Definition generate_cognitive_architecture_content (topic : pyval) : pyval :=
  PDict [("cognitive_pattern", topic);
         ("description", PStr "Cognitive architecture design patterns");
         ("implementation", PStr "GitHub Enterprise cognitive ecology");
         ("neural_transport_channels",
          str_list ["cogpilot"; "cogcities"; "cosmo-enterprise"])].

Definition handle_study_request (client_id : string) (data : dict pyval) (st : server)
  : outcome pyval * server :=
  let study_type := dict_get_or data "study_type" (PStr "unknown") in
  let topic := dict_get_or data "topic" (PStr "general") in
  let session_id := "session_" +:+ str_of_nat (length (study_sessions st)) in
  let (start_time, st) := now st in
  let st :=
    set_study_sessions st
      (dict_set (study_sessions st) session_id
                (PDict [("client_id", PStr client_id);
                        ("study_type", study_type);
                        ("topic", topic);
                        ("start_time", PStr start_time);
                        ("status", PStr "active")])) in
  let content :=
    if is_str study_type "ml_concepts" then generate_ml_study_content topic
    else if is_str study_type "nn_architectures"
         then Returned (generate_nn_study_content topic)
    else if is_str study_type "cognitive_architecture"
         then Returned (generate_cognitive_architecture_content topic)
    else Returned (PDict [("message",
                           PStr ("Study type '" +:+ str_of study_type
                                   +:+ "' not yet implemented"))]) in
  match content with
  | Raised e => (Raised e, st)
  | Returned content =>
      let (timestamp, st) := now st in
      (Returned (PDict [("type", PStr "study_response");
                        ("session_id", PStr session_id);
                        ("study_type", study_type);
                        ("topic", topic);
                        ("content", content);
                        ("timestamp", PStr timestamp)]), st)
  end.


Definition analyze_activation_landscape (parameters : pyval) : pyval :=
  PDict [("current_activations",
          PDict [("ml_architecture", PFloat 0.87%float);
                 ("protocol_design", PFloat 0.92%float);
                 ("neural_transport", PFloat 0.74%float)]);
         ("trending_patterns", str_list ["cognitive_cities"; "enterprise_ai"]);
         ("optimization_suggestions",
          str_list ["increase_neural_bandwidth"; "distribute_processing"])].

Definition analyze_memory_patterns (parameters : pyval) : pyval :=
  PDict [("active_patterns", PInt 15);
         ("average_salience", PFloat 0.78%float);
         ("memory_utilization", PStr "moderate");
         ("embedding_dimensions", PInt 768);
         ("recent_encodings",
          str_list ["particle_swarm_optimization"; "neural_transport"])].

Definition check_neural_transport_status (parameters : pyval) : pyval :=
  PDict [("active_channels", PInt 3);
         ("total_bandwidth", PStr "high");
         ("channel_health",
          PDict [("cogpilot_to_cogcities", PStr "excellent");
                 ("cogpilot_to_enterprise", PStr "good");
                 ("inter_org_sync", PStr "optimal")]);
         ("transport_volume_24h", PInt 1247)].

Definition handle_cognitive_query (client_id : string) (data : dict pyval) (st : server)
  : outcome pyval * server :=
  let query_type := dict_get_or data "query_type" (PStr "general") in
  let parameters := dict_get_or data "parameters" (PDict []) in
  let result :=
    if is_str query_type "activation_landscape"
    then analyze_activation_landscape parameters
    else if is_str query_type "memory_patterns"
         then analyze_memory_patterns parameters
    else if is_str query_type "neural_transport_status"
         then check_neural_transport_status parameters
    else PDict [("error", PStr ("Unknown query type: " +:+ str_of query_type))] in
  let (timestamp, st) := now st in
  (Returned (PDict [("type", PStr "cognitive_query_response");
                    ("query_type", query_type);
                    ("result", result);
                    ("timestamp", PStr timestamp)]), st).

Definition handle_neural_transport (client_id : string) (data : dict pyval) (st : server)
  : outcome pyval * server :=
  let source := dict_get_or data "source" (PStr "unknown") in
  let target := dict_get_or data "target" (PStr "unknown") in
  let payload := dict_get_or data "payload" (PDict []) in
  let transport_result :=
    PDict [("transport_id",
            PStr ("transport_" +:+ str_of_nat (length (study_sessions st))));
           ("source", source);
           ("target", target);
           ("status", PStr "transmitted");
           ("bandwidth_utilization", PFloat 0.85%float);
           ("latency_ms", PInt 42);
           ("payload_size", PInt (Z.of_nat (String.length (str_of payload))))] in
  let (timestamp, st) := now st in
  (Returned (PDict [("type", PStr "neural_transport_response");
                    ("result", transport_result);
                    ("timestamp", PStr timestamp)]), st).

Definition get_protocol_status (st : server) : pyval :=
  PDict [("server_status", PStr "running");
         ("connected_clients", PInt (Z.of_nat (size (clients st))));
         ("active_sessions", PInt (Z.of_nat (length (study_sessions st))));
         ("uptime", PStr "simulated_uptime");
         ("protocol_version", PStr "cognitive_architecture_v1.0")].

Definition get_protocol_capabilities : pyval :=
  PDict [("supported_message_types",
          str_list ["study_request"; "cognitive_architecture_query";
                    "neural_transport"; "protocol_introspection"]);
         ("study_types",
          str_list ["ml_concepts"; "nn_architectures"; "cognitive_architecture"]);
         ("query_types",
          str_list ["activation_landscape"; "memory_patterns";
                    "neural_transport_status"]);
         ("transport_features",
          str_list ["high_bandwidth"; "semantic_routing"; "context_preservation"])].

Definition get_protocol_performance : pyval :=
  PDict [("average_response_time_ms", PInt 25);
         ("message_throughput", PStr "high");
         ("error_rate", PFloat 0.02%float);
         ("bandwidth_efficiency", PFloat 0.91%float);
         ("client_satisfaction", PFloat 0.96%float)].

Definition handle_protocol_introspection (client_id : string) (data : dict pyval)
           (st : server) : outcome pyval * server :=
  let introspection_type := dict_get_or data "introspection_type" (PStr "status") in
  let result :=
    if is_str introspection_type "status" then get_protocol_status st
    else if is_str introspection_type "capabilities" then get_protocol_capabilities
    else if is_str introspection_type "performance" then get_protocol_performance
    else PDict [("error",
                 PStr ("Unknown introspection type: "
                         +:+ str_of introspection_type))] in
  let (timestamp, st) := now st in
  (Returned (PDict [("type", PStr "protocol_introspection_response");
                    ("introspection_type", introspection_type);
                    ("result", result);
                    ("timestamp", PStr timestamp)]), st).

(** [send_response]: the frames that go out.  Nothing is sent to a
    client that is not registered, and [ConnectionClosed] is caught. *)
Definition send_response (client_id : string) (response : pyval) (st : server)
  : list frame :=
  match clients st !! client_id with
  | Some ws => if ws_open ws then [(ws_id ws, json_dumps response)] else []
  | None => []
  end.

Definition error_response (error_message timestamp : string) : pyval :=
  PDict [("type", PStr "error");
         ("error", PStr error_message);
         ("timestamp", PStr timestamp)].

Definition send_error (client_id : string) (error_message : string) (st : server)
  : server * list frame :=
  let (timestamp, st) := now st in
  (st, send_response client_id (error_response error_message timestamp) st).

(** The body of the [try] block of [process_message] up to the
    response: the lookup of the type and the dispatch. *)
Definition route (client_id : string) (data : pyval) (st : server)
  : outcome pyval * server :=
  match data with
  | PDict data =>
      let message_type := dict_get_or data "type" (PStr "unknown") in
      if is_str message_type "study_request"
      then handle_study_request client_id data st
      else if is_str message_type "cognitive_architecture_query"
           then handle_cognitive_query client_id data st
      else if is_str message_type "neural_transport"
           then handle_neural_transport client_id data st
      else if is_str message_type "protocol_introspection"
           then handle_protocol_introspection client_id data st
      else
        let (timestamp, st) := now st in
        (Returned (PDict [("type", PStr "error");
                          ("error",
                           PStr ("Unknown message type: " +:+ str_of message_type));
                          ("timestamp", PStr timestamp)]), st)
  | _ =>
      (Raised ("'" +:+ type_name data +:+ "' object has no attribute 'get'"), st)
  end.

(** What follows a handler: the response is sent, or the exception
    is reported with [send_error]. *)
Definition respond (client_id : string) (r : outcome pyval * server)
  : server * list frame :=
  match r with
  | (Returned response, st) => (st, send_response client_id response st)
  | (Raised e, st) => send_error client_id e st
  end.

Definition process_message (client_id : string) (message : string) (st : server)
  : server * list frame :=
  match json_loads message with
  | None => send_error client_id "Invalid JSON format" st
  | Some data => respond client_id (route client_id data st)
  end.

End Server.

(** *** A connection *)

Section Connection.

Variable json_loads : string -> option pyval.
Variable json_dumps : pyval -> string.
Variable repr : pyval -> string.
Variable isoformat : nat -> string.

Definition set_clients (st : server) (cs : clients_map) : server :=
  {| clients := cs; study_sessions := study_sessions st; clock := clock st |}.

(** [f"client_{id(websocket)}"] *)
Definition client_id_of (ws : websocket) : string :=
  "client_" +:+ str_of_nat (ws_id ws).

(** [handle_client] for a connection that delivers [messages] and
    then ends (normally or with [ConnectionClosed]), no other
    connection being served in between: the client is registered, the
    messages are processed in order, the client is removed. *)
Definition handle_client (ws : websocket) (messages : list string) (st : server)
  : server * list frame :=
  let client_id := client_id_of ws in
  let st := set_clients st (<[client_id := ws]> (clients st)) in
  let '(st, sent) :=
    fold_left
      (fun '(st, sent) message =>
         let '(st', out) :=
           process_message json_loads json_dumps repr isoformat client_id message st in
         (st', sent ++ out))
      messages (st, []) in
  (set_clients st (delete client_id (clients st)), sent).

End Connection.


End MCPServer.


(** ** cognitive_ecology_demo.py *)

Module CognitiveEcologyDemo.

Import Py.

Record ContextualMemoryPattern := {
  pattern_id : string;
  priority_profile : dict float;
  execution_trace : list (dict pyval);
  embedding_vector : option (list float);
  salience_score : float;
  organization_context : string
}.

(** A particle of the swarm: the dictionary with the keys
    [position], [velocity], [best_position] and [best_score]. *)
Record particle := {
  position : list float;
  velocity : list float;
  best_position : option (list float);
  best_score : float
}.

(** [for x in xs: body(x)] when the body may raise. *)
Fixpoint for_each_raise {A S : Type} (body : A -> S -> outcome S)
         (xs : list A) (s : S) : outcome S :=
  match xs with
  | [] => Returned s
  | x :: xs' =>
      match body x s with
      | Returned s' => for_each_raise body xs' s'
      | Raised e => Raised e
      end
  end.

(** [max(swarm, key=lambda p: p['best_score'])]: the first particle
    that no later one beats; [None] is the [ValueError] on an empty
    swarm. *)
Definition max_by_best_score (swarm : list particle) : option particle :=
  match swarm with
  | [] => None
  | p :: ps =>
      Some (fold_left
              (fun best x =>
                 if (best_score best <? best_score x)%float then x else best)
              ps p)
  end.

(** [max(-1.0, min(1.0, x))] *)
Definition clamp (x : float) : float :=
  let upper := if (x <? 1.0)%float then x else 1.0%float in
  if (-1.0 <? upper)%float then upper else (-1.0)%float.

Section Swarm.

(** The builtin [sum] on floats: addition from left to right in the
    interpreters before 3.12, compensated summation since. *)
Variable sum : list float -> float.

Definition evaluate_memory_encoding (embedding : list float)
           (pattern : ContextualMemoryPattern) : float :=
  let cosmos_score :=
    sum (imap (fun i x =>
                 (x * dict_get_or (priority_profile pattern)
                                  ("dim_" +:+ str_of_nat i) 0.0)%float)
              embedding) in
  let coherence_score :=
    (1.0 / (1.0 + abs (sum embedding - salience_score pattern)))%float in
  (cosmos_score * coherence_score)%float.

(** One round of the loop over the coordinates in
    [update_particle_dynamics], on the position and velocity lists of
    the particle.  Subscripting [None] raises [TypeError], an index out
    of a list [IndexError]. *)
Definition update_coordinate (own_best global_best : option (list float))
           (pattern : ContextualMemoryPattern) (i : nat)
           (pv : list float * list float) : outcome (list float * list float) :=
  let (position, velocity) := pv in
  match velocity !! i with
  | None => Raised "IndexError"
  | Some v =>
      let inertia := (0.7 * v)%float in
      match own_best with
      | None => Raised "TypeError"
      | Some own_best =>
          match own_best !! i, position !! i with
          | Some b, Some x =>
              let cognitive := (1.4 * (b - x))%float in
              match global_best with
              | None => Raised "TypeError"
              | Some global_best =>
                  match global_best !! i with
                  | None => Raised "IndexError"
                  | Some g =>
                      let social := (1.4 * (g - x))%float in
                      let salience :=
                        (0.3 * salience_score pattern * 0.01)%float in
                      let v' := (inertia + cognitive + social + salience)%float in
                      let x' := (x + v')%float in
                      Returned (<[i := clamp x']> position, <[i := v']> velocity)
                  end
              end
          | _, _ => Raised "IndexError"
          end
      end
  end.

Definition update_particle_dynamics (p : particle) (swarm : list particle)
           (pattern : ContextualMemoryPattern) : outcome particle :=
  match max_by_best_score swarm with
  | None => Raised "ValueError"
  | Some best =>
      let global_best := best_position best in
      match for_each_raise (update_coordinate (best_position p) global_best pattern)
                           (seq 0 (length (velocity p)))
                           (position p, velocity p) with
      | Raised e => Raised e
      | Returned (position', velocity') =>
          Returned {| position := position'; velocity := velocity';
                      best_position := best_position p;
                      best_score := best_score p |}
      end
  end.

(** The body of [for particle in particles], on the particle at
    index [k] of the swarm: evaluate, keep the best, move. *)
Definition step_particle (pattern : ContextualMemoryPattern) (k : nat)
           (swarm : list particle) : outcome (list particle) :=
  match swarm !! k with
  | None => Raised "IndexError"
  | Some p =>
      let score := evaluate_memory_encoding (position p) pattern in
      let p1 :=
        if (best_score p <? score)%float
        then {| position := position p; velocity := velocity p;
                best_position := Some (position p); best_score := score |}
        else p in
      let swarm1 := <[k := p1]> swarm in
      match update_particle_dynamics p1 swarm1 pattern with
      | Raised e => Raised e
      | Returned p2 => Returned (<[k := p2]> swarm1)
      end
  end.

Definition initial_particle (dimension : nat) : particle :=
  {| position := replicate dimension 0.5%float;
     velocity := replicate dimension 0.1%float;
     best_position := None;
     best_score := neg_infinity |}.

(** The swarm loop for a swarm of [particles] particles of
    [dimension] coordinates and [iterations] iterations. *)
Definition swarm_optimize (particles iterations dimension : nat)
           (pattern : ContextualMemoryPattern) : outcome (option (list float)) :=
  let swarm := replicate particles (initial_particle dimension) in
  match for_each_raise
          (fun _ swarm =>
             for_each_raise (step_particle pattern) (seq 0 (length swarm)) swarm)
          (seq 0 iterations) swarm with
  | Raised e => Raised e
  | Returned swarm =>
      match max_by_best_score swarm with
      | None => Raised "ValueError"
      | Some best_particle => Returned (best_position best_particle)
      end
  end.

(** [particle_swarm_optimize]: ten particles, fifty iterations, an
    embedding of 768 dimensions. *)
Definition particle_swarm_optimize (pattern : ContextualMemoryPattern)
  : outcome (option (list float)) :=
  swarm_optimize 10 50 768 pattern.

End Swarm.

(** *** The activation landscape *)

Record CognitiveCity := {
  city_name : string;
  namespace : string;
  specializations : list string;
  neural_transport_channels : dict string;
  memory_patterns : dict pyval;
  activation_landscape : dict float
}.

(** [city.activation_landscape = landscape] *)
Definition set_activation_landscape (city : CognitiveCity) (landscape : dict float)
  : CognitiveCity :=
  {| city_name := city_name city;
     namespace := namespace city;
     specializations := specializations city;
     neural_transport_channels := neural_transport_channels city;
     memory_patterns := memory_patterns city;
     activation_landscape := landscape |}.

(** An entry of [transport_channels]: the dictionary with the keys
    [bandwidth], [latency] and [quality]. *)
Record channel := {
  bandwidth : float;
  latency : float;
  quality : float
}.

(** The fabric with its transport network.  Cities are objects that
    the fabric and its callers share and that are updated in place:
    [cities] holds the objects by address and [cognitive_cities] maps
    a namespace to the address registered under it. *)
Record fabric := {
  cities : list CognitiveCity;
  cognitive_cities : dict nat;
  transport_channels : dict channel
}.

(** [f"{namespace}::{target_namespace}"] *)
Definition channel_key_of (source target_namespace : string) : string :=
  source +:+ "::" +:+ target_namespace.

(** [establish_channels] *)
Definition establish_channels (city : CognitiveCity) (channels : dict channel)
  : dict channel :=
  fold_left
    (fun channels kv =>
       dict_set channels (channel_key_of (namespace city) kv.2)
                {| bandwidth := 1.0%float; latency := 0.1%float;
                   quality := 0.95%float |})
    (neural_transport_channels city) channels.

(** [register_cognitive_city] for the city object at [address];
    [None] when there is no such object. *)
Definition register_cognitive_city (address : nat) (f : fabric) : option fabric :=
  match cities f !! address with
  | None => None
  | Some city =>
      Some {| cities := cities f;
              cognitive_cities := dict_set (cognitive_cities f) (namespace city) address;
              transport_channels := establish_channels city (transport_channels f) |}
  end.

Section Landscape.

(** [f"{x:.3f}"] *)
Variable format_3f : float -> string.

(** [propagate_activation]: the lines it prints, after [out]. *)
Definition propagate_activation (channels : dict channel) (source_city : CognitiveCity)
           (specialty : string) (activation : float) (out : list string)
  : list string :=
  fold_left
    (fun out target_namespace =>
       let channel_key := channel_key_of (namespace source_city) target_namespace in
       match dict_get channels channel_key with
       | Some ch =>
           let transported_activation :=
             (activation * quality ch * bandwidth ch)%float in
           out ++ ["Transporting " +:+ format_3f transported_activation
                     +:+ " activation for " +:+ specialty
                     +:+ " from " +:+ namespace source_city
                     +:+ " to " +:+ target_namespace]
       | None => out
       end)
    (neural_transport_channels source_city).*2 out.

(** The body of the loop over the specializations of the city, on
    its activation landscape and the lines printed. *)
Definition boost_specialty (channels : dict channel) (city : CognitiveCity)
           (pattern : ContextualMemoryPattern)
           (st : dict float * list string) (specialty : string)
  : dict float * list string :=
  match dict_get (priority_profile pattern) specialty with
  | None => st
  | Some priority =>
      let activation_boost := (priority * salience_score pattern)%float in
      (dict_set st.1 specialty (dict_get_or st.1 specialty 0.0 + activation_boost)%float,
       propagate_activation channels city specialty activation_boost st.2)
  end.

(** [update_activation_landscape]: the fabric and the lines printed. *)
Definition update_activation_landscape (pattern : ContextualMemoryPattern)
           (f : fabric) (out : list string) : fabric * list string :=
  let org_context := organization_context pattern in
  match dict_get (cognitive_cities f) org_context with
  | None => (f, out)
  | Some address =>
      match cities f !! address with
      | None => (f, out)
      | Some city =>
          let st :=
            fold_left (boost_specialty (transport_channels f) city pattern)
                      (specializations city) (activation_landscape city, out) in
          ({| cities := <[address := set_activation_landscape city st.1]> (cities f);
              cognitive_cities := cognitive_cities f;
              transport_channels := transport_channels f |},
           st.2)
      end
  end.

End Landscape.


End CognitiveEcologyDemo.


(** * Properties *)

(** ** Generic facts about the Python building blocks *)

Module PyFacts.

Import Py.

(** Hoare-style rule for [for x in xs: body(x)]: an invariant indexed
    by the prefix already processed. *)
Lemma for_each_invariant {A S : Type} (body : A -> S -> option S)
      (I : list A -> S -> Prop) (xs : list A) (s0 s' : S) :
  I [] s0 ->
  (forall pre x post s s1,
      xs = pre ++ x :: post -> I pre s -> body x s = Some s1 ->
      I (pre ++ [x]) s1) ->
  for_each body xs s0 = Some s' ->
  I xs s'.
Proof.
  intros Hinit Hstep.
  assert (Hgen : forall post pre s,
             xs = pre ++ post -> I pre s ->
             for_each body post s = Some s' -> I xs s').
  { induction post as [|x post IH]; intros pre s Hxs Hpre Hrun; simpl in Hrun.
    - injection Hrun as <-. rewrite Hxs, app_nil_r. exact Hpre.
    - destruct (body x s) as [s1|] eqn:Hb; [|discriminate].
      apply (IH (pre ++ [x]) s1).
      + rewrite Hxs, <- app_assoc. reflexivity.
      + eapply Hstep; eauto.
      + exact Hrun. }
  intros Hrun. apply (Hgen xs [] s0); auto.
Qed.

(** A loop whose body always succeeds from states satisfying a
    preserved condition succeeds as a whole. *)
Lemma for_each_total {A S : Type} (body : A -> S -> option S)
      (P : S -> Prop) (xs : list A) (s0 : S) :
  P s0 ->
  (forall x s, x ∈ xs -> P s -> exists s1, body x s = Some s1 /\ P s1) ->
  exists s', for_each body xs s0 = Some s' /\ P s'.
Proof.
  revert s0. induction xs as [|x xs IH]; intros s0 H0 Hstep; simpl.
  - eauto.
  - destruct (Hstep x s0) as (s1 & -> & H1); [left | assumption |].
    apply IH; [assumption|]. intros y s Hy. apply Hstep. by right.
Qed.

Lemma dict_get_Some_elem {V} (d : dict V) k v : dict_get d k = Some v -> (k, v) ∈ d.
Proof.
  induction d as [|[k' v'] d IH]; simpl; [discriminate|].
  case_decide; [intros [= ->]; subst; left | intros; right; auto].
Qed.

Lemma dict_get_None_keys {V} (d : dict V) k : dict_get d k = None <-> k ∉ dict_keys d.
Proof.
  unfold dict_keys. induction d as [|[k' v'] d IH]; simpl.
  - split; [intros _; apply not_elem_of_nil | done].
  - case_decide; subst.
    + split; [discriminate | intros []; left].
    + rewrite IH, not_elem_of_cons. intuition congruence.
Qed.

Lemma size_list_to_set_le (l : list string) :
  size (list_to_set l : gset string) <= length l.
Proof.
  induction l as [|x l IH].
  - rewrite list_to_set_nil, size_empty. done.
  - rewrite list_to_set_cons, size_union_alt, size_singleton. simpl.
    pose proof (subseteq_size (list_to_set l ∖ {[x]}) (list_to_set l : gset string)) as Hle.
    specialize (Hle ltac:(set_solver)). lia.
Qed.

Lemma dict_keys_set_new {V} (d : dict V) k v :
  k ∉ dict_keys d -> dict_keys (dict_set d k v) = dict_keys d ++ [k].
Proof.
  unfold dict_keys. induction d as [|[k' v'] d IH]; simpl; [done|].
  intros [Hne Hk]%not_elem_of_cons. case_decide; [congruence|].
  simpl. f_equal. by apply IH.
Qed.

Lemma dict_get_set {V} (d : dict V) k v k' :
  dict_get (dict_set d k v) k' = if decide (k = k') then Some v else dict_get d k'.
Proof.
  induction d as [|[k0 v0] d IH]; simpl.
  - by repeat case_decide.
  - repeat (case_decide; simpl; subst); try congruence;
      rewrite IH; by case_decide.
Qed.

Lemma dict_keys_update {V} (d : dict V) k f :
  dict_keys (dict_update d k f) = dict_keys d.
Proof.
  unfold dict_keys. induction d as [|[k' v'] d IH]; simpl; [done|].
  case_decide; simpl; [done | f_equal; apply IH].
Qed.

Lemma dict_get_update {V} (d : dict V) k f k' :
  dict_get (dict_update d k f) k' =
  if decide (k = k') then f <$> dict_get d k else dict_get d k'.
Proof.
  induction d as [|[k0 v0] d IH]; simpl.
  - by case_decide.
  - repeat (case_decide; simpl; subst); try congruence.
Qed.


Lemma elem_of_concat {A} (x : A) (ls : list (list A)) :
  x ∈ concat ls <-> exists l, x ∈ l /\ l ∈ ls.
Proof.
  induction ls as [|l ls IH]; simpl.
  - split; [intros []%elem_of_nil | intros (l & _ & []%elem_of_nil)].
  - rewrite elem_of_app, IH. split.
    + intros [Hx|(l' & Hx & Hl)]; [exists l | exists l'];
        rewrite elem_of_cons; auto.
    + intros (l' & Hx & [->|Hl]%elem_of_cons); eauto.
Qed.


Lemma to_uint_nonnil (n : nat) : Nat.to_uint n <> Nil.
Proof.
  rewrite <- (Unsigned.of_to n) at 1. rewrite Unsigned.to_of.
  apply DecimalFacts.unorm_nonnil.
Qed.

Lemma str_of_nat_inj (n m : nat) : str_of_nat n = str_of_nat m -> n = m.
Proof.
  unfold str_of_nat. intros H. apply Unsigned.to_uint_inj.
  apply (f_equal NilZero.uint_of_string) in H.
  rewrite !NilZero.usu in H by apply to_uint_nonnil. by injection H.
Qed.

Lemma append_inj_l (p a b : string) : p +:+ a = p +:+ b -> a = b.
Proof.
  induction p as [|c p IH]; [done|].
  intros H. apply IH. change (String c (p +:+ a) = String c (p +:+ b)) in H.
  by injection H.
Qed.

(** Storing under a key the dictionary does not have appends. *)
Lemma dict_set_fresh {V} (d : dict V) (k : string) (v : V) :
  k ∉ dict_keys d -> dict_set d k v = d ++ [(k, v)].
Proof.
  unfold dict_keys. induction d as [|[k' v'] d IH]; simpl; [done|].
  intros [Hne Hnotin]%not_elem_of_cons.
  case_decide; [congruence|]. by rewrite IH.
Qed.

Lemma dict_keys_set_elem {V} (d : dict V) (k : string) (v : V) (k' : string) :
  k' ∈ dict_keys (dict_set d k v) <-> k' = k \/ k' ∈ dict_keys d.
Proof.
  unfold dict_keys. induction d as [|[k0 v0] d IH]; simpl.
  - rewrite list_elem_of_singleton, elem_of_nil. tauto.
  - case_decide; subst; simpl; rewrite !elem_of_cons; [tauto|].
    rewrite IH. tauto.
Qed.

Lemma dict_keys_set_NoDup {V} (d : dict V) (k : string) (v : V) :
  NoDup (dict_keys d) -> NoDup (dict_keys (dict_set d k v)).
Proof.
  unfold dict_keys. induction d as [|[k0 v0] d IH]; simpl.
  - intros _. apply NoDup_singleton.
  - rewrite !NoDup_cons. intros [Hnotin Hnodup].
    case_decide; subst; simpl; rewrite NoDup_cons; [done|].
    split; [|by apply IH].
    intros [?|?]%(dict_keys_set_elem d k v k0); [congruence|done].
Qed.


(** A dictionary filled by a loop [for x in xs: d[key(x)] = val(x)]:
    its keys are the old ones and the keys of the items, and under a
    key it holds the value of the last item with that key. *)
Lemma fold_dict_set_keys {A V} (key : A -> string) (val : A -> V)
      (xs : list A) (acc : dict V) (k : string) :
  k ∈ dict_keys (fold_left (fun d x => dict_set d (key x) (val x)) xs acc)
  <-> k ∈ dict_keys acc \/ exists x, x ∈ xs /\ key x = k.
Proof.
  revert acc. induction xs as [|x xs IH]; intros acc; simpl.
  - split; [by left|]. intros [?|(x & []%elem_of_nil & _)]. done.
  - rewrite IH, dict_keys_set_elem. split.
    + intros [[->|?]|(y & Hy & <-)]; [right|by left|right].
      * exists x. split; [left|done].
      * exists y. split; [by right|done].
    + intros [?|(y & [->|Hy]%elem_of_cons & <-)]; [by left; right|by left; left|].
      right. by exists y.
Qed.

Lemma fold_dict_set_NoDup {A V} (key : A -> string) (val : A -> V)
      (xs : list A) (acc : dict V) :
  NoDup (dict_keys acc) ->
  NoDup (dict_keys (fold_left (fun d x => dict_set d (key x) (val x)) xs acc)).
Proof.
  revert acc. induction xs as [|x xs IH]; intros acc Hacc; simpl; [done|].
  apply IH. by apply dict_keys_set_NoDup.
Qed.

Lemma fold_dict_set_get {A V} (key : A -> string) (val : A -> V)
      (xs : list A) (acc : dict V) (k : string) :
  dict_get (fold_left (fun d x => dict_set d (key x) (val x)) xs acc) k
  = match last (filter (fun x => key x = k) xs) with
    | Some x => Some (val x)
    | None => dict_get acc k
    end.
Proof.
  revert acc. induction xs as [|x xs IH]; intros acc; simpl; [done|].
  rewrite IH, dict_get_set, filter_cons.
  destruct (decide (key x = k)) as [Hk|Hk].
  - rewrite last_cons. by destruct (last (filter _ xs)).
  - done.
Qed.


(** Storing under a key the dictionary has keeps the order of keys. *)
Lemma dict_keys_set_present {V} (d : dict V) (k : string) (v : V) :
  k ∈ dict_keys d -> dict_keys (dict_set d k v) = dict_keys d.
Proof.
  unfold dict_keys. induction d as [|[k' v'] d IH]; simpl.
  - by intros ?%elem_of_nil.
  - intros Hk. case_decide; subst; simpl; [done|].
    f_equal. apply IH. apply elem_of_cons in Hk as [?|?]; [congruence|done].
Qed.


End PyFacts.

(** ** The build-graph resolver and the topological sort *)

Module ReproducibleAIBuilderFacts.

Import Py PyFacts ReproducibleAIBuilder.

Section TopologicalSort.

Variable g : graph.

Lemma extends_refl st : extends st st.
Proof.
  split; [done|]. exists []. rewrite app_nil_r.
  split; [done|]. split; [constructor|].
  intros x. rewrite elem_of_nil. tauto.
Qed.

Lemma extends_trans st1 st2 st3 :
  extends st1 st2 -> extends st2 st3 -> extends st1 st3.
Proof.
  intros (Hs1 & l1 & Hr1 & Hn1 & Hl1) (Hs2 & l2 & Hr2 & Hn2 & Hl2).
  split; [set_solver|]. exists (l1 ++ l2).
  split; [by rewrite Hr2, Hr1, app_assoc|].
  split.
  - apply NoDup_app. split; [done|]. split; [|done].
    intros x Hx1 Hx2. apply Hl1 in Hx1. apply Hl2 in Hx2. tauto.
  - intros x. rewrite elem_of_app, Hl1, Hl2.
    specialize (Hs1 x). specialize (Hs2 x).
    destruct (decide (x ∈ visited st2)); tauto.
Qed.

Lemma extends_gray st st' x : extends st st' -> gray st' x <-> gray st x.
Proof.
  intros (Hs & l & Hr & _ & Hl). unfold gray.
  rewrite Hr, elem_of_app, Hl. specialize (Hs x).
  destruct (decide (x ∈ visited st)); tauto.
Qed.

(** *** Termination: the supplied fuel is enough *)

Lemma visit_total (U : gset string) :
  (forall n, n ∉ U -> deps g n = []) ->
  forall fuel n st,
    size (U ∖ visited st) < fuel ->
    exists st', visit fuel g n st = Some st' /\ visited st ⊆ visited st'.
Proof.
  intros HU. induction fuel as [|fuel IH]; intros n st Hsz; [lia|].
  simpl. case_decide as Hin; [eauto|].
  set (st1 := SortState ({[n]} ∪ visited st) (result st)).
  destruct (decide (n ∈ U)) as [HnU|HnU].
  - destruct (for_each_total (visit fuel g)
                (fun s => visited st1 ⊆ visited s) (deps g n) st1)
      as (st2 & -> & Hsub); [done| |].
    + intros d s _ Hs.
      destruct (IH d s) as (s1 & Hv & Hs1).
      * assert (U ∖ visited s ⊂ U ∖ visited st) as Hlt%subset_size
            by (subst st1; simpl in *; set_solver).
        lia.
      * exists s1. split; [done|]. set_solver.
    + eexists. split; [done|]. subst st1; simpl in *. set_solver.
  - rewrite (HU n HnU). simpl. eexists. split; [done|].
    simpl. set_solver.
Qed.

(** *** Structure of the result, cycles or not *)

Lemma visit_extends fuel : forall n st st',
  visit fuel g n st = Some st' -> extends st st' /\ n ∈ visited st'.
Proof.
  induction fuel as [|fuel IH]; intros n st st' Hv; [discriminate|].
  simpl in Hv. case_decide as Hin.
  { injection Hv as <-. split; [apply extends_refl | done]. }
  set (st1 := SortState ({[n]} ∪ visited st) (result st)) in *.
  destruct (for_each (visit fuel g) (deps g n) st1) as [st2|] eqn:Hloop;
    [|discriminate].
  injection Hv as <-.
  assert (extends st1 st2) as (Hs & l & Hr & Hn & Hl).
  { apply (for_each_invariant (visit fuel g)
             (fun _ s => extends st1 s) (deps g n) st1 st2);
      [apply extends_refl| |done].
    intros pre x post s s1 _ He Hx. apply IH in Hx as [Hx _].
    eapply extends_trans; eauto. }
  subst st1; simpl in *. split; [|set_solver].
  split; simpl; [set_solver|].
  exists (l ++ [n]). split; [by rewrite Hr, app_assoc|]. split.
  - apply NoDup_app. split; [done|]. split; [|apply NoDup_singleton].
    intros x Hx ->%list_elem_of_singleton. apply Hl in Hx. set_solver.
  - intros x. rewrite elem_of_app, Hl, list_elem_of_singleton.
    destruct (decide (x = n)); set_solver.
Qed.

Lemma visit_within_keys fuel : closed g -> forall n st st',
  n ∈ dict_keys g ->
  visit fuel g n st = Some st' ->
  (forall x, x ∈ visited st -> x ∈ dict_keys g) ->
  forall x, x ∈ visited st' -> x ∈ dict_keys g.
Proof.
  intros Hc. induction fuel as [|fuel IH]; intros n st st' Hn Hv Hk;
    [discriminate|].
  simpl in Hv. case_decide as Hin; [by injection Hv as <-|].
  set (st1 := SortState ({[n]} ∪ visited st) (result st)) in *.
  destruct (for_each (visit fuel g) (deps g n) st1) as [st2|] eqn:Hloop;
    [|discriminate].
  injection Hv as <-. simpl.
  apply (for_each_invariant (visit fuel g)
           (fun _ s => forall x, x ∈ visited s -> x ∈ dict_keys g)
           (deps g n) st1 st2); [| |done].
  - subst st1; simpl. intros x [->%elem_of_singleton|Hx]%elem_of_union; auto.
  - intros pre d post s s1 Hd Hs Hx. apply (IH d s s1); [|done|done].
    apply (Hc n). unfold edge. rewrite Hd, elem_of_app, elem_of_cons. auto.
Qed.

(** *** Order of the result on acyclic graphs *)

Lemma before_app_r x y l l' : before x y l -> before x y (l ++ l').
Proof.
  intros (l1 & l2 & l3 & ->). exists l1, l2, (l3 ++ l').
  by rewrite <- !app_assoc, <- !app_comm_cons, <- app_assoc.
Qed.

Lemma before_snoc x y l : x ∈ l -> before x y (l ++ [y]).
Proof.
  intros (l1 & l2 & ->)%list_elem_of_split. exists l1, l2, [].
  by rewrite <- app_assoc.
Qed.

Lemma visit_ordered fuel : acyclic g -> forall n st st',
  visit fuel g n st = Some st' ->
  (forall x, gray st x -> rtc (edge g) x n) ->
  ordered g st -> ordered g st'.
Proof.
  intros Hacyc. induction fuel as [|fuel IH]; intros n st st' Hv Hgray Hord;
    [discriminate|].
  simpl in Hv. case_decide as Hin; [by injection Hv as <-|].
  set (st1 := SortState ({[n]} ∪ visited st) (result st)) in *.
  destruct (for_each (visit fuel g) (deps g n) st1) as [st2|] eqn:Hloop;
    [|discriminate].
  injection Hv as <-.
  assert (Hgray1 : forall x, gray st1 x -> x = n \/ gray st x).
  { unfold gray; subst st1; simpl. set_solver. }
  assert (extends st1 st2 /\ ordered g st2 /\
          forall d, d ∈ deps g n -> d ∈ visited st2) as (Hext & Hord2 & Hvis).
  { apply (for_each_invariant (visit fuel g)
             (fun pre s => extends st1 s /\ ordered g s /\
                           forall d, d ∈ pre -> d ∈ visited s)
             (deps g n) st1 st2); [| |done].
    - split; [apply extends_refl|]. split; [exact Hord|].
      intros d Hd. by apply elem_of_nil in Hd.
    - intros pre d post s s1 Hd (He & Ho & Hp) Hx.
      destruct (visit_extends _ _ _ _ Hx) as [He1 Hd1].
      split; [eapply extends_trans; eauto|]. split.
      + eapply IH; eauto. intros x Hx'.
        apply (extends_gray _ _ x He) in Hx'.
        assert (edge g n d)
          by (unfold edge; rewrite Hd, elem_of_app, elem_of_cons; auto).
        destruct (Hgray1 x Hx') as [->|Hg]; [by apply rtc_once|].
        eapply rtc_r; eauto.
      + intros y [Hy| ->%list_elem_of_singleton]%elem_of_app; [|done].
        destruct He1 as [Hs _]. set_solver. }
  intros m d Hm Hmd. simpl in *.
  apply elem_of_app in Hm as [Hm| ->%list_elem_of_singleton].
  - apply before_app_r. by apply Hord2.
  - apply before_snoc. destruct (decide (d ∈ result st2)) as [|Hnin]; [done|].
    exfalso. apply (Hacyc n).
    assert (gray st1 d) as Hg.
    { apply (extends_gray _ _ d Hext). split; [by apply Hvis | done]. }
    destruct (Hgray1 d Hg) as [->|Hg']; [by apply tc_once|].
    eapply tc_rtc_r; [by apply tc_once | by apply Hgray].
Qed.

End TopologicalSort.

(** *** The sort as a whole *)

Lemma nodes_cover_deps (g : graph) n : n ∉ nodes g -> deps g n = [].
Proof.
  intros Hn. unfold deps, dict_get_or.
  destruct (dict_get g n) as [l|] eqn:Hg; [|done].
  exfalso. apply Hn. unfold nodes. apply elem_of_app. left.
  destruct (decide (n ∈ dict_keys g)) as [|Hk]; [done|].
  apply dict_get_None_keys in Hk. congruence.
Qed.

Lemma topological_sort_total (g : graph) :
  exists order, _topological_sort g = Some order.
Proof.
  unfold _topological_sort.
  set (U := list_to_set (nodes g) : gset string).
  destruct (for_each_total (visit (S (length (nodes g))) g) (fun _ => True)
              (dict_keys g) (SortState ∅ [])) as (st & -> & _); [done| |].
  - intros n st _ _.
    destruct (visit_total g U) with (fuel := S (length (nodes g)))
                                    (n := n) (st := st) as (st' & Hv & _).
    + intros x Hx. apply nodes_cover_deps. intros Hx'. apply Hx.
      by apply elem_of_list_to_set.
    + pose proof (size_list_to_set_le (nodes g)).
      pose proof (subseteq_size (U ∖ visited st) U ltac:(set_solver)).
      subst U. lia.
    + eauto.
  - simpl. eauto.
Qed.

Lemma topological_sort_closed (g : graph) order :
  NoDup (dict_keys g) -> closed g ->
  _topological_sort g = Some order ->
  order ≡ₚ dict_keys g /\
  (acyclic g -> forall n d, edge g n d -> before d n order).
Proof.
  intros Hnd Hc. unfold _topological_sort.
  destruct (for_each _ _ _) as [st|] eqn:Hrun; [|discriminate].
  intros [= <-].
  set (st0 := SortState ∅ []) in *.
  assert (extends st0 st /\
          (forall x, x ∈ visited st -> x ∈ dict_keys g) /\
          (forall k, k ∈ dict_keys g -> k ∈ visited st)) as (Hext & Hin & Hall).
  { apply (for_each_invariant (visit (S (length (nodes g))) g)
             (fun pre s => extends st0 s /\
                           (forall x, x ∈ visited s -> x ∈ dict_keys g) /\
                           (forall k, k ∈ pre -> k ∈ visited s))
             (dict_keys g) st0 st) in Hrun.
    - exact Hrun.
    - split; [apply extends_refl|].
      split; [subst st0; simpl; set_solver|].
      intros k Hk. by apply elem_of_nil in Hk.
    - intros pre k post s s1 Hk (He & Hs & Hp) Hv.
      destruct (visit_extends g _ _ _ _ Hv) as [He1 Hk1].
      split; [eapply extends_trans; eauto|]. split.
      + eapply (visit_within_keys g); eauto.
        rewrite Hk, elem_of_app, elem_of_cons. auto.
      + intros y [Hy| ->%list_elem_of_singleton]%elem_of_app; [|done].
        destruct He1 as [Hsub _]. apply Hsub. by apply Hp. }
  assert (Hres : forall x, x ∈ result st <-> x ∈ visited st).
  { destruct Hext as (_ & l & Hr & _ & Hl). subst st0; simpl in *.
    intros x. rewrite Hr, Hl. set_solver. }
  split.
  - apply NoDup_Permutation; [|done|].
    + destruct Hext as (_ & l & Hr & Hl & _). by rewrite Hr.
    + intros x. rewrite Hres. split; auto.
  - intros Hacyc n d Hnd'.
    assert (ordered g st) as Hord.
    { apply (for_each_invariant (visit (S (length (nodes g))) g)
               (fun _ s => extends st0 s /\ ordered g s)
               (dict_keys g) st0 st) in Hrun.
      - tauto.
      - split; [apply extends_refl|].
        intros m ? Hm. by apply elem_of_nil in Hm.
      - intros pre k post s s1 _ [He Ho] Hv.
        destruct (visit_extends g _ _ _ _ Hv) as [He1 _].
        split; [eapply extends_trans; eauto|].
        eapply (visit_ordered g); eauto.
        intros x Hx. apply (extends_gray _ _ x He) in Hx.
        destruct Hx as [Hx _]. subst st0; simpl in Hx. set_solver. }
    apply Hord; [|done]. apply Hres, Hall.
    destruct (decide (n ∈ dict_keys g)) as [|Hk]; [done|].
    apply dict_get_None_keys in Hk. unfold edge, deps, dict_get_or in Hnd'.
    rewrite Hk in Hnd'. simpl in Hnd'. by apply elem_of_nil in Hnd'.
Qed.


(** *** The resolver *)

Section Resolver.

Variable registry : dict BuildComponent.

Lemma grows_refl gr : NoDup (dict_keys gr) -> grows gr gr.
Proof. intros Hnd. repeat split; auto. intros x d Hx Hnx. done. Qed.

Lemma grows_trans a b c : grows a b -> grows b c -> grows a c.
Proof.
  intros (Hn1 & Hk1 & Hd1 & Hc1) (Hn2 & Hk2 & Hd2 & Hc2).
  repeat split; auto.
  - intros x Hx. rewrite Hd2 by auto. auto.
  - intros x d Hx Hnx Hd. destruct (decide (x ∈ dict_keys b)) as [Hb|Hb].
    + rewrite Hd2 in Hd by done. eauto.
    + eauto.
Qed.

Lemma deps_update_same (gr : graph) k f :
  k ∈ dict_keys gr -> deps (dict_update gr k f) k = f (deps gr k).
Proof.
  intros Hk. unfold deps, dict_get_or. rewrite dict_get_update, decide_True by done.
  destruct (dict_get gr k) eqn:Hg; [done|].
  by apply dict_get_None_keys in Hg.
Qed.

Lemma deps_update_other (gr : graph) k f x :
  k <> x -> deps (dict_update gr k f) x = deps gr x.
Proof.
  intros Hk. unfold deps, dict_get_or. by rewrite dict_get_update, decide_False.
Qed.

Lemma add_dependencies_grows fuel : forall k gr gr',
  add_dependencies fuel registry k gr = Some gr' ->
  NoDup (dict_keys gr) ->
  grows gr gr' /\ k ∈ dict_keys gr'.
Proof.
  induction fuel as [|fuel IH]; intros k gr gr' Hrun Hnd; [discriminate|].
  simpl in Hrun. case_decide as Hin.
  { injection Hrun as <-. split; [by apply grows_refl | done]. }
  set (gr1 := dict_set gr k []) in *.
  assert (Hk1 : dict_keys gr1 = dict_keys gr ++ [k])
    by (by apply dict_keys_set_new).
  assert (Hnd1 : NoDup (dict_keys gr1)).
  { rewrite Hk1. apply NoDup_app. split; [done|]. split; [|apply NoDup_singleton].
    intros x Hx ->%list_elem_of_singleton. done. }
  assert (Hd1 : forall x, deps gr1 x = if decide (k = x) then [] else deps gr x).
  { intros x. unfold deps, dict_get_or, gr1. rewrite dict_get_set.
    by case_decide. }
  assert (Hold : forall x, x ∈ dict_keys gr -> k <> x) by (intros x Hx ->; done).
  destruct (dict_get registry k) as [component|] eqn:Hreg.
  2:{ injection Hrun as <-. split.
      - repeat split; auto.
        + intros x Hx. rewrite Hk1, elem_of_app. auto.
        + intros x Hx. rewrite Hd1, decide_False; auto.
        + intros x d Hx Hnx. rewrite Hk1, elem_of_app, list_elem_of_singleton in Hx.
          destruct Hx as [Hx | ->]; [done|]. rewrite Hd1, decide_True by done.
          by intros ?%elem_of_nil.
      - rewrite Hk1, elem_of_app, list_elem_of_singleton. auto. }
  pose (I := fun (pre : list string) (s : graph) =>
    NoDup (dict_keys s) /\
    (forall x, x ∈ dict_keys gr1 -> x ∈ dict_keys s) /\
    deps s k = pre /\
    (forall d, d ∈ pre -> d ∈ dict_keys s) /\
    (forall x, x ∈ dict_keys gr -> deps s x = deps gr x) /\
    (forall x d, x ∈ dict_keys s -> x ∉ dict_keys gr -> x <> k ->
                 d ∈ deps s x -> d ∈ dict_keys s)).
  assert (I (build_inputs component) gr') as (Hn & Hsub & Hdk & Hpre & Hkeep & Hnew).
  { eapply (for_each_invariant _ I); [| |exact Hrun].
    - repeat split; auto.
      + rewrite Hd1, decide_True; done.
      + intros d Hd. by apply elem_of_nil in Hd.
      + intros x Hx. rewrite Hd1, decide_False; auto.
      + intros x d Hx Hnx Hne. rewrite Hk1, elem_of_app, list_elem_of_singleton in Hx.
        tauto.
    - intros pre dep post s s1 _ (Hn & Hsub & Hdk & Hpre & Hkeep & Hnew) Hstep.
      assert (Hks : k ∈ dict_keys s).
      { apply Hsub. rewrite Hk1, elem_of_app, list_elem_of_singleton. auto. }
      set (su := dict_update s k (fun l => l ++ [dep])) in *.
      assert (Hku : dict_keys su = dict_keys s) by apply dict_keys_update.
      destruct (IH dep su s1 Hstep) as ((Hn1 & Hk1' & Hd1' & Hc1') & Hdep);
        [by rewrite Hku|].
      rewrite Hku in *.
      repeat split; auto.
      + rewrite Hd1' by done. subst su. rewrite deps_update_same by done.
        by rewrite Hdk.
      + intros d [Hd| ->%list_elem_of_singleton]%elem_of_app; auto.
      + intros x Hx. rewrite Hd1' by (apply Hsub; rewrite Hk1, elem_of_app; auto).
        subst su. rewrite deps_update_other by auto. auto.
      + intros x d Hx Hnx Hne Hd.
        destruct (decide (x ∈ dict_keys s)) as [Hs|Hs].
        * rewrite Hd1' in Hd by done. subst su.
          rewrite deps_update_other in Hd by done. eauto.
        * eauto. }
  split; [|apply Hsub; rewrite Hk1, elem_of_app, list_elem_of_singleton; auto].
  repeat split; auto.
  - intros x Hx. apply Hsub. rewrite Hk1, elem_of_app. auto.
  - intros x d Hx Hnx Hd. destruct (decide (x = k)) as [->|Hne]; [|eauto].
    rewrite Hdk in Hd. auto.
Qed.

Lemma add_dependencies_total (U : gset string) :
  (forall k component d,
      dict_get registry k = Some component -> d ∈ build_inputs component -> d ∈ U) ->
  forall fuel k gr,
    k ∈ U ->
    size (U ∖ list_to_set (dict_keys gr)) < fuel ->
    exists gr', add_dependencies fuel registry k gr = Some gr' /\
                forall x, x ∈ dict_keys gr -> x ∈ dict_keys gr'.
Proof.
  intros HU. induction fuel as [|fuel IH]; intros k gr Hk Hsz; [lia|].
  simpl. case_decide as Hin; [eauto|].
  set (gr1 := dict_set gr k []).
  assert (Hk1 : dict_keys gr1 = dict_keys gr ++ [k])
    by (by apply dict_keys_set_new).
  assert (Hlt : size (U ∖ list_to_set (dict_keys gr1)) < fuel).
  { assert (U ∖ list_to_set (dict_keys gr1) ⊂ U ∖ list_to_set (dict_keys gr))
      as Hs%subset_size; [|lia].
    rewrite Hk1, list_to_set_app_L. simpl. set_solver. }
  destruct (dict_get registry k) as [component|] eqn:Hreg.
  2:{ eexists. split; [done|]. intros x Hx. rewrite Hk1, elem_of_app. auto. }
  destruct (for_each_total
              (fun dep gr2 => add_dependencies fuel registry dep
                                (dict_update gr2 k (fun l => l ++ [dep])))
              (fun s => forall x, x ∈ dict_keys gr1 -> x ∈ dict_keys s)
              (build_inputs component) gr1) as (gr' & -> & Hsub); [done| |].
  - intros dep s Hdep Hs.
    destruct (IH dep (dict_update s k (fun l => l ++ [dep]))) as (s1 & Hrun & Hs1).
    + eauto.
    + rewrite dict_keys_update.
      pose proof (subseteq_size (U ∖ list_to_set (dict_keys s))
                                (U ∖ list_to_set (dict_keys gr1))) as Hle.
      specialize (Hle ltac:(set_solver)). lia.
    + rewrite dict_keys_update in Hs1. eauto.
  - eexists. split; [done|]. intros x Hx. apply Hsub.
    rewrite Hk1, elem_of_app. auto.
Qed.

End Resolver.


Lemma resolve_total registry targets :
  exists g, _resolve_dependency_graph registry targets = Some g.
Proof.
  unfold _resolve_dependency_graph.
  set (names := registry_names registry targets).
  set (U := list_to_set names : gset string).
  destruct (for_each_total (add_dependencies (S (length names)) registry)
              (fun _ => True) targets []) as (g & -> & _); [done| |eauto].
  intros k gr Hk _.
  destruct (add_dependencies_total registry U) with (fuel := S (length names))
                                                     (k := k) (gr := gr)
    as (gr' & Hrun & _).
  - intros k' component d Hget Hd. subst U names. apply elem_of_list_to_set.
    unfold registry_names. apply elem_of_app. right.
    apply elem_of_concat. exists (build_inputs component). split; [done|].
    apply list_elem_of_fmap. exists component. split; [done|].
    apply list_elem_of_fmap. exists (k', component). split; [done|].
    by apply dict_get_Some_elem.
  - subst U names. apply elem_of_list_to_set. unfold registry_names.
    apply elem_of_app. by left.
  - pose proof (size_list_to_set_le names).
    pose proof (subseteq_size (U ∖ list_to_set (dict_keys gr)) U
                  ltac:(set_solver)).
    subst U. lia.
  - eauto.
Qed.

Lemma resolve_well_formed registry targets g :
  _resolve_dependency_graph registry targets = Some g ->
  NoDup (dict_keys g) /\ closed g.
Proof.
  unfold _resolve_dependency_graph. intros Hrun.
  assert (grows [] g) as (Hnd & _ & _ & Hnew).
  { eapply (for_each_invariant _ (fun _ s => grows [] s)); [| |exact Hrun].
    - apply grows_refl. constructor.
    - intros pre k post s s1 _ Hs Hstep.
      apply add_dependencies_grows in Hstep as [Hstep _]; [|by destruct Hs].
      eapply grows_trans; eauto. }
  split; [done|]. intros n d Hnd'.
  destruct (decide (n ∈ dict_keys g)) as [Hn|Hn].
  - apply (Hnew n d Hn); [|done]. simpl. apply not_elem_of_nil.
  - apply dict_get_None_keys in Hn. unfold edge, deps, dict_get_or in Hnd'.
    rewrite Hn in Hnd'. by apply elem_of_nil in Hnd'.
Qed.

(** C2.  On every dependency graph that [_resolve_dependency_graph]
    produces (for any registry and any list of targets, and the
    resolver always produces one), [_topological_sort] terminates with
    a list that contains each key of the graph exactly once; this holds
    for cyclic graphs too, since nothing is assumed about cycles.  When
    the graph is acyclic, every dependency of a node stands strictly
    before that node in the list. *)
Theorem topological_sort_of_resolved_graph
        (component_registry : dict BuildComponent)
        (target_components : list string) :
  exists g order,
    _resolve_dependency_graph component_registry target_components = Some g /\
    _topological_sort g = Some order /\
    NoDup order /\
    order ≡ₚ dict_keys g /\
    (acyclic g -> forall n d, d ∈ deps g n -> before d n order).
Proof.
  destruct (resolve_total component_registry target_components) as [g Hg].
  destruct (topological_sort_total g) as [order Ho].
  destruct (resolve_well_formed _ _ _ Hg) as [Hnd Hc].
  destruct (topological_sort_closed g order Hnd Hc Ho) as [Hp Hord].
  exists g, order. repeat split; auto.
  by rewrite Hp.
Qed.

(** A registry whose two components depend on each other: the
    resolved graph is cyclic and the sort still returns both keys. *)
Definition cyclic_component (n : string) (inputs : list string) : BuildComponent :=
  {| name := n; version := "1.0.0"; source_hash := ""; build_inputs := inputs;
     build_outputs := []; build_system := "generic"; configuration := [];
     environment_variables := [] |}.

Example topological_sort_cyclic_example :
  let registry := [("a", cyclic_component "a" ["b"]);
                   ("b", cyclic_component "b" ["a"])] in
  _resolve_dependency_graph registry ["a"] = Some [("a", ["b"]); ("b", ["a"])] /\
  _topological_sort [("a", ["b"]); ("b", ["a"])] = Some ["b"; "a"].
Proof. split; vm_compute; reflexivity. Qed.

Example topological_sort_chain_example :
  let registry := [("app", cyclic_component "app" ["lib"; "rt"]);
                   ("lib", cyclic_component "lib" ["rt"])] in
  _resolve_dependency_graph registry ["app"]
    = Some [("app", ["lib"; "rt"]); ("lib", ["rt"]); ("rt", [])] /\
  _topological_sort [("app", ["lib"; "rt"]); ("lib", ["rt"]); ("rt", [])]
    = Some ["rt"; "lib"; "app"].
Proof. split; vm_compute; reflexivity. Qed.

(** *** The build loop *)

Lemma build_loop_completes build_env cs r :
  exists r', build_loop build_env cs r = inr r' /\ build_status r' = build_status r.
Proof.
  revert r. induction cs as [|c cs IH]; intros r; simpl; [eauto|].
  destruct (IH (set_component_result r (name c) (_build_component c build_env)))
    as (r' & -> & Hs).
  eauto.
Qed.

(** C1.  For every manifest [execute_reproducible_build] ends with
    build status "success": [_build_component] reports success for
    every component and build environment, [_verify_build_outputs]
    reports all outputs verified for every manifest, and so the
    statuses "failed" and "verification_failed" are never produced. *)
Theorem execute_reproducible_build_success (manifest : BuildManifest) :
  build_status (execute_reproducible_build manifest) = "success" /\
  (forall component build_env, success (_build_component component build_env) = true) /\
  (forall m, all_verified (_verify_build_outputs m) = true) /\
  build_status (execute_reproducible_build manifest) <> "failed" /\
  build_status (execute_reproducible_build manifest) <> "verification_failed".
Proof.
  assert (Hs : build_status (execute_reproducible_build manifest) = "success").
  { unfold execute_reproducible_build.
    destruct (build_loop_completes
                (_setup_build_environment (build_environment manifest))
                (components manifest)
                {| r_manifest_id := manifest_id manifest;
                   build_status := "in_progress";
                   component_results := [];
                   verification_results := None;
                   build_artifacts := [];
                   build_log := [] |}) as (r' & -> & _).
    reflexivity. }
  rewrite Hs. repeat split; auto; discriminate.
Qed.


(** *** The resolved graph records the build inputs *)

Section ResolvedInputs.

Variable registry : dict BuildComponent.

(** The build inputs of a key: those of the component registered
    under it, none when nothing is registered. *)
Definition inputs (k : string) : list string :=
  match dict_get registry k with
  | Some component => build_inputs component
  | None => []
  end.

Lemma add_dependencies_inputs fuel : forall k gr gr',
  add_dependencies fuel registry k gr = Some gr' ->
  NoDup (dict_keys gr) ->
  forall x, x ∈ dict_keys gr' -> x ∉ dict_keys gr -> deps gr' x = inputs x.
Proof.
  induction fuel as [|fuel IH]; intros k gr gr' Hrun Hnd; [discriminate|].
  simpl in Hrun. case_decide as Hin.
  { injection Hrun as <-. by intros x Hx Hnx. }
  set (gr1 := dict_set gr k []) in *.
  assert (Hk1 : dict_keys gr1 = dict_keys gr ++ [k])
    by (by apply dict_keys_set_new).
  assert (Hnd1 : NoDup (dict_keys gr1)).
  { rewrite Hk1. apply NoDup_app. split; [done|]. split; [|apply NoDup_singleton].
    intros x Hx ->%list_elem_of_singleton. done. }
  assert (Hd1 : forall x, deps gr1 x = if decide (k = x) then [] else deps gr x).
  { intros x. unfold deps, dict_get_or, gr1. rewrite dict_get_set.
    by case_decide. }
  unfold inputs.
  destruct (dict_get registry k) as [component|] eqn:Hreg.
  2:{ injection Hrun as <-. intros x Hx Hnx.
      rewrite Hk1, elem_of_app, list_elem_of_singleton in Hx.
      destruct Hx as [Hx| ->]; [done|].
      by rewrite Hd1, decide_True, Hreg. }
  pose (I := fun (pre : list string) (s : graph) =>
    NoDup (dict_keys s) /\
    (forall x, x ∈ dict_keys gr1 -> x ∈ dict_keys s) /\
    deps s k = pre /\
    (forall x, x ∈ dict_keys s -> x ∉ dict_keys gr -> x <> k ->
               deps s x = inputs x)).
  assert (I (build_inputs component) gr') as (Hn & Hsub & Hdk & Hnew).
  { eapply (for_each_invariant _ I); [| |exact Hrun].
    - repeat split; auto.
      + rewrite Hd1, decide_True; done.
      + intros x Hx Hnx Hne. rewrite Hk1, elem_of_app, list_elem_of_singleton in Hx.
        tauto.
    - intros pre dep post s s1 _ (Hn & Hsub & Hdk & Hnew) Hstep.
      assert (Hks : k ∈ dict_keys s).
      { apply Hsub. rewrite Hk1, elem_of_app, list_elem_of_singleton. auto. }
      set (su := dict_update s k (fun l => l ++ [dep])) in *.
      assert (Hku : dict_keys su = dict_keys s) by apply dict_keys_update.
      destruct (add_dependencies_grows registry fuel dep su s1 Hstep)
        as ((Hn1 & Hk1' & Hd1' & _) & _); [by rewrite Hku|].
      pose proof (IH dep su s1 Hstep) as Hfresh.
      rewrite Hku in *.
      repeat split; auto.
      + rewrite Hd1' by done. subst su. rewrite deps_update_same by done.
        by rewrite Hdk.
      + intros x Hx Hnx Hne.
        destruct (decide (x ∈ dict_keys s)) as [Hs|Hs].
        * rewrite Hd1' by done. subst su.
          rewrite deps_update_other by done. auto.
        * apply Hfresh; done. }
  intros x Hx Hnx. destruct (decide (x = k)) as [->|Hne].
  - by rewrite Hdk, Hreg.
  - specialize (Hnew x Hx Hnx Hne). unfold inputs in Hnew. done.
Qed.

Lemma resolve_inputs (targets : list string) (g : graph) :
  _resolve_dependency_graph registry targets = Some g ->
  (forall t, t ∈ targets -> t ∈ dict_keys g) /\
  (forall x, x ∈ dict_keys g -> deps g x = inputs x).
Proof.
  unfold _resolve_dependency_graph. intros Hrun.
  pose (I := fun (pre : list string) (s : graph) =>
    NoDup (dict_keys s) /\
    (forall t, t ∈ pre -> t ∈ dict_keys s) /\
    (forall x, x ∈ dict_keys s -> deps s x = inputs x)).
  assert (I targets g) as (_ & Ht & Hd); [|done].
  eapply (for_each_invariant _ I); [| |exact Hrun].
  - split; [constructor|]. split; intros x Hx; by apply elem_of_nil in Hx.
  - intros pre t post s s1 _ (Hn & Ht & Hd) Hstep.
    destruct (add_dependencies_grows registry _ t s s1 Hstep Hn)
      as ((Hn1 & Hk1 & Hd1 & _) & Hin).
    pose proof (add_dependencies_inputs _ t s s1 Hstep Hn) as Hfresh.
    split; [done|]. split.
    + intros x [Hx| ->%list_elem_of_singleton]%elem_of_app; auto.
    + intros x Hx. destruct (decide (x ∈ dict_keys s)) as [Hs|Hs].
      * rewrite Hd1 by done. auto.
      * by apply Hfresh.
Qed.

End ResolvedInputs.


(** *** The build manifest *)

Lemma collect_components_omap (registry : dict BuildComponent) (order : list string) :
  collect_components registry order = omap (dict_get registry) order.
Proof.
  unfold collect_components.
  assert (Hgen : forall acc,
             fold_left
               (fun all_components component_key =>
                  match dict_get registry component_key with
                  | Some component => all_components ++ [component]
                  | None => all_components
                  end) order acc
             = acc ++ omap (dict_get registry) order).
  { induction order as [|k order IH]; intros acc; simpl.
    - by rewrite app_nil_r.
    - rewrite IH. destruct (dict_get registry k); [|done].
      by rewrite <- app_assoc. }
  by rewrite Hgen.
Qed.

Section Manifest.

Variable json_dumps_sorted : pyval -> string.
Variable sha256_hexdigest : string -> string.
Variable timestamp : string.

Lemma verification_checksums_keys (cs : list BuildComponent) (n : string) :
  n ∈ dict_keys (_generate_verification_checksums json_dumps_sorted
                   sha256_hexdigest cs)
  <-> exists c, c ∈ cs /\ name c = n.
Proof.
  unfold _generate_verification_checksums.
  assert (Hgen : forall acc,
    n ∈ dict_keys
          (fold_left
             (fun checksums component =>
                dict_set checksums (name component)
                  (sha256_hexdigest (json_dumps_sorted (asdict_component component))))
             cs acc)
    <-> n ∈ dict_keys acc \/ exists c, c ∈ cs /\ name c = n).
  { induction cs as [|c cs IH]; intros acc; simpl.
    - split; [by left|]. intros [?|(c & []%elem_of_nil & _)]. done.
    - rewrite IH, dict_keys_set_elem. split.
      + intros [[->|?]|(q & Hq & <-)]; [right|by left|right].
        * exists c. split; [left|done].
        * exists q. split; [by right|done].
      + intros [?|(q & [->|Hq]%elem_of_cons & <-)]; [by left; right|by left; left|].
        right. by exists q. }
  rewrite Hgen. split; [|by right].
  intros [[]%elem_of_nil|?]. done.
Qed.

(** X10.  [generate_build_manifest] always produces a manifest (the
    configuration giving strings, if anything, for the target name and
    version).  Its dependency graph is the resolved one; its
    components are the registered keys of that graph, each taken once,
    in the build order, keys with nothing registered being dropped
    silently.  Every registered target is among the components, and
    so is every registered build input of a component; when the graph
    is acyclic the build order puts every dependency before its
    dependent.  The checksums are keyed by the names of the
    components. *)
Theorem generate_build_manifest_components
        (registry : dict BuildComponent) (targets : list string)
        (build_config : dict pyval) :
  is_Some (config_str build_config "target_name" "ai_system") ->
  is_Some (config_str build_config "target_version" "1.0.0") ->
  exists m order,
    generate_build_manifest json_dumps_sorted sha256_hexdigest timestamp
                            registry targets build_config = Some m /\
    _resolve_dependency_graph registry targets = Some (dependency_graph m) /\
    order ≡ₚ dict_keys (dependency_graph m) /\
    NoDup order /\
    components m = omap (dict_get registry) order /\
    (acyclic (dependency_graph m) ->
     forall n d, d ∈ deps (dependency_graph m) n -> before d n order) /\
    (forall t c, t ∈ targets -> dict_get registry t = Some c -> c ∈ components m) /\
    (forall c d c', c ∈ components m -> d ∈ build_inputs c ->
                    dict_get registry d = Some c' -> c' ∈ components m) /\
    (forall n, n ∈ dict_keys (verification_checksums m)
               <-> exists c, c ∈ components m /\ name c = n).
Proof.
  intros [target_name Hname] [target_version Hversion].
  destruct (resolve_total registry targets) as [g Hg].
  destruct (topological_sort_total g) as [order Ho].
  destruct (resolve_well_formed _ _ _ Hg) as [Hnd Hc].
  destruct (topological_sort_closed g order Hnd Hc Ho) as [Hp Hord].
  destruct (resolve_inputs registry targets g Hg) as [Htargets Hinputs].
  unfold generate_build_manifest. rewrite Hg, Ho, Hname, Hversion.
  eexists _, order. split; [done|]. simpl.
  rewrite collect_components_omap.
  split; [done|]. split; [done|]. split; [by rewrite Hp|]. split; [done|].
  split; [done|]. split; [|split].
  - intros t c Ht Hreg. apply list_elem_of_omap. exists t. split; [|done].
    rewrite Hp. by apply Htargets.
  - intros c d c' (k & Hk & Hreg)%list_elem_of_omap Hd Hreg'.
    apply list_elem_of_omap. exists d. split; [|done].
    rewrite Hp in *. apply (Hc k d). unfold edge.
    rewrite Hinputs by done. unfold inputs. by rewrite Hreg.
  - intros n. apply verification_checksums_keys.
Qed.

End Manifest.


(** An application built on a library, the library on a package that
    is not registered. *)
Definition app_registry : dict BuildComponent :=
  [("app", cyclic_component "app" ["lib"]);
   ("lib", cyclic_component "lib" ["python-pytorch"])].

Lemma generate_build_manifest_components_witness :
  exists m,
    generate_build_manifest (fun _ => "json") (fun s => s) "2024-01-01T00:00:00"
                            app_registry ["app"] [] = Some m /\
    name <$> components m = ["lib"; "app"] /\
    dict_keys (dependency_graph m) = ["app"; "lib"; "python-pytorch"].
Proof.
  destruct (generate_build_manifest_components
              (fun _ => "json") (fun s => s) "2024-01-01T00:00:00"
              app_registry ["app"] [])
    as (m & order & Hm & _); [by eexists|by eexists|].
  exists m. split; [exact Hm|].
  vm_compute in Hm. injection Hm as <-. by vm_compute.
Defined.


(** *** What a build records *)

Lemma build_loop_results build_env cs r :
  build_loop build_env cs r
  = inr {| r_manifest_id := r_manifest_id r;
           build_status := build_status r;
           component_results :=
             fold_left (fun d c => dict_set d (name c) (_build_component c build_env))
                       cs (component_results r);
           verification_results := verification_results r;
           build_artifacts := build_artifacts r;
           build_log := build_log r |}.
Proof.
  revert r. induction cs as [|c cs IH]; intros r; simpl; [by destruct r|].
  by rewrite IH.
Qed.

(** X11.  What [execute_reproducible_build] returns besides its
    status: the manifest's id; one component result per distinct
    component name, that of the last component of that name, listing
    that component's build outputs as artifacts; and empty
    [build_artifacts] and [build_log], which nothing ever fills.  The
    checksums, the dependency graph and the build environment of the
    manifest play no part: two manifests with the same id and the same
    components give the same results. *)
Theorem execute_reproducible_build_results (manifest : BuildManifest) :
  let r := execute_reproducible_build manifest in
  r_manifest_id r = manifest_id manifest /\
  build_artifacts r = [] /\
  build_log r = [] /\
  NoDup (dict_keys (component_results r)) /\
  (forall n, n ∈ dict_keys (component_results r)
             <-> exists c, c ∈ components manifest /\ name c = n) /\
  (forall n, artifacts <$> dict_get (component_results r) n
             = build_outputs
                 <$> last (filter (fun c => name c = n) (components manifest))) /\
  (forall manifest',
      manifest_id manifest' = manifest_id manifest ->
      components manifest' = components manifest ->
      execute_reproducible_build manifest' = r).
Proof.
  unfold execute_reproducible_build. rewrite build_loop_results. simpl.
  split; [done|]. split; [done|]. split; [done|]. split; [|split; [|split]].
  - apply fold_dict_set_NoDup. constructor.
  - intros n. rewrite fold_dict_set_keys. split; [|by right].
    intros [[]%elem_of_nil|?]. done.
  - intros n. rewrite fold_dict_set_get.
    by destruct (last (filter _ (components manifest))).
  - intros manifest' Hid Hcs. rewrite build_loop_results. simpl.
    by rewrite Hid, Hcs.
Qed.


(** *** Defining a component and building it *)

(** X14.  A component defined with [define_build_component] is
    stored under the key made of its name, its version and the first
    eight characters of its source hash; the other entries of the
    registry are untouched, and defining again under a key that exists
    replaces the component in place.  A manifest generated for that
    key then lists the component, and every registered component among
    its build inputs. *)
Theorem define_then_manifest
        (json_dumps_sorted : pyval -> string) (sha256_hexdigest : string -> string)
        (timestamp n v : string) (source_specification : pyval)
        (build_procedure : BuildProcedure) (registry : dict BuildComponent)
        (build_config : dict pyval) :
  is_Some (config_str build_config "target_name" "ai_system") ->
  is_Some (config_str build_config "target_version" "1.0.0") ->
  let defined :=
    define_build_component json_dumps_sorted sha256_hexdigest n v
                           source_specification build_procedure registry in
  let key :=
    component_key_of n v (sha256_hexdigest (json_dumps_sorted source_specification)) in
  dict_get defined.2 key = Some defined.1 /\
  (forall k, k <> key -> dict_get defined.2 k = dict_get registry k) /\
  (key ∈ dict_keys registry -> dict_keys defined.2 = dict_keys registry) /\
  exists m,
    generate_build_manifest json_dumps_sorted sha256_hexdigest timestamp
                            defined.2 [key] build_config = Some m /\
    defined.1 ∈ components m /\
    (forall d c, d ∈ build_inputs defined.1 -> dict_get defined.2 d = Some c ->
                 c ∈ components m).
Proof.
  intros [target_name Hname] [target_version Hversion] defined key.
  assert (Hget : dict_get defined.2 key = Some defined.1).
  { unfold defined, define_build_component. simpl. fold key.
    by rewrite dict_get_set, decide_True. }
  split; [done|]. split; [|split].
  - intros k Hk. unfold defined, define_build_component. simpl. fold key.
    by rewrite dict_get_set, decide_False.
  - intros Hin. unfold defined, define_build_component. simpl. fold key.
    by apply dict_keys_set_present.
  - destruct (resolve_total defined.2 [key]) as [g Hg].
    destruct (topological_sort_total g) as [order Ho].
    destruct (resolve_well_formed _ _ _ Hg) as [Hnd Hc].
    destruct (topological_sort_closed g order Hnd Hc Ho) as [Hp _].
    destruct (resolve_inputs defined.2 [key] g Hg) as [Htargets Hinputs].
    assert (Hkey : key ∈ dict_keys g) by (apply Htargets; set_solver).
    unfold generate_build_manifest. rewrite Hg, Ho, Hname, Hversion.
    eexists. split; [done|]. simpl. rewrite collect_components_omap. split.
    + apply list_elem_of_omap. exists key. split; [by rewrite Hp|done].
    + intros d c Hd Hreg. apply list_elem_of_omap. exists d. split; [|done].
      rewrite Hp. apply (Hc key d). unfold edge. rewrite Hinputs by done.
      unfold inputs. by rewrite Hget.
Qed.

Lemma define_then_manifest_witness :
  exists m,
    generate_build_manifest
      (fun _ => "json") (fun _ => "0123456789abcdef") "2024-01-01T00:00:00"
      (define_build_component
         (fun _ => "json") (fun _ => "0123456789abcdef") "model" "1.0.0" PNone
         {| proc_inputs := Some ["lib"]; proc_outputs := None;
            proc_build_system := None; proc_configuration := None;
            proc_environment := None |}
         app_registry).2
      ["model-1.0.0-01234567"] [] = Some m /\
    name <$> components m = ["lib"; "model"].
Proof.
  destruct (define_then_manifest
              (fun _ => "json") (fun _ => "0123456789abcdef") "2024-01-01T00:00:00"
              "model" "1.0.0" PNone
              {| proc_inputs := Some ["lib"]; proc_outputs := None;
                 proc_build_system := None; proc_configuration := None;
                 proc_environment := None |}
              app_registry [])
    as (_ & _ & _ & m & Hm & _); [by eexists|by eexists|].
  exists m. split; [exact Hm|].
  vm_compute in Hm. injection Hm as <-. by vm_compute.
Defined.


(** *** The blueprint of an AI system *)

(** Registry keys are [<name>-<version>-<hash>]; the keys of a
    blueprint's components are a prefix and the name. *)
Fixpoint has_hyphen (s : string) : bool :=
  match s with
  | EmptyString => false
  | String c s' => Ascii.eqb c "-" || has_hyphen s'
  end.

Lemma has_hyphen_app a b : has_hyphen (a +:+ b) = has_hyphen a || has_hyphen b.
Proof.
  induction a as [|c a IH]; [done|].
  change (String c a +:+ b) with (String c (a +:+ b)). simpl.
  by rewrite IH, orb_assoc.
Qed.

Lemma component_key_has_hyphen n v h : has_hyphen (component_key_of n v h) = true.
Proof.
  unfold component_key_of. rewrite !has_hyphen_app.
  change (has_hyphen "-") with true. by destruct (has_hyphen n).
Qed.

Definition hyphenated (registry : dict BuildComponent) : Prop :=
  forall k, k ∈ dict_keys registry -> has_hyphen k = true.

Lemma hyphenated_set registry k c :
  hyphenated registry -> has_hyphen k = true -> hyphenated (dict_set registry k c).
Proof.
  intros Hr Hk k' [->|Hk']%dict_keys_set_elem; [done|by apply Hr].
Qed.

Lemma mbind_returned {A B} (m : M A) (f : A -> M B) registry b registry' :
  mbind m f registry = Some (Returned b, registry') ->
  exists a registry1,
    m registry = Some (Returned a, registry1) /\
    f a registry1 = Some (Returned b, registry').
Proof.
  unfold mbind. destruct (m registry) as [[[a|e] registry1]|]; [eauto|done|done].
Qed.

Lemma typed_returned {A} (o : option A) registry a registry' :
  typed o registry = Some (Returned a, registry') -> o = Some a /\ registry' = registry.
Proof. destruct o; simpl; [|done]. by intros [= -> ->]. Qed.

Lemma required_returned config k registry v registry' :
  required config k registry = Some (Returned v, registry') -> registry' = registry.
Proof. unfold required. destruct (dict_get config k); by intros [= _ <-]. Qed.

Lemma iter_of_returned v registry xs registry' :
  iter_of v registry = Some (Returned xs, registry') -> registry' = registry.
Proof. destruct v; simpl; by intros [= _ <-]. Qed.

Lemma omap_none {A B} (f : A -> option B) (l : list A) :
  (forall x, x ∈ l -> f x = None) -> omap f l = [].
Proof.
  induction l as [|x l IH]; intros H; [done|].
  simpl. rewrite (H x) by left. apply IH. intros y Hy. apply H. by right.
Qed.

(** Targets that are not registered resolve to themselves. *)
Lemma resolve_unregistered registry targets g :
  (forall t, t ∈ targets -> dict_get registry t = None) ->
  _resolve_dependency_graph registry targets = Some g ->
  forall x, x ∈ dict_keys g -> x ∈ targets.
Proof.
  unfold _resolve_dependency_graph. intros Hun Hrun.
  eapply (for_each_invariant _ (fun pre s => forall x, x ∈ dict_keys s -> x ∈ pre));
    [| |exact Hrun].
  - by intros x Hx.
  - intros pre t post s s1 Heq IH Hstep x Hx. apply elem_of_app.
    assert (Ht : dict_get registry t = None).
    { apply Hun. rewrite Heq. apply elem_of_app. right. left. }
    cbn [add_dependencies] in Hstep. case_decide as Hin.
    + injection Hstep as <-. left. by apply IH.
    + rewrite Ht in Hstep. injection Hstep as <-.
      apply dict_keys_set_elem in Hx as [->|Hx]; [right; left|left; by apply IH].
Qed.

Section Blueprint.

Variable json_dumps_sorted : pyval -> string.
Variable sha256_hexdigest : string -> string.
Variable now : nat -> string.

(** A manifest for targets none of which is registered. *)
Lemma manifest_of_unregistered registry timestamp targets build_config m :
  (forall t, t ∈ targets -> dict_get registry t = None) ->
  generate_build_manifest json_dumps_sorted sha256_hexdigest timestamp
                          registry targets build_config = Some m ->
  components m = [] /\ verification_checksums m = [] /\
  (forall x, deps (dependency_graph m) x = []).
Proof.
  intros Hun. unfold generate_build_manifest.
  destruct (_resolve_dependency_graph registry targets) as [g|] eqn:Hg; [|done].
  destruct (_topological_sort g) as [order|] eqn:Ho; [|done].
  destruct (config_str build_config "target_name" "ai_system"); [|done].
  destruct (config_str build_config "target_version" "1.0.0"); [|done].
  intros [= <-]. simpl.
  destruct (resolve_well_formed _ _ _ Hg) as [Hnd Hc].
  destruct (topological_sort_closed g order Hnd Hc Ho) as [Hp _].
  destruct (resolve_inputs registry targets g Hg) as [_ Hinputs].
  pose proof (resolve_unregistered registry targets g Hun Hg) as Hkeys.
  assert (Hnone : collect_components registry order = []).
  { rewrite collect_components_omap. apply omap_none.
    intros k Hk. apply Hun, Hkeys. by rewrite <- Hp. }
  rewrite Hnone. split; [done|]. split; [done|].
  intros x. destruct (decide (x ∈ dict_keys g)) as [Hx|Hx].
  - rewrite Hinputs by done. unfold inputs. by rewrite (Hun x (Hkeys x Hx)).
  - apply dict_get_None_keys in Hx. unfold deps, dict_get_or. by rewrite Hx.
Qed.

Ltac returned H :=
  repeat
    (let H1 := fresh "H" in
     apply mbind_returned in H as (? & ? & H1 & H);
     first [ apply typed_returned in H1 as [_ ->]
           | apply required_returned in H1 as ->
           | apply iter_of_returned in H1 as -> ]).

Lemma define_hyphenated n v source_specification build_procedure registry c registry' :
  define json_dumps_sorted sha256_hexdigest n v source_specification build_procedure
         registry = Some (Returned c, registry') ->
  hyphenated registry -> hyphenated registry'.
Proof.
  unfold define, define_build_component. simpl. intros [= _ <-] Hr.
  apply hyphenated_set; [done|apply component_key_has_hyphen].
Qed.

Definition keeps_hyphens (create : string -> dict pyval -> M BuildComponent) : Prop :=
  forall n spec registry c registry',
    create n spec registry = Some (Returned c, registry') ->
    hyphenated registry -> hyphenated registry'.

Lemma create_ml_model_component_hyphenated :
  keeps_hyphens (create_ml_model_component json_dumps_sorted sha256_hexdigest).
Proof.
  intros n spec registry c registry' H. unfold create_ml_model_component in H.
  returned H. by eapply define_hyphenated.
Qed.

Lemma create_protocol_component_hyphenated :
  keeps_hyphens (create_protocol_component json_dumps_sorted sha256_hexdigest).
Proof.
  intros n spec registry c registry' H. unfold create_protocol_component in H.
  returned H. by eapply define_hyphenated.
Qed.

Lemma create_cognitive_architecture_component_hyphenated :
  keeps_hyphens
    (create_cognitive_architecture_component json_dumps_sorted sha256_hexdigest).
Proof.
  intros n spec registry c registry' H.
  unfold create_cognitive_architecture_component in H.
  returned H. by eapply define_hyphenated.
Qed.

Lemma create_components_hyphenated create prefix specs :
  keeps_hyphens create ->
  forall comps registry comps' registry',
    create_components create prefix specs comps registry
    = Some (Returned comps', registry') ->
    hyphenated registry -> hyphenated registry'.
Proof.
  intros Hc. induction specs as [|spec specs IH]; intros comps registry comps' registry'.
  - by intros [= _ <-].
  - destruct spec; try done. cbn [create_components]. intros H Hr.
    apply mbind_returned in H as (n & ? & ->%required_returned & H).
    apply mbind_returned in H as (n' & ? & [_ ->]%typed_returned & H).
    apply mbind_returned in H as (c & registry1 & Hcreate & H).
    eapply IH; [exact H|]. by eapply Hc.
Qed.

(** The manifests of the scenario loop: the registry is left as it
    is, and each manifest is generated from it for the targets of
    some scenario. *)
Lemma create_manifests_returned scenarios comps :
  forall i manifests registry manifests' registry',
    create_manifests json_dumps_sorted sha256_hexdigest now i scenarios comps manifests
                     registry = Some (Returned manifests', registry') ->
    registry' = registry /\
    forall s m, dict_get manifests' s = Some m ->
      dict_get manifests s = Some m \/
      exists timestamp scenario_config targets,
        (s, PDict scenario_config) ∈ scenarios /\
        target_components_of scenario_config comps = Some targets /\
        generate_build_manifest json_dumps_sorted sha256_hexdigest timestamp
                                registry targets scenario_config = Some m.
Proof.
  induction scenarios as [|[s0 config] scenarios IH];
    intros i manifests registry manifests' registry'.
  - intros [= <- <-]. auto.
  - destruct config as [| | | | | |scenario_config]; try done.
    cbn [create_manifests]. intros H.
    apply mbind_returned in H as (targets & ? & [Ht ->]%typed_returned & H).
    apply mbind_returned in H as (m0 & ? & [Hm ->]%typed_returned & H).
    apply IH in H as [-> Hall]. split; [done|].
    intros s m Hs. destruct (Hall s m Hs) as [Hold|Hnew].
    + rewrite dict_get_set in Hold. case_decide as Heq.
      * injection Hold as ->. subst s0. right.
        exists (now i), scenario_config, targets. split; [left|done].
      * by left.
    + destruct Hnew as (ts & c & tg & Hin & Htg & Hgen). right.
      exists ts, c, tg. split; [by right|done].
Qed.

(** Every target a scenario names is a key of the blueprint's
    components, as it is when the scenario names none. *)
Definition targets_are_blueprint_keys (bp : system_blueprint)
           (system_specification : dict pyval) : bool :=
  match dict_get_or system_specification "deployment_scenarios" (PDict []) with
  | PDict scenarios =>
      forallb
        (fun kv =>
           match kv.2 with
           | PDict scenario_config =>
               match target_components_of scenario_config (sys_components bp) with
               | Some targets =>
                   forallb (fun t => bool_decide (t ∈ dict_keys (sys_components bp)))
                           targets
               | None => true
               end
           | _ => true
           end)
        scenarios
  | _ => true
  end.

(** X19.  [create_ai_system_blueprint] registers its components under
    [<name>-<version>-<hash>] and names them [model_<name>],
    [protocol_<name>] and [architecture_<name>] in the blueprint, and
    it is the blueprint's names that the deployment scenarios resolve.
    When the registered keys have a hyphen and the blueprint's names
    have none, no blueprint name is a registered key, and the manifest
    of every scenario that names its targets so (or names none) lists
    no component and no checksum; building it succeeds with nothing
    built. *)
Theorem create_ai_system_blueprint_manifests
        (system_name : string) (system_specification : dict pyval)
        (registry : dict BuildComponent)
        (bp : system_blueprint) (registry' : dict BuildComponent) :
  create_ai_system_blueprint json_dumps_sorted sha256_hexdigest now
                             system_name system_specification registry
  = Some (Returned bp, registry') ->
  forallb has_hyphen (dict_keys registry) = true ->
  forallb (fun k => negb (has_hyphen k)) (dict_keys (sys_components bp)) = true ->
  targets_are_blueprint_keys bp system_specification = true ->
  (forall k, k ∈ dict_keys registry' -> has_hyphen k = true) /\
  (forall k, k ∈ dict_keys (sys_components bp) -> dict_get registry' k = None) /\
  forall scenario m,
    dict_get (sys_build_manifests bp) scenario = Some m ->
    components m = [] /\
    verification_checksums m = [] /\
    (forall x, deps (dependency_graph m) x = []) /\
    build_status (execute_reproducible_build m) = "success" /\
    component_results (execute_reproducible_build m) = [].
Proof.
  intros H Hreg Hbp Htargets. unfold create_ai_system_blueprint in H.
  apply mbind_returned in H as (models & ra & Ha & H).
  apply iter_of_returned in Ha as ->.
  apply mbind_returned in H as (comps1 & registry1 & H1 & H).
  apply mbind_returned in H as (protocols & rb & Hb & H).
  apply iter_of_returned in Hb as ->.
  apply mbind_returned in H as (comps2 & registry2 & H2 & H).
  apply mbind_returned in H as (architectures & rc & Hc & H).
  apply iter_of_returned in Hc as ->.
  apply mbind_returned in H as (comps3 & registry3 & H3 & H).
  apply mbind_returned in H as (scenarios & rs & Hsc & H).
  apply mbind_returned in H as (manifests & rm & Hm & H).
  injection H as <- <-.
  assert (rs = registry3 /\
          dict_get_or system_specification "deployment_scenarios" (PDict [])
          = PDict scenarios) as [-> Hscenarios].
  { unfold scenarios_of in Hsc.
    destruct (dict_get_or system_specification "deployment_scenarios" (PDict []));
      try done. by injection Hsc as <- <-. }
  apply create_manifests_returned in Hm as [-> Hm].
  assert (Hr3 : hyphenated registry3).
  { eapply create_components_hyphenated;
      [apply create_cognitive_architecture_component_hyphenated|exact H3|].
    eapply create_components_hyphenated;
      [apply create_protocol_component_hyphenated|exact H2|].
    eapply create_components_hyphenated;
      [apply create_ml_model_component_hyphenated|exact H1|].
    intros k Hk. rewrite forallb_forall in Hreg. apply Hreg.
    by apply list_elem_of_In. }
  simpl in Hbp, Htargets |- *.
  assert (Hnone : forall k, k ∈ dict_keys comps3 -> dict_get registry3 k = None).
  { intros k Hk. apply dict_get_None_keys. intros Hin.
    rewrite forallb_forall in Hbp.
    specialize (Hbp k ltac:(by apply list_elem_of_In)).
    rewrite (Hr3 k Hin) in Hbp. discriminate. }
  split; [exact Hr3|]. split; [exact Hnone|].
  intros scenario m Hget.
  destruct (Hm scenario m Hget) as [Hold|(ts & config & targets & Hin & Htg & Hgen)];
    [done|].
  assert (Hun : forall t, t ∈ targets -> dict_get registry3 t = None).
  { intros t Ht. apply Hnone.
    unfold targets_are_blueprint_keys in Htargets. simpl in Htargets.
    rewrite Hscenarios, forallb_forall in Htargets.
    specialize (Htargets _ ltac:(apply list_elem_of_In; exact Hin)).
    simpl in Htargets. rewrite Htg, forallb_forall in Htargets.
    specialize (Htargets t ltac:(by apply list_elem_of_In)).
    by apply bool_decide_eq_true in Htargets. }
  destruct (manifest_of_unregistered _ _ _ _ _ Hun Hgen) as (Hc & Hv & Hd).
  split; [done|]. split; [done|]. split; [done|].
  unfold execute_reproducible_build. rewrite Hc. by simpl.
Qed.

End Blueprint.

(** A system of one model and one scenario that names no targets. *)
Definition one_model_system : dict pyval :=
  [("models",
    PList [PDict [("name", PStr "encoder"); ("architecture", PStr "transformer");
                  ("training_data", PStr "corpus");
                  ("hyperparameters", PDict [("layers", PInt 12)])]]);
   ("deployment_scenarios", PDict [("development", PDict [])])].

Lemma create_ai_system_blueprint_manifests_witness :
  exists bp registry',
    create_ai_system_blueprint (fun _ => "json") (fun s => "0123456789abcdef")
                               (fun _ => "2024-01-01T00:00:00")
                               "system" one_model_system []
    = Some (Returned bp, registry') /\
    dict_keys (sys_components bp) = ["model_encoder"] /\
    dict_keys registry' = ["encoder-1.0.0-01234567"] /\
    exists m, dict_get (sys_build_manifests bp) "development" = Some m /\
              components m = [].
Proof.
  destruct (create_ai_system_blueprint
              (fun _ => "json") (fun s => "0123456789abcdef")
              (fun _ => "2024-01-01T00:00:00") "system" one_model_system [])
    as [[[bp|e] registry']|] eqn:Hrun; [|vm_compute in Hrun; discriminate Hrun..].
  pose proof (create_ai_system_blueprint_manifests _ _ _ _ _ _ _ _ Hrun) as Hthm.
  vm_compute in Hrun. injection Hrun as <- <-.
  destruct Hthm as (_ & _ & Hm); [reflexivity|reflexivity|reflexivity|].
  eexists _, _. split; [reflexivity|].
  split; [reflexivity|]. split; [reflexivity|].
  eexists. split; [reflexivity|].
  apply (Hm "development"). reflexivity.
Defined.


End ReproducibleAIBuilderFacts.

(** ** The blueprint validator and the hash manifest *)

Module GuixBuilderFacts.

Import Py PyFacts GuixBuilder.

Lemma truthy_str_false s : truthy_str s = false <-> s = "".
Proof. destruct s; simpl; split; congruence. Qed.

Lemma truthy_opt_str_false o :
  truthy_opt_str o = false <-> o = None \/ o = Some "".
Proof.
  destruct o as [s|]; simpl; [rewrite truthy_str_false|]; split; auto.
  - intros ->. auto.
  - intros [|[= ->]]; congruence.
Qed.

Lemma fold_check_version ps r :
  let r' := fold_left check_version ps r in
  has_checksums r' = has_checksums r /\
  has_hash_manifest r' = has_hash_manifest r /\
  build_deterministic r' = build_deterministic r /\
  dependencies_resolved r' = dependencies_resolved r /\
  (has_version_pinning r' = false <->
   has_version_pinning r = false \/
   exists p, p ∈ ps /\ (pkg_version p = "" \/ pkg_version p = "latest")).
Proof.
  revert r. induction ps as [|p ps IH]; intros r; simpl.
  - repeat split; auto. intros [|(p & []%elem_of_nil & _)]; auto.
  - destruct (IH (check_version r p)) as (H1 & H2 & H3 & H4 & H5).
    rewrite H1, H2, H3, H4, H5. clear IH H1 H2 H3 H4 H5.
    unfold check_version.
    destruct (negb (truthy_str (pkg_version p))
              || String.eqb (pkg_version p) "latest") eqn:Hbad; simpl;
      (split; [done|]); (split; [done|]); (split; [done|]); (split; [done|]).
    + assert (Hp : pkg_version p = "" \/ pkg_version p = "latest").
      { apply orb_true_iff in Hbad as [Hbad|Hbad]; [|right; by apply String.eqb_eq].
        left. apply truthy_str_false. by destruct (truthy_str _). }
      split; [|by auto].
      intros _. right. exists p. split; [left|done].
    + apply orb_false_iff in Hbad as [Hbad Hl].
      split.
      * intros [?|(q & Hq & Hv)]; [auto|]. right. exists q. split; [by right|done].
      * intros [?|(q & [->|Hq]%elem_of_cons & Hv)]; [auto| |eauto].
        exfalso. destruct Hv as [Hv|Hv]; rewrite Hv in *; discriminate.
Qed.

Lemma fold_check_checksum ps r :
  let r' := fold_left check_checksum ps r in
  has_version_pinning r' = has_version_pinning r /\
  has_hash_manifest r' = has_hash_manifest r /\
  build_deterministic r' = build_deterministic r /\
  dependencies_resolved r' = dependencies_resolved r /\
  (has_checksums r' = false <->
   has_checksums r = false \/
   exists p, p ∈ ps /\ (pkg_checksum p = None \/ pkg_checksum p = Some "")).
Proof.
  revert r. induction ps as [|p ps IH]; intros r; simpl.
  - repeat split; auto. intros [|(p & []%elem_of_nil & _)]; auto.
  - destruct (IH (check_checksum r p)) as (H1 & H2 & H3 & H4 & H5).
    rewrite H1, H2, H3, H4, H5. clear IH H1 H2 H3 H4 H5.
    unfold check_checksum.
    destruct (truthy_opt_str (pkg_checksum p)) eqn:Ht; simpl;
      (split; [done|]); (split; [done|]); (split; [done|]); (split; [done|]).
    + split.
      * intros [?|(q & Hq & Hv)]; [auto|]. right. exists q. split; [by right|done].
      * intros [?|(q & [->|Hq]%elem_of_cons & Hv)]; [auto| |eauto].
        apply truthy_opt_str_false in Hv. congruence.
    + split; [|by auto].
      intros _. right. exists p. split; [left|]. by apply truthy_opt_str_false.
Qed.

(** C6 (as amended).  For every blueprint, [validate_reproducibility]
    reports [has_version_pinning] false exactly when some package's
    version is empty or "latest", [has_checksums] false exactly when
    some package's checksum is unset ([None]) or the empty string,
    [has_hash_manifest] true exactly when the blueprint's hash
    manifest is non-empty, and [build_deterministic] and
    [dependencies_resolved] true whatever the input. *)
Theorem validate_reproducibility_spec (blueprint : BuildBlueprint) :
  let r := validate_reproducibility blueprint in
  let packages := env_packages (bp_environment blueprint) in
  (has_version_pinning r = false <->
   exists p, p ∈ packages /\ (pkg_version p = "" \/ pkg_version p = "latest")) /\
  (has_checksums r = false <->
   exists p, p ∈ packages /\ (pkg_checksum p = None \/ pkg_checksum p = Some "")) /\
  (has_hash_manifest r = true <-> bp_hash_manifest blueprint <> []) /\
  build_deterministic r = true /\
  dependencies_resolved r = true.
Proof.
  unfold validate_reproducibility. simpl.
  set (r0 := {| has_version_pinning := true; has_checksums := true;
                has_hash_manifest := truthy_dict (bp_hash_manifest blueprint);
                build_deterministic := true; dependencies_resolved := true |}).
  set (ps := env_packages (bp_environment blueprint)).
  destruct (fold_check_version ps r0) as (V1 & V2 & V3 & V4 & V5).
  destruct (fold_check_checksum ps (fold_left check_version ps r0))
    as (C1 & C2 & C3 & C4 & C5).
  rewrite C1, C2, C3, C4, C5, V1, V2, V3, V4, V5. simpl.
  repeat split; try (intros [|]; [discriminate|done]); auto.
  - destruct (bp_hash_manifest blueprint); simpl; [discriminate|done].
  - destruct (bp_hash_manifest blueprint); simpl; [done|reflexivity].
Qed.

(** A package whose checksum was set to the empty string. *)
Definition empty_checksum_package : PackageSpec :=
  {| pkg_name := "numpy"; pkg_version := "1.26.0";
     pkg_source := "https://pypi.org/simple/numpy"; pkg_build_system := "python";
     pkg_dependencies := []; pkg_build_args := []; pkg_patches := [];
     pkg_environment := []; pkg_checksum := Some "" |}.

Definition empty_checksum_blueprint : BuildBlueprint :=
  {| bp_name := "ml_research_blueprint"; bp_version := "1.0";
     bp_created_at := "2024-01-01T00:00:00";
     bp_environment :=
       {| env_name := "ml_research_environment"; env_description := "";
          env_base_system := "python:3.11-slim";
          env_packages := [empty_checksum_package];
          env_environment_vars := []; env_services := []; env_volumes := [];
          env_network_config := []; env_ai_specific := [] |};
     bp_build_instructions := []; bp_test_suite := []; bp_benchmark_suite := [];
     bp_deployment_config := []; bp_metadata := []; bp_hash_manifest := [] |}.

(** C6 as stated fails: with a checksum set to the empty string no
    package has its checksum unset, yet [has_checksums] is false. *)
Lemma has_checksums_empty_string_counterexample :
  has_checksums (validate_reproducibility empty_checksum_blueprint) = false /\
  ~ exists p, p ∈ env_packages (bp_environment empty_checksum_blueprint) /\
              pkg_checksum p = None.
Proof.
  split; [reflexivity|].
  intros (p & Hp & Hnone). simpl in Hp.
  apply list_elem_of_singleton in Hp. subst p. discriminate.
Qed.

(** *** The hash manifest *)

Lemma pop_hash_manifest (b : BuildBlueprint) (m : dict string) :
  dict_pop (asdict_blueprint (set_hash_manifest b m)) "hash_manifest" =
  dict_pop (asdict_blueprint b) "hash_manifest".
Proof. reflexivity. Qed.

(** C10.  [_generate_hash_manifest] drops the blueprint's own
    [hash_manifest] field before hashing, so its result is the same
    whatever that field holds; in particular regenerating the manifest
    of a blueprint that already carries its manifest gives the same
    manifest again.  This holds for every serialiser and every hash
    function. *)
Theorem hash_manifest_idempotent
        (json_dumps_sorted : pyval -> string) (sha256_hexdigest : string -> string)
        (b : BuildBlueprint) :
  (forall m : dict string,
      _generate_hash_manifest json_dumps_sorted sha256_hexdigest
                              (set_hash_manifest b m)
      = _generate_hash_manifest json_dumps_sorted sha256_hexdigest b) /\
  _generate_hash_manifest json_dumps_sorted sha256_hexdigest
    (set_hash_manifest b
       (_generate_hash_manifest json_dumps_sorted sha256_hexdigest b))
  = _generate_hash_manifest json_dumps_sorted sha256_hexdigest b.
Proof.
  assert (H : forall m,
             _generate_hash_manifest json_dumps_sorted sha256_hexdigest
                                     (set_hash_manifest b m)
             = _generate_hash_manifest json_dumps_sorted sha256_hexdigest b).
  { intros m. unfold _generate_hash_manifest.
    rewrite pop_hash_manifest. reflexivity. }
  split; [exact H | apply H].
Qed.

(** The manifest is not trivial: keys are the blueprint entry, one
    entry per package name and the build instructions. *)
Example hash_manifest_keys_example :
  dict_keys (_generate_hash_manifest (fun _ => "json") (fun s => s)
                                     empty_checksum_blueprint)
  = ["blueprint_spec"; "package_numpy"; "build_instructions"].
Proof. reflexivity. Qed.


(** *** The entries of the hash manifest *)

(** The last package of a list with a given name. *)
Definition last_named (n : string) (packages : list PackageSpec)
  : option PackageSpec :=
  fold_left (fun found p => if decide (pkg_name p = n) then Some p else found)
            packages None.

Section ManifestEntries.

Variable json_dumps_sorted : pyval -> string.
Variable sha256_hexdigest : string -> string.

Definition package_hash (p : PackageSpec) : string :=
  sha256_hexdigest (json_dumps_sorted (PDict (asdict_package p))).

Lemma fold_hash_package_keys (ps : list PackageSpec) (m : dict string) (k : string) :
  k ∈ dict_keys (fold_left (hash_package json_dumps_sorted sha256_hexdigest) ps m)
  <-> k ∈ dict_keys m \/ exists p, p ∈ ps /\ k = "package_" +:+ pkg_name p.
Proof.
  revert m. induction ps as [|p ps IH]; intros m; simpl.
  - split; [by left|]. intros [?|(p & []%elem_of_nil & _)]. done.
  - rewrite IH. unfold hash_package. rewrite dict_keys_set_elem. split.
    + intros [[->|?]|(q & Hq & ->)]; [right|by left|right].
      * exists p. split; [left|done].
      * exists q. split; [by right|done].
    + intros [?|(q & [->|Hq]%elem_of_cons & ->)]; [by left; right|by left; left|].
      right. by exists q.
Qed.

Lemma fold_hash_package_NoDup (ps : list PackageSpec) (m : dict string) :
  NoDup (dict_keys m) ->
  NoDup (dict_keys (fold_left (hash_package json_dumps_sorted sha256_hexdigest) ps m)).
Proof.
  revert m. induction ps as [|p ps IH]; intros m Hm; simpl; [done|].
  apply IH. by apply dict_keys_set_NoDup.
Qed.

Lemma fold_hash_package_get (ps : list PackageSpec) (m : dict string)
      (n : string) (found : option PackageSpec) :
  dict_get m ("package_" +:+ n) = package_hash <$> found ->
  dict_get (fold_left (hash_package json_dumps_sorted sha256_hexdigest) ps m)
           ("package_" +:+ n)
  = package_hash
      <$> fold_left (fun found p => if decide (pkg_name p = n) then Some p else found)
                    ps found.
Proof.
  revert m found. induction ps as [|p ps IH]; intros m found Hm; simpl; [done|].
  apply IH. unfold hash_package. rewrite dict_get_set.
  destruct (decide (pkg_name p = n)) as [->|Hne].
  - by rewrite decide_True.
  - rewrite decide_False; [done|]. by intros ?%append_inj_l.
Qed.

Lemma fold_hash_package_get_other (ps : list PackageSpec) (m : dict string)
      (k : string) :
  (forall n, k <> "package_" +:+ n) ->
  dict_get (fold_left (hash_package json_dumps_sorted sha256_hexdigest) ps m) k
  = dict_get m k.
Proof.
  intros Hk. revert m. induction ps as [|p ps IH]; intros m; simpl; [done|].
  rewrite IH. unfold hash_package. rewrite dict_get_set.
  rewrite decide_False; [done|]. intros H. by apply (Hk (pkg_name p)).
Qed.

Lemma package_key_not_fixed (n : string) :
  "package_" +:+ n <> "blueprint_spec" /\ "package_" +:+ n <> "build_instructions".
Proof.
  change ("package_" +:+ n) with (String "p" ("ackage_" +:+ n)).
  split; discriminate.
Qed.

(** X9.  The hash manifest has distinct keys: [blueprint_spec],
    [build_instructions], and [package_<name>] for every package name
    of the environment, and no other.  Packages that share a name
    share one entry, which holds the hash of the last of them.  The
    manifest is never empty, so a blueprint that carries its generated
    manifest always validates with [has_hash_manifest] true. *)
Theorem hash_manifest_entries (b : BuildBlueprint) :
  let m := _generate_hash_manifest json_dumps_sorted sha256_hexdigest b in
  let packages := env_packages (bp_environment b) in
  NoDup (dict_keys m) /\
  (forall k, k ∈ dict_keys m <->
             k = "blueprint_spec" \/ k = "build_instructions" \/
             exists p, p ∈ packages /\ k = "package_" +:+ pkg_name p) /\
  (forall n, dict_get m ("package_" +:+ n)
             = package_hash <$> last_named n packages) /\
  has_hash_manifest (validate_reproducibility (set_hash_manifest b m)) = true.
Proof.
  intros m packages.
  assert (Hkeys : forall k, k ∈ dict_keys m <->
             k = "blueprint_spec" \/ k = "build_instructions" \/
             exists p, p ∈ packages /\ k = "package_" +:+ pkg_name p).
  { intros k. unfold m, _generate_hash_manifest.
    rewrite dict_keys_set_elem, fold_hash_package_keys. simpl.
    fold packages. unfold dict_keys. simpl.
    rewrite list_elem_of_singleton. tauto. }
  split; [|split; [done|split]].
  - unfold m, _generate_hash_manifest.
    apply dict_keys_set_NoDup, fold_hash_package_NoDup. simpl.
    apply NoDup_singleton.
  - intros n. unfold m, _generate_hash_manifest. rewrite dict_get_set.
    destruct (package_key_not_fixed n) as [Hspec Hinstr].
    rewrite decide_False by done.
    by apply (fold_hash_package_get _ _ n None).
  - unfold validate_reproducibility.
    destruct (fold_check_checksum
                (env_packages (bp_environment (set_hash_manifest b m)))
                (fold_left check_version
                   (env_packages (bp_environment (set_hash_manifest b m)))
                   {| has_version_pinning := true; has_checksums := true;
                      has_hash_manifest :=
                        truthy_dict (bp_hash_manifest (set_hash_manifest b m));
                      build_deterministic := true;
                      dependencies_resolved := true |}))
      as (_ & -> & _).
    destruct (fold_check_version
                (env_packages (bp_environment (set_hash_manifest b m)))
                {| has_version_pinning := true; has_checksums := true;
                   has_hash_manifest :=
                     truthy_dict (bp_hash_manifest (set_hash_manifest b m));
                   build_deterministic := true;
                   dependencies_resolved := true |})
      as (_ & -> & _).
    simpl. assert (Hin : "build_instructions" ∈ dict_keys m) by (apply Hkeys; auto).
    destruct m as [|kv m']; [by apply elem_of_nil in Hin|done].
Qed.

End ManifestEntries.


(** *** Build instructions *)

Lemma fold_install_lines (ps : list PackageSpec) (acc : list string) :
  fold_left (fun instructions package => instructions ++ install_lines package) ps acc
  = acc ++ concat (install_lines <$> ps).
Proof.
  revert acc. induction ps as [|p ps IH]; intros acc; simpl.
  - by rewrite app_nil_r.
  - by rewrite IH, app_assoc.
Qed.

(** The build systems that get an install step. *)
Definition installable (p : PackageSpec) : Prop :=
  pkg_build_system p = "python" \/ pkg_build_system p = "nodejs".

Lemma install_lines_other (p : PackageSpec) : ~ installable p -> install_lines p = [].
Proof.
  unfold installable, install_lines. intros Hp.
  destruct (String.eqb_spec (pkg_build_system p) "python"); [tauto|].
  destruct (String.eqb_spec (pkg_build_system p) "nodejs"); [tauto|done].
Qed.

Lemma install_lines_filter (ps : list PackageSpec) :
  concat (install_lines <$> filter installable ps) = concat (install_lines <$> ps).
Proof.
  induction ps as [|p ps IH]; [done|].
  rewrite filter_cons. destruct (decide (installable p)) as [Hp|Hp]; csimpl.
  - by rewrite IH.
  - by rewrite IH, install_lines_other.
Qed.

Definition with_packages (e : EnvironmentSpec) (ps : list PackageSpec)
  : EnvironmentSpec :=
  {| env_name := env_name e; env_description := env_description e;
     env_base_system := env_base_system e; env_packages := ps;
     env_environment_vars := env_environment_vars e;
     env_services := env_services e; env_volumes := env_volumes e;
     env_network_config := env_network_config e;
     env_ai_specific := env_ai_specific e |}.

(** X16.  [_generate_build_instructions] cannot raise on an
    environment without services.  When it returns, the instructions
    start with the title and the [FROM] line of the base system, hold
    the [pip] install step of every package built with [python], the
    [npm] install step of every package built with [nodejs], and an
    [ENV] line for every environment variable.  Packages of any other
    build system ([make], [java], ...) leave no trace: the result is
    that of the environment without them. *)
Theorem build_instructions_packages (repr : pyval -> string) (e : EnvironmentSpec) :
  (env_services e = [] ->
   exists l, _generate_build_instructions repr e = Returned l) /\
  (forall l, _generate_build_instructions repr e = Returned l ->
     l !! 0 = Some ("# Build instructions for " +:+ env_name e) /\
     l !! 1 = Some ("FROM " +:+ env_base_system e) /\
     (forall p, p ∈ env_packages e -> pkg_build_system p = "python" ->
        ("RUN pip install " +:+ pkg_name p +:+ "==" +:+ pkg_version p) ∈ l) /\
     (forall p, p ∈ env_packages e -> pkg_build_system p = "nodejs" ->
        ("RUN npm install -g " +:+ pkg_name p +:+ "@" +:+ pkg_version p) ∈ l) /\
     (forall k v, (k, v) ∈ env_environment_vars e ->
        ("ENV " +:+ k +:+ "=" +:+ v) ∈ l)) /\
  _generate_build_instructions repr
    (with_packages e (filter installable (env_packages e)))
  = _generate_build_instructions repr e.
Proof.
  split; [|split].
  - intros Hnone. unfold _generate_build_instructions. rewrite Hnone. by eexists.
  - intros l. unfold _generate_build_instructions. rewrite fold_install_lines.
    set (header := [_; _; _; _; _; _]).
    set (installs := concat (install_lines <$> env_packages e)).
    set (body := if truthy_dict (env_environment_vars e) then _ else _).
    assert (Hbody : body !! 0 = Some ("# Build instructions for " +:+ env_name e) /\
                    body !! 1 = Some ("FROM " +:+ env_base_system e) /\
                    (forall x, x ∈ installs -> x ∈ body) /\
                    (forall k v, (k, v) ∈ env_environment_vars e ->
                                 ("ENV " +:+ k +:+ "=" +:+ v) ∈ body)).
    { unfold body. destruct (env_environment_vars e) as [|kv vars] eqn:Hvars.
      - simpl. split; [done|]. split; [done|]. split; [|by intros k v ?%elem_of_nil].
        intros x Hx. rewrite !elem_of_cons. tauto.
      - change (truthy_dict (kv :: vars)) with true. cbv iota.
        split; [done|]. split; [done|]. split.
        + intros x Hx. rewrite !elem_of_app. tauto.
        + intros k v Hkv. rewrite !elem_of_app. right. right. left.
          apply list_elem_of_fmap. by exists (k, v). }
    destruct Hbody as (H0 & H1 & Hinst & Henv).
    assert (Hpy : forall p, p ∈ env_packages e -> pkg_build_system p = "python" ->
                ("RUN pip install " +:+ pkg_name p +:+ "==" +:+ pkg_version p)
                  ∈ installs).
    { intros p Hp Hsys. apply elem_of_concat. exists (install_lines p).
      split; [|apply list_elem_of_fmap; by exists p].
      unfold install_lines. rewrite Hsys. simpl. set_solver. }
    assert (Hjs : forall p, p ∈ env_packages e -> pkg_build_system p = "nodejs" ->
                ("RUN npm install -g " +:+ pkg_name p +:+ "@" +:+ pkg_version p)
                  ∈ installs).
    { intros p Hp Hsys. apply elem_of_concat. exists (install_lines p).
      split; [|apply list_elem_of_fmap; by exists p].
      unfold install_lines. rewrite Hsys. simpl. set_solver. }
    assert (Hgrow : forall extra,
               (body ++ extra) !! 0
               = Some ("# Build instructions for " +:+ env_name e) /\
               (body ++ extra) !! 1 = Some ("FROM " +:+ env_base_system e)).
    { intros extra. split; by apply lookup_app_l_Some. }
    destruct (env_services e) as [|s ss].
    + intros [= <-]. repeat split; auto.
    + destruct (all_service_lines repr (s :: ss)) as [lines|]; [|done].
      intros [= <-]. destruct (Hgrow (["# Set up services"] ++ lines ++ [""]))
        as [Hl0 Hl1].
      split; [done|]. split; [done|].
      split; [|split]; intros; apply elem_of_app; left; auto.
  - unfold _generate_build_instructions. simpl.
    by rewrite !fold_install_lines, install_lines_filter.
Qed.


(** *** Creating blueprints *)

Lemma bind_returned {A B} (m : built A) (f : A -> built B) b :
  bind m f = Some (Returned b) ->
  exists a, m = Some (Returned a) /\ f a = Some (Returned b).
Proof. destruct m as [[a|e]|]; simpl; [eauto|done|done]. Qed.

Lemma bind_raised {A B} (m : built A) (f : A -> built B) e :
  bind m f = Some (Raised e) ->
  m = Some (Raised e) \/ exists a, m = Some (Returned a) /\ f a = Some (Raised e).
Proof. destruct m as [[a|e']|]; simpl; [eauto| |done]. intros [= ->]. auto. Qed.

Lemma typed_raised {A} (o : option A) e : typed o = Some (Raised e) -> False.
Proof. by destruct o. Qed.

Lemma package_of_raised pkg e :
  package_of pkg = Some (Raised e) -> e = "TypeError".
Proof.
  destruct pkg; simpl; try (by intros [= <-]).
  unfold package_of_kwargs.
  repeat case_match; try done; by intros [= <-].
Qed.

Lemma packages_of_raised items e :
  packages_of items = Some (Raised e) -> e = "TypeError".
Proof.
  induction items as [|pkg items IH]; simpl; [done|].
  intros [H|(p & _ & H)]%bind_raised; [by eapply package_of_raised|].
  apply bind_raised in H as [H|(ps & _ & H)]; [by apply IH|done].
Qed.

Lemma enterprise_packages_raised config e :
  enterprise_packages config = Some (Raised e) ->
  e = "TypeError" /\ is_Some (dict_get config "enterprise_ml_packages").
Proof.
  unfold enterprise_packages.
  destruct (dict_get config "enterprise_ml_packages") as [v|]; [|done].
  intros H. split; [|by eexists].
  destruct (truthy v); [|done].
  destruct v; try (by injection H as <-).
  by eapply packages_of_raised.
Qed.

Lemma merged_environment_vars_raised base config e :
  merged_environment_vars base config = Some (Raised e) ->
  e = "TypeError" /\ is_Some (dict_get config "environment_vars").
Proof.
  unfold merged_environment_vars.
  destruct (dict_get config "environment_vars") as [v|]; [|done].
  intros H. split; [|by eexists].
  destruct v; try (by injection H as <-).
  by apply typed_raised in H.
Qed.

(** The two entries of a configuration that can make the creation of
    an environment raise. *)
Definition raising_entry (config : dict pyval) : Prop :=
  is_Some (dict_get config "enterprise_ml_packages") \/
  is_Some (dict_get config "environment_vars").

Ltac bind_raised H :=
  repeat (cbv beta zeta in H;
          apply bind_raised in H as [H|(? & _ & H)];
          [first [ by apply typed_raised in H
                 | apply enterprise_packages_raised in H as [-> ?];
                   by (split; [|left])
                 | apply merged_environment_vars_raised in H as [-> ?];
                   by (split; [|right]) ]|]);
  cbv beta zeta in H; discriminate H.

Ltac bind_returned H :=
  repeat (cbv beta zeta in H; apply bind_returned in H as (? & _ & H));
  cbv beta zeta in H; injection H as <-.

Lemma ml_research_environment_raised config e :
  _create_ml_research_environment config = Some (Raised e) ->
  e = "TypeError" /\ raising_entry config.
Proof. unfold _create_ml_research_environment. intros H. bind_raised H. Qed.

Lemma ml_research_environment_returned config env :
  _create_ml_research_environment config = Some (Returned env) ->
  env_services env = [] /\
  exists p, p ∈ env_packages env /\ pkg_checksum p = None.
Proof.
  unfold _create_ml_research_environment. intros H. bind_returned H.
  split; [done|]. simpl. eexists. split; [apply list_elem_of_here|done].
Qed.

Lemma protocol_design_environment_raised config e :
  _create_protocol_design_environment config = Some (Raised e) ->
  e = "TypeError" /\ raising_entry config.
Proof. unfold _create_protocol_design_environment. intros H. bind_raised H. Qed.

Lemma protocol_design_environment_returned config env :
  _create_protocol_design_environment config = Some (Returned env) ->
  env_services env = protocol_services /\
  exists p, p ∈ env_packages env /\ pkg_checksum p = None.
Proof.
  unfold _create_protocol_design_environment. intros H. bind_returned H.
  split; [done|]. simpl. eexists. split; [apply list_elem_of_here|done].
Qed.

Lemma hybrid_workbench_environment_raised config e :
  _create_hybrid_workbench_environment config = Some (Raised e) ->
  e = "TypeError" /\ raising_entry config.
Proof.
  unfold _create_hybrid_workbench_environment. intros H.
  apply bind_raised in H as [H|(ml_env & _ & H)];
    [by apply ml_research_environment_raised|].
  apply bind_raised in H as [H|(protocol_env & _ & H)];
    [by apply protocol_design_environment_raised|].
  cbv beta zeta in H.
  apply bind_raised in H as [H|(? & _ & H)]; [by apply typed_raised in H|done].
Qed.

Lemma hybrid_workbench_environment_returned config env :
  _create_hybrid_workbench_environment config = Some (Returned env) ->
  env_services env = protocol_services /\
  exists p, p ∈ env_packages env /\ pkg_checksum p = None.
Proof.
  unfold _create_hybrid_workbench_environment. intros H.
  apply bind_returned in H as (ml_env & _ & H).
  apply bind_returned in H as (protocol_env & Hp & H).
  cbv beta zeta in H.
  apply bind_returned in H as (base_system & _ & H).
  injection H as <-. simpl.
  apply protocol_design_environment_returned in Hp as [Hs (p & Hin & Hnone)].
  split; [done|]. exists p. split; [|done].
  apply elem_of_app. by right.
Qed.

Definition workbench_types : list string :=
  ["ml_research"; "protocol_design"; "hybrid_workbench"].

Lemma environment_of_raised workbench_type config e :
  environment_of workbench_type config = Some (Raised e) ->
  e = "AttributeError" /\ workbench_type = "nn_development" \/
  e = "ValueError" /\ workbench_type ∉ "nn_development" :: workbench_types \/
  e = "TypeError" /\ workbench_type ∈ workbench_types /\ raising_entry config.
Proof.
  unfold environment_of, workbench_types.
  destruct (String.eqb_spec workbench_type "ml_research") as [->|H1].
  { intros [-> ?]%ml_research_environment_raised.
    right. right. split; [done|]. split; [set_solver|done]. }
  destruct (String.eqb_spec workbench_type "nn_development") as [->|H2].
  { intros [= <-]. by left. }
  destruct (String.eqb_spec workbench_type "protocol_design") as [->|H3].
  { intros [-> ?]%protocol_design_environment_raised.
    right. right. split; [done|]. split; [set_solver|done]. }
  destruct (String.eqb_spec workbench_type "hybrid_workbench") as [->|H4].
  { intros [-> ?]%hybrid_workbench_environment_raised.
    right. right. split; [done|]. split; [set_solver|done]. }
  intros [= <-]. right. left. split; [done|]. set_solver.
Qed.

Lemma environment_of_returned workbench_type config env :
  environment_of workbench_type config = Some (Returned env) ->
  workbench_type ∈ workbench_types /\
  (env_services env = [] \/ env_services env = protocol_services) /\
  exists p, p ∈ env_packages env /\ pkg_checksum p = None.
Proof.
  unfold environment_of, workbench_types.
  destruct (String.eqb_spec workbench_type "ml_research") as [->|H1].
  { intros [? ?]%ml_research_environment_returned. split; [set_solver|auto]. }
  destruct (String.eqb_spec workbench_type "nn_development") as [->|H2]; [done|].
  destruct (String.eqb_spec workbench_type "protocol_design") as [->|H3].
  { intros [? ?]%protocol_design_environment_returned. split; [set_solver|auto]. }
  destruct (String.eqb_spec workbench_type "hybrid_workbench") as [->|H4]; [|done].
  intros [? ?]%hybrid_workbench_environment_returned. split; [set_solver|auto].
Qed.

Lemma build_instructions_of_services repr env :
  (exists lines, all_service_lines repr (env_services env) = Returned lines) ->
  exists l, _generate_build_instructions repr env = Returned l.
Proof.
  intros [lines H]. unfold _generate_build_instructions.
  destruct (env_services env) as [|service services]; [by eexists|].
  rewrite H. by eexists.
Qed.

Lemma build_instructions_of_environment repr env :
  env_services env = [] \/ env_services env = protocol_services ->
  exists l, _generate_build_instructions repr env = Returned l.
Proof.
  intros H. apply build_instructions_of_services.
  destruct H as [-> | ->]; eexists; reflexivity.
Qed.

Lemma dict_set_truthy {V} (d : dict V) k v : truthy_dict (dict_set d k v) = true.
Proof. destruct d as [|[k' v'] d]; simpl; [done|]. by case_decide. Qed.

Lemma hash_manifest_of_set json_dumps_sorted sha256_hexdigest b m :
  _generate_hash_manifest json_dumps_sorted sha256_hexdigest (set_hash_manifest b m)
  = _generate_hash_manifest json_dumps_sorted sha256_hexdigest b.
Proof. reflexivity. Qed.

Section Create.

Variable json_dumps_sorted : pyval -> string.
Variable sha256_hexdigest : string -> string.
Variable repr : pyval -> string.

Abbreviation create :=
  (create_ai_workbench_blueprint json_dumps_sorted sha256_hexdigest repr).

(** X17.  The errors of [create_ai_workbench_blueprint].  The type
    [nn_development], which the method dispatches on, always raises
    [AttributeError]: the class has no
    [_create_nn_development_environment].  A type outside the four
    raises [ValueError].  These and a [TypeError] from the
    configuration entries [enterprise_ml_packages] and
    [environment_vars] are the only errors, and a call that raises
    leaves the build history as it was. *)
Theorem create_ai_workbench_blueprint_errors
        (now : string) (history : list BuildBlueprint)
        (workbench_type : string) (enterprise_config : option (dict pyval)) :
  create now history "nn_development" enterprise_config
  = Some (Raised "AttributeError", history) /\
  (workbench_type ∉ "nn_development" :: workbench_types ->
   create now history workbench_type enterprise_config
   = Some (Raised "ValueError", history)) /\
  (forall e history',
      create now history workbench_type enterprise_config
      = Some (Raised e, history') ->
      history' = history /\
      (e = "AttributeError" /\ workbench_type = "nn_development" \/
       e = "ValueError" /\ workbench_type ∉ "nn_development" :: workbench_types \/
       e = "TypeError" /\ workbench_type ∈ workbench_types /\
       raising_entry (default [] enterprise_config))).
Proof.
  split; [reflexivity|]. split.
  - intros Hnot. unfold create_ai_workbench_blueprint, environment_of.
    unfold workbench_types in Hnot.
    destruct (String.eqb_spec workbench_type "ml_research"); [set_solver|].
    destruct (String.eqb_spec workbench_type "nn_development"); [set_solver|].
    destruct (String.eqb_spec workbench_type "protocol_design"); [set_solver|].
    destruct (String.eqb_spec workbench_type "hybrid_workbench"); [set_solver|].
    reflexivity.
  - intros e history'. unfold create_ai_workbench_blueprint.
    destruct (environment_of workbench_type (default [] enterprise_config))
      as [[env|e']|] eqn:Henv; [| |done].
    + apply environment_of_returned in Henv as (_ & Hs & _).
      destruct (build_instructions_of_environment repr env Hs) as [l ->].
      discriminate.
    + intros [= -> <-]. split; [done|]. by apply environment_of_raised.
Qed.

(** X18.  The blueprints [create_ai_workbench_blueprint] returns.
    With the default configuration each of the three implemented
    types gives a blueprint.  A returned blueprint is appended to the
    build history, is named after its type, has the version
    [1.<number of blueprints built before>] and carries the hash
    manifest of itself; [validate_reproducibility] reports for it a
    hash manifest and, whatever the configuration, missing checksums:
    the packages the generator itself lists have none. *)
Theorem create_ai_workbench_blueprint_returns
        (now : string) (history : list BuildBlueprint)
        (workbench_type : string) (enterprise_config : option (dict pyval)) :
  (workbench_type ∈ workbench_types ->
   exists b, create now history workbench_type None
             = Some (Returned b, history ++ [b])) /\
  (forall b history',
      create now history workbench_type enterprise_config
      = Some (Returned b, history') ->
      history' = history ++ [b] /\
      workbench_type ∈ workbench_types /\
      bp_name b = workbench_type +:+ "_blueprint" /\
      bp_version b = "1." +:+ str_of_nat (length history) /\
      bp_created_at b = now /\
      bp_hash_manifest b
      = _generate_hash_manifest json_dumps_sorted sha256_hexdigest b /\
      has_hash_manifest (validate_reproducibility b) = true /\
      has_checksums (validate_reproducibility b) = false).
Proof.
  split.
  - unfold workbench_types.
    intros [->|[->|[->|[]%elem_of_nil]%elem_of_cons]%elem_of_cons]%elem_of_cons;
      eexists; reflexivity.
  - intros b history'. unfold create_ai_workbench_blueprint.
    destruct (environment_of workbench_type (default [] enterprise_config))
      as [[env|e']|] eqn:Henv; [|done|done].
    apply environment_of_returned in Henv as (Hwt & Hs & p & Hp & Hnone).
    destruct (_generate_build_instructions repr env) as [l|e']; [|done].
    cbv zeta. intros [= <- <-].
    split; [done|]. split; [done|]. split; [done|]. split; [done|].
    split; [done|]. split; [by rewrite hash_manifest_of_set|].
    unfold validate_reproducibility.
    match goal with
    | |- context [fold_left check_checksum ?ps (fold_left check_version ?ps ?r0)] =>
        destruct (fold_check_version ps r0) as (_ & V2 & _);
        destruct (fold_check_checksum ps (fold_left check_version ps r0))
          as (_ & C2 & _ & _ & C5)
    end.
    split.
    + rewrite C2, V2. simpl. apply dict_set_truthy.
    + apply C5. right. exists p. split; [done|by left].
Qed.

End Create.


End GuixBuilderFacts.

(** ** The LSP server *)

Module LSPServerFacts.

Import Py PyFacts LSPServer.

(** *** The document store *)

Lemma run_snoc trace n docs : run (trace ++ [n]) docs = notify (run trace docs) n.
Proof. unfold run. by rewrite fold_left_app. Qed.

Lemma opened_has_text u l :
  opened_not_closed u l = true -> is_Some (latest_text u l).
Proof.
  induction l as [|[p|p|p] l IH]; simpl; [done| | |].
  - case_decide; eauto.
  - intros H. destruct (default [] (contentChanges p)); [by auto|].
    case_decide; eauto.
  - case_decide; [done|auto].
Qed.

Lemma expected_document_snoc_open u trace p :
  expected_document u (trace ++ [DidOpen p]) =
  if decide (uri_of p = u)
  then Some (default "" (text (default no_document (textDocument p))))
  else expected_document u trace.
Proof.
  unfold expected_document. rewrite rev_unit. simpl. by case_decide.
Qed.

Lemma expected_document_snoc_close u trace p :
  expected_document u (trace ++ [DidClose p]) =
  if decide (uri_of p = u) then None else expected_document u trace.
Proof.
  unfold expected_document. rewrite rev_unit. simpl. by case_decide.
Qed.

Lemma expected_document_snoc_change u trace p :
  expected_document u (trace ++ [DidChange p]) =
  match default [] (contentChanges p) with
  | change :: _ =>
      if decide (uri_of p = u)
      then (if decide (is_Some (expected_document u trace))
            then Some (default "" (change_text change)) else None)
      else expected_document u trace
  | [] => expected_document u trace
  end.
Proof.
  unfold expected_document. rewrite rev_unit. simpl.
  destruct (default [] (contentChanges p)) as [|change changes]; [done|].
  case_decide; [|done].
  destruct (opened_not_closed u (rev trace)) eqn:Hopen.
  - apply opened_has_text in Hopen. by rewrite decide_True.
  - rewrite decide_False; [done|]. by intros [? ?].
Qed.

Lemma run_expected trace u : run trace ∅ !! u = expected_document u trace.
Proof.
  induction trace as [|n trace IH] using rev_ind; [done|].
  rewrite run_snoc. destruct n as [p|p|p]; simpl.
  - rewrite expected_document_snoc_open. unfold _handle_did_open.
    fold (uri_of p).
    destruct (decide (uri_of p = u)) as [<-|Hne];
      [by rewrite lookup_insert_eq | by rewrite lookup_insert_ne].
  - rewrite expected_document_snoc_change. unfold _handle_did_change.
    fold (uri_of p).
    destruct (default [] (contentChanges p)) as [|change changes]; [done|].
    destruct (decide (uri_of p = u)) as [<-|Hne].
    + rewrite <- IH.
      destruct (decide (is_Some (run trace ∅ !! uri_of p))) as [Hin|Hout].
      * by rewrite lookup_insert_eq.
      * by destruct (run trace ∅ !! uri_of p) eqn:E; [destruct Hout; eauto|].
    + case_decide; [by rewrite lookup_insert_ne|done].
  - rewrite expected_document_snoc_close. unfold _handle_did_close.
    fold (uri_of p).
    destruct (decide (uri_of p = u)) as [<-|Hne].
    + destruct (decide (is_Some (run trace ∅ !! uri_of p))) as [Hin|Hout].
      * by rewrite lookup_delete_eq.
      * by destruct (run trace ∅ !! uri_of p) eqn:E; [destruct Hout; eauto|].
    + case_decide; [by rewrite lookup_delete_ne|done].
Qed.

(** C9.  Starting from the empty store, after any sequence of
    didOpen, didChange and didClose notifications the store holds, at
    every URI, what the trace says: nothing when the URI was not
    opened or was closed since, and otherwise the text of the most
    recent didOpen or (non-empty) didChange naming it.  A didChange
    whose URI is not in the store, or whose list of changes is empty,
    leaves the store as it is. *)
Theorem document_store_invariant (trace : list notification) :
  (forall u, run trace ∅ !! u = expected_document u trace) /\
  (forall params docs,
      docs !! uri_of params = None \/ default [] (contentChanges params) = [] ->
      _handle_did_change params docs = docs).
Proof.
  split; [intros u; apply run_expected|].
  intros params docs H. unfold _handle_did_change. fold (uri_of params).
  destruct (default [] (contentChanges params)) as [|change changes]; [done|].
  destruct H as [H|H]; [|done].
  rewrite decide_False; [done|]. rewrite H. by intros [? ?].
Qed.

Definition open_params (u t : string) : Params :=
  {| textDocument := Some {| uri := Some u; text := Some t |};
     position := None; contentChanges := None |}.

Definition change_params (u : string) (ts : list string) : Params :=
  {| textDocument := Some {| uri := Some u; text := None |};
     position := None;
     contentChanges := Some ((fun t => {| change_text := Some t |}) <$> ts) |}.

Example document_store_example :
  run [DidOpen (open_params "file:///a" "class A");
       DidChange (change_params "file:///b" ["ignored"]);
       DidOpen (open_params "file:///b" "def f");
       DidChange (change_params "file:///a" ["class B"; "class C"]);
       DidChange (change_params "file:///a" []);
       DidClose (change_params "file:///b" [])] ∅
  = {[ "file:///a" := "class B" ]}.
Proof. by vm_compute. Qed.

(** *** Hover *)



(** More fuel than the length of the line leaves does not move the
    end of the word: the loop has stopped by itself. *)
Lemma word_end_stable (line : string) (fuel extra end_ : nat) :
  String.length line - end_ <= fuel ->
  word_end (fuel + extra) line end_ = word_end fuel line end_.
Proof.
  revert end_. induction fuel as [|fuel IH]; intros end_ Hfuel; simpl.
  - destruct extra as [|extra]; simpl; [done|].
    destruct (Nat.ltb_spec end_ (String.length line)); [lia|done].
  - destruct (Nat.ltb_spec end_ (String.length line)); [|done].
    destruct (String.get end_ line) as [c|]; [|done].
    destruct (is_word_char c); [|done]. apply IH. lia.
Qed.




Example hover_example :
  let docs : documents :=
    {[ "file:///city.py" := "import os" +:+ String LF "x = salience_score + 1" ]} in
  let at_ l c :=
    {| textDocument := Some {| uri := Some "file:///city.py"; text := None |};
       position := Some {| line := Some l; character := Some c |};
       contentChanges := None |} in
  _handle_hover docs (at_ 1 7)
  = Returned (Some (markdown "**Salience Score**: Measure of importance/relevance of a memory pattern or cognitive element.")) /\
  _handle_hover docs (at_ 0 8) = Returned None /\
  _handle_hover docs (at_ 2 0) = Returned None /\
  _handle_hover docs (at_ 1 22) = Returned None.
Proof. by vm_compute. Qed.


(** *** Framing *)

Definition not_char (x : ascii) (c : ascii) : bool := negb (Ascii.eqb c x).

Definition is_decimal_char (c : ascii) : bool := between 48 57 (nat_of_ascii c).

Lemma str_forall_impl (f g : ascii -> bool) (s : string) :
  (forall c, f c = true -> g c = true) ->
  str_forall f s = true -> str_forall g s = true.
Proof.
  intros Hfg. induction s as [|c s IH]; simpl; [done|].
  intros [Hc Hs]%andb_true_iff. rewrite (Hfg c Hc). simpl. auto.
Qed.

Lemma is_decimal_char_cases (c : ascii) :
  is_decimal_char c = true ->
  isdigit_char c = true /\ isspace c = false /\ not_char LF c = true /\
  not_char CR c = true.
Proof.
  destruct c as [[] [] [] [] [] [] [] []]; vm_compute; intros Hdec;
    by try discriminate Hdec.
Qed.

Lemma string_of_uint_decimal (d : uint) :
  str_forall is_decimal_char (NilEmpty.string_of_uint d) = true.
Proof. induction d; simpl; auto. Qed.

Lemma str_of_nat_decimal (n : nat) :
  str_forall is_decimal_char (str_of_nat n) = true /\ str_of_nat n <> "".
Proof.
  unfold str_of_nat, NilZero.string_of_uint.
  pose proof (to_uint_nonnil n) as Hnil.
  pose proof (string_of_uint_decimal (Nat.to_uint n)) as Hdec.
  destruct (Nat.to_uint n); [done| | | | | | | | | |]; by split.
Qed.

Lemma int_of_str_of_nat (n : nat) : int_of_digits (str_of_nat n) = Some (Z.of_nat n).
Proof.
  unfold int_of_digits, str_of_nat.
  rewrite NilZero.usu by apply to_uint_nonnil.
  by rewrite Unsigned.of_to.
Qed.

Lemma isdigit_str_of_nat (n : nat) : isdigit (str_of_nat n) = true.
Proof.
  destruct (str_of_nat_decimal n) as [Hdec Hne]. unfold isdigit.
  apply andb_true_iff. split; [by destruct (str_of_nat n)|].
  eapply str_forall_impl; [|exact Hdec].
  intros c Hc. by apply is_decimal_char_cases.
Qed.


Lemma append_nil (b : string) : "" +:+ b = b.
Proof. reflexivity. Qed.

Lemma append_cons (c : ascii) (a b : string) : String c a +:+ b = String c (a +:+ b).
Proof. reflexivity. Qed.

Ltac append_simpl := rewrite ?append_nil, ?append_cons; simpl.

Lemma readline_app (a b : string) :
  str_forall (not_char LF) a = true ->
  readline (a +:+ b) = ((a +:+ (readline b).1), (readline b).2).
Proof.
  induction a as [|c a IH]; append_simpl; [by destruct (readline b)|].
  intros [Hc Ha]%andb_true_iff. unfold not_char in Hc.
  apply negb_true_iff in Hc. by rewrite Hc, (IH Ha).
Qed.

Lemma rstrip_app (a b : string) :
  rstrip (a +:+ b) = if nonempty_str (rstrip b) then a +:+ rstrip b else rstrip a.
Proof.
  induction a as [|c a IH]; append_simpl; [by destruct (rstrip b)|].
  rewrite IH. destruct (rstrip b) as [|c' b']; simpl; [done|].
  by destruct a.
Qed.

Lemma rstrip_no_space (s : string) :
  str_forall (fun c => negb (isspace c)) s = true -> rstrip s = s.
Proof.
  induction s as [|c s IH]; simpl; [done|].
  intros [Hc Hs]%andb_true_iff. rewrite (IH Hs).
  apply negb_true_iff in Hc. rewrite Hc. by destruct s.
Qed.

Lemma lstrip_no_space (s : string) :
  str_forall (fun c => negb (isspace c)) s = true -> lstrip s = s.
Proof.
  destruct s as [|c s]; simpl; [done|].
  intros [Hc Hs]%andb_true_iff. apply negb_true_iff in Hc. by rewrite Hc.
Qed.

Lemma read_chars_app (a b : string) : read_chars (String.length a) (a +:+ b) = (a, b).
Proof.
  induction a as [|c a IH]; append_simpl; [by destruct b|]. by rewrite IH.
Qed.

Lemma universal_newlines_app (a b : string) :
  str_forall (not_char CR) a = true ->
  universal_newlines (a +:+ b) = a +:+ universal_newlines b.
Proof.
  induction a as [|c a IH]; append_simpl; [done|].
  intros [Hc Ha]%andb_true_iff. unfold not_char in Hc.
  apply negb_true_iff in Hc. by rewrite Hc, (IH Ha).
Qed.

Lemma append_assoc (a b c : string) : (a +:+ b) +:+ c = a +:+ (b +:+ c).
Proof. induction a as [|x a IH]; append_simpl; [done|]. by rewrite IH. Qed.

(** The end of a header line: CR LF as written, LF once the stream
    has translated it. *)
Definition eol (translated : bool) : string :=
  if translated then String LF EmptyString
  else String CR (String LF EmptyString).

Section Frame.

Variable digits : string.
Hypothesis digits_decimal : str_forall is_decimal_char digits = true.
Hypothesis digits_nonempty : digits <> "".

Lemma digits_no_space : str_forall (fun c => negb (isspace c)) digits = true.
Proof.
  eapply str_forall_impl; [|exact digits_decimal].
  intros c Hc. apply is_decimal_char_cases in Hc as (_ & -> & _). done.
Qed.

Lemma digits_no_newline : str_forall (not_char LF) digits = true.
Proof.
  eapply str_forall_impl; [|exact digits_decimal].
  intros c Hc. by apply is_decimal_char_cases in Hc as (_ & _ & -> & _).
Qed.

Lemma digits_no_return : str_forall (not_char CR) digits = true.
Proof.
  eapply str_forall_impl; [|exact digits_decimal].
  intros c Hc. by apply is_decimal_char_cases in Hc as (_ & _ & _ & ->).
Qed.

Lemma readline_header_line (translated : bool) (tail : string) :
  readline ("Content-Length: " +:+ digits +:+ eol translated +:+ tail)
  = ("Content-Length: " +:+ digits +:+ eol translated, tail).
Proof.
  rewrite (readline_app "Content-Length: ") by done.
  rewrite (readline_app digits) by apply digits_no_newline.
  by destruct translated.
Qed.

Lemma strip_header_line (translated : bool) :
  strip ("Content-Length: " +:+ digits +:+ eol translated)
  = "Content-Length: " +:+ digits.
Proof.
  unfold strip.
  change (lstrip ("Content-Length: " +:+ digits +:+ eol translated))
    with ("Content-Length: " +:+ digits +:+ eol translated).
  assert (Hd : rstrip (digits +:+ eol translated) = digits).
  { rewrite rstrip_app.
    replace (rstrip (eol translated)) with EmptyString by (by destruct translated).
    simpl. apply rstrip_no_space, digits_no_space. }
  rewrite rstrip_app, Hd. by destruct digits.
Qed.

Lemma split_header_line :
  split_once ":" ("Content-Length: " +:+ digits)
  = Some ("Content-Length", String " " digits).
Proof. reflexivity. Qed.

Lemma strip_value : strip (String " " digits) = digits.
Proof.
  unfold strip. change (lstrip (String " " digits)) with (lstrip digits).
  rewrite lstrip_no_space by apply digits_no_space.
  apply rstrip_no_space, digits_no_space.
Qed.

End Frame.


Lemma read_header_loop_step (fuel : nat) (stdin : string) (header : dict pyval) :
  read_header_loop (S fuel) stdin header =
  let line := strip (readline stdin).1 in
  let stdin' := (readline stdin).2 in
  if negb (nonempty_str line) then
    if nonempty_list header then Some (Returned (Some header), stdin')
    else Some (Returned None, stdin')
  else
    match split_once ":" line with
    | Some (key, value) =>
        if isdigit (strip value) then
          match int_of_digits (strip value) with
          | Some n =>
              read_header_loop fuel stdin' (dict_set header (strip key) (PInt n))
          | None => Some (Raised "ValueError", stdin')
          end
        else
          read_header_loop fuel stdin'
                           (dict_set header (strip key) (PStr (strip value)))
    | None => read_header_loop fuel stdin' header
    end.
Proof. simpl. by destruct (readline stdin). Qed.

(** Reading back one frame: the header line, the blank line, and
    the stream left at the first character of the body. *)
Lemma read_frame_header (translated : bool) (n fuel : nat) (tail : string) :
  read_header_loop (S (S fuel))
    ("Content-Length: " +:+ str_of_nat n +:+ eol translated +:+ eol translated
       +:+ tail) []
  = Some (Returned (Some [("Content-Length", PInt (Z.of_nat n))]), tail).
Proof.
  destruct (str_of_nat_decimal n) as [Hdec Hne].
  rewrite read_header_loop_step.
  rewrite readline_header_line by done. cbv zeta. unfold fst, snd.
  rewrite strip_header_line by done.
  change (negb (nonempty_str ("Content-Length: " +:+ str_of_nat n))) with false.
  cbv iota.
  rewrite split_header_line, strip_value by done.
  rewrite isdigit_str_of_nat, int_of_str_of_nat.
  rewrite read_header_loop_step.
  replace (readline (eol translated +:+ tail)) with (eol translated, tail)
    by (by destruct translated).
  cbv zeta. unfold fst, snd.
  replace (strip (eol translated)) with EmptyString by (by destruct translated).
  reflexivity.
Qed.

Lemma read_frame_content (content rest : string) :
  content <> "" ->
  _read_content (Z.of_nat (String.length content)) (content +:+ rest)
  = (Some content, rest).
Proof.
  intros Hne. unfold _read_content, read.
  destruct (Z.ltb_spec (Z.of_nat (String.length content)) 0); [lia|].
  rewrite Nat2Z.id, read_chars_app. by destruct content.
Qed.


(** The header loop stops on every stream: the fuel [_read_header]
    gives it is never used up. *)
Lemma readline_shorter (stdin : string) :
  String.length (readline stdin).2 <= String.length stdin /\
  ((readline stdin).1 <> "" ->
   String.length (readline stdin).2 < String.length stdin).
Proof.
  induction stdin as [|c s IH]; simpl; [by split|].
  destruct (Ascii.eqb c LF); simpl; [split; intros; lia|].
  destruct (readline s) as [l r]. simpl in *. split; intros; lia.
Qed.

Lemma read_header_loop_total (fuel : nat) (stdin : string) (header : dict pyval) :
  String.length stdin < fuel ->
  is_Some (read_header_loop fuel stdin header).
Proof.
  revert stdin header. induction fuel as [|fuel IH]; intros stdin header Hfuel; [lia|].
  rewrite read_header_loop_step. cbv zeta.
  destruct (readline_shorter stdin) as [Hle Hlt].
  destruct (nonempty_str (strip (readline stdin).1)) eqn:Hline; simpl.
  - assert (Hraw : (readline stdin).1 <> "").
    { intros Hraw. by rewrite Hraw in Hline. }
    specialize (Hlt Hraw).
    destruct (split_once ":" (strip (readline stdin).1)) as [[key value]|];
      [|apply IH; lia].
    destruct (isdigit (strip value)); [|apply IH; lia].
    destruct (int_of_digits (strip value)); [apply IH; lia|by eexists].
  - destruct (nonempty_list header); by eexists.
Qed.

Lemma read_header_total (stdin : string) : is_Some (_read_header stdin).
Proof. apply read_header_loop_total. lia. Qed.


Lemma read_header_frame (translated : bool) (n : nat) (tail : string) :
  _read_header ("Content-Length: " +:+ str_of_nat n +:+ eol translated
                  +:+ eol translated +:+ tail)
  = Some (Returned (Some [("Content-Length", PInt (Z.of_nat n))]), tail).
Proof.
  unfold _read_header.
  exact (read_frame_header translated n
           (String.length ("ontent-Length: " +:+ str_of_nat n +:+ eol translated
                              +:+ eol translated +:+ tail)) tail).
Qed.

Lemma translate_frame (n : nat) (content rest : string) :
  str_forall (not_char CR) content = true ->
  universal_newlines ("Content-Length: " +:+ str_of_nat n +:+ eol false
                        +:+ eol false +:+ content +:+ rest)
  = "Content-Length: " +:+ str_of_nat n +:+ eol true +:+ eol true
      +:+ content +:+ universal_newlines rest.
Proof.
  intros Hcr. destruct (str_of_nat_decimal n) as [Hdec _].
  rewrite (universal_newlines_app "Content-Length: ") by done.
  rewrite (universal_newlines_app (str_of_nat n)) by by apply digits_no_return.
  change (universal_newlines (eol false +:+ eol false +:+ content +:+ rest))
    with (eol true +:+ eol true +:+ universal_newlines (content +:+ rest)).
  by rewrite (universal_newlines_app content).
Qed.

(** C3.  What [_send_response] writes is the header line
    [Content-Length: N], a blank line and the serialised body, [N]
    being the length of the body.  Read back from the stream,
    followed by whatever comes next, [_read_header] returns the header
    with the one entry [Content-Length] equal to [N] and leaves the
    stream at the body, and [_read_content] called with [N] returns
    exactly the body and leaves what comes next.  This holds for the
    stream as written and for the stream as a reader with universal
    newlines sees it, for every serialiser that returns a non-empty
    body without a raw carriage return (as [json.dumps] does: the body
    starts with a brace and control characters are escaped). *)
Theorem framing_round_trip
        (json_dumps : pyval -> string) (msg_id result : pyval) (rest : string) :
  let content := json_dumps (response_of msg_id result) in
  let N := String.length content in
  let written := _send_response json_dumps msg_id result "" in
  let header := [("Content-Length", PInt (Z.of_nat N))] in
  content <> "" ->
  str_forall (not_char CR) content = true ->
  written = "Content-Length: " +:+ str_of_nat N +:+ eol false +:+ eol false
              +:+ content /\
  _read_header (written +:+ rest)
  = Some (Returned (Some header), content +:+ rest) /\
  _read_content (Z.of_nat N) (content +:+ rest) = (Some content, rest) /\
  _read_header (universal_newlines (written +:+ rest))
  = Some (Returned (Some header), content +:+ universal_newlines rest) /\
  _read_content (Z.of_nat N) (content +:+ universal_newlines rest)
  = (Some content, universal_newlines rest).
Proof.
  intros content N written header Hne Hcr.
  assert (Hwritten : written = "Content-Length: " +:+ str_of_nat N +:+ eol false
                                 +:+ eol false +:+ content).
  { unfold written, _send_response. fold content. fold N.
    rewrite append_nil. by rewrite !append_assoc. }
  assert (Hstream : written +:+ rest
                    = "Content-Length: " +:+ str_of_nat N +:+ eol false
                        +:+ eol false +:+ content +:+ rest).
  { rewrite Hwritten. by rewrite !append_assoc. }
  split; [done|]. rewrite Hstream, translate_frame by done.
  subst header N. rewrite !read_header_frame.
  by rewrite !read_frame_content.
Qed.

(** The body [json.dumps] gives for the response to request 1 with
    result [None]. *)
Definition null_result_body : string :=
  "{" +:+ quoted "jsonrpc" +:+ ": " +:+ quoted "2.0" +:+ ", " +:+ quoted "id"
      +:+ ": 1, " +:+ quoted "result" +:+ ": null}".

Lemma framing_round_trip_witness :
  String.length null_result_body = 43 /\
  _read_header (_send_response (fun _ => null_result_body) (PInt 1) PNone ""
                  +:+ "Content-Length: 2")
  = Some (Returned (Some [("Content-Length", PInt 43)]),
          null_result_body +:+ "Content-Length: 2") /\
  _read_content 43 (null_result_body +:+ "Content-Length: 2")
  = (Some null_result_body, "Content-Length: 2").
Proof.
  split; [reflexivity|].
  destruct (framing_round_trip (fun _ => null_result_body) (PInt 1) PNone
                               "Content-Length: 2")
    as (_ & Hheader & Hcontent & _); [by vm_compute|by vm_compute|].
  split; [exact Hheader|exact Hcontent].
Defined.


(** *** The server loop *)

Lemma append_length (a b : string) :
  String.length (a +:+ b) = String.length a + String.length b.
Proof. induction a as [|c a IH]; append_simpl; [done|]. by rewrite IH. Qed.

(** The frame of a body, and the stream a sequence of bodies makes. *)
Definition frame_of (body : string) : string :=
  "Content-Length: " +:+ str_of_nat (String.length body) +:+ eol false
    +:+ eol false +:+ body.

Fixpoint frames (bodies : list string) : string :=
  match bodies with
  | [] => EmptyString
  | body :: bodies' => frame_of body +:+ frames bodies'
  end.

Lemma send_response_frame (json_dumps : pyval -> string) (msg_id result : pyval)
      (stdout : string) :
  _send_response json_dumps msg_id result stdout
  = stdout +:+ frame_of (json_dumps (response_of msg_id result)).
Proof.
  unfold _send_response, frame_of. by rewrite !append_assoc.
Qed.

Lemma append_empty_r (a : string) : a +:+ "" = a.
Proof. induction a as [|c a IH]; append_simpl; [done|]. by rewrite IH. Qed.

Lemma send_responses_frames (json_dumps : pyval -> string)
      (responses : list (pyval * pyval)) (stdout : string) :
  fold_left (fun out r => _send_response json_dumps r.1 r.2 out) responses stdout
  = stdout +:+ frames ((fun r => json_dumps (response_of r.1 r.2)) <$> responses).
Proof.
  revert stdout. induction responses as [|r rs IH]; intros stdout; simpl.
  - by rewrite append_empty_r.
  - by rewrite IH, send_response_frame, append_assoc.
Qed.

Section Serve.

Variable State : Type.
Variable _process_message : string -> State -> option State.

(** The messages processed one after the other, up to the one that
    exits. *)
Fixpoint process_all (contents : list string) (st : State) : option State :=
  match contents with
  | [] => Some st
  | content :: contents' =>
      match _process_message content st with
      | Some st' => process_all contents' st'
      | None => None
      end
  end.

Lemma serve_loop_frames (bodies : list string) :
  Forall (fun body => body <> "") bodies ->
  forall (fuel : nat) (st : State),
    String.length (frames bodies) < fuel ->
    exists rest,
      serve_loop State _process_message fuel (frames bodies) st
      = Some (process_all bodies st, rest).
Proof.
  induction 1 as [|body bodies Hbody _ IH]; intros fuel st Hfuel;
    (destruct fuel as [|fuel]; [lia|]).
  - by exists EmptyString.
  - cbn [frames serve_loop]. unfold frame_of. rewrite !append_assoc.
    rewrite read_header_frame. cbn [dict_get_or dict_get default from_option].
    rewrite decide_True by done. simpl default. cbv beta iota.
    assert (Hnz : (Z.of_nat (String.length body) =? 0)%Z = false).
    { apply Z.eqb_neq. destruct body; [done|]. simpl. lia. }
    rewrite read_frame_content by done.
    cbn [process_all]. rewrite ?Hnz.
    destruct (_process_message body st) as [st'|]; [|by eexists].
    apply IH. cbn [frames] in Hfuel. rewrite append_length in Hfuel.
    unfold frame_of in Hfuel. rewrite append_length in Hfuel. simpl in Hfuel. lia.
Qed.

End Serve.

(** X7.  A stream made of the responses a server wrote with
    [_send_response], one after the other, is read back by the loop of
    [start_server] message by message: it hands [_process_message]
    exactly the serialised bodies, in the order written, stops at the
    end of the stream without raising, and stops early only when a
    message makes the process exit.  The bodies must be non-empty, as
    those of [json.dumps] are. *)
Theorem start_server_reads_frames
        (State : Type) (_process_message : string -> State -> option State)
        (json_dumps : pyval -> string) (responses : list (pyval * pyval))
        (st : State) :
  (forall r, r ∈ responses -> json_dumps (response_of r.1 r.2) <> "") ->
  let written :=
    fold_left (fun out r => _send_response json_dumps r.1 r.2 out) responses "" in
  let bodies := (fun r => json_dumps (response_of r.1 r.2)) <$> responses in
  exists rest,
    start_server State _process_message written st
    = Some (process_all State _process_message bodies st, rest).
Proof.
  intros Hbodies written bodies. unfold written, start_server.
  rewrite send_responses_frames, append_nil. fold bodies.
  apply serve_loop_frames; [|lia].
  apply Forall_forall. intros body (r & -> & Hr)%list_elem_of_fmap. by apply Hbodies.
Qed.

Lemma start_server_reads_frames_witness :
  exists rest,
    start_server (list string) (fun content log => Some (log ++ [content]))
      (fold_left (fun out r => _send_response (fun _ => null_result_body) r.1 r.2 out)
                 [(PInt 1, PNone); (PInt 1, PNone)] "") []
    = Some (Some [null_result_body; null_result_body], rest).
Proof.
  apply (start_server_reads_frames (list string)
           (fun content log => Some (log ++ [content]))
           (fun _ => null_result_body) [(PInt 1, PNone); (PInt 1, PNone)] []).
  intros r _. by vm_compute.
Defined.


(** *** The word at a position *)

(** The character at index [i] of the line is one of a word. *)
Definition word_at (line : string) (i : nat) : bool :=
  match String.get i line with
  | Some c => is_word_char c
  | None => false
  end.

Lemma word_start_spec (line : string) (position start : nat) :
  word_start line position = Returned start ->
  start <= position /\
  (forall i, start <= i < position -> word_at line i = true) /\
  (start = 0 \/ word_at line (start - 1) = false).
Proof.
  revert start. induction position as [|before IH]; simpl; intros start.
  - intros [= <-]. split; [done|]. split; [intros; lia|by left].
  - unfold word_at in *.
    destruct (String.get before line) as [c|] eqn:Hget; [|done].
    destruct (is_word_char c) eqn:Hc.
    + intros (Hle & Hword & Hstop)%IH. split; [lia|]. split; [|done].
      intros i Hi. destruct (decide (i = before)) as [->|]; [by rewrite Hget|].
      apply Hword. lia.
    + intros [= <-]. split; [done|]. split; [intros; lia|].
      right. simpl. by rewrite Nat.sub_0_r, Hget.
Qed.

Lemma word_end_spec (line : string) (fuel position : nat) :
  String.length line - position <= fuel ->
  let end_ := word_end fuel line position in
  position <= end_ /\
  (forall i, position <= i < end_ -> word_at line i = true) /\
  (String.length line <= end_ \/ word_at line end_ = false).
Proof.
  revert position. induction fuel as [|fuel IH]; intros position Hfuel; simpl.
  - split; [done|]. split; [intros; lia|left; lia].
  - unfold word_at in *.
    destruct (Nat.ltb_spec position (String.length line)) as [Hlt|Hge];
      [|split; [done|]; split; [intros; lia|by left]].
    destruct (String.get position line) as [c|] eqn:Hget;
      [|split; [done|]; split; [intros; lia|right; by rewrite Hget]].
    destruct (is_word_char c) eqn:Hc;
      [|split; [done|]; split; [intros; lia|right; by rewrite Hget]].
    destruct (IH (S position)) as (Hle & Hword & Hstop); [lia|].
    split; [lia|]. split; [|done].
    intros i Hi. destruct (decide (i = position)) as [->|]; [by rewrite Hget|].
    apply Hword. lia.
Qed.

Lemma word_end_within (line : string) (fuel position : nat) :
  position <= String.length line ->
  word_end fuel line position <= String.length line.
Proof.
  revert position. induction fuel as [|fuel IH]; intros position Hle; simpl; [done|].
  destruct (Nat.ltb_spec position (String.length line)); [|done].
  destruct (String.get position line) as [c|]; [|done].
  destruct (is_word_char c); [|done]. apply IH. lia.
Qed.

Lemma substring_length (line : string) (n m : nat) :
  n + m <= String.length line -> String.length (substring n m line) = m.
Proof.
  revert n m. induction line as [|c line IH]; intros n m; simpl.
  - intros H. assert (n = 0) as -> by lia. assert (m = 0) as -> by lia. done.
  - destruct n as [|n]; [destruct m as [|m]; [done|]|]; simpl; intros H.
    + by rewrite IH by lia.
    + apply IH. lia.
Qed.

Lemma substring_forall (line : string) (n m : nat) :
  (forall i, n <= i < n + m -> word_at line i = true) ->
  str_forall is_word_char (substring n m line) = true.
Proof.
  unfold word_at. revert n m. induction line as [|c line IH]; intros n m Hword.
  - by destruct n, m.
  - destruct n as [|n]; [destruct m as [|m]; [done|]|]; simpl.
    + specialize (Hword 0) as Hc. simpl in Hc. rewrite Hc by lia. simpl.
      apply IH. intros i Hi. apply (Hword (S i)). lia.
    + apply IH. intros i Hi. apply (Hword (S i)). lia.
Qed.


(** A word found at a position of an open document: the position is
    on a line of the document, the word is the stretch of the line
    from [start], it is not empty, it consists of word characters
    (letters, digits, underscore), it starts at or before the position
    and ends at or after it, and it cannot be extended on either
    side. *)
Definition maximal_word (docs : documents) (u : string) (pos : Position)
           (w : string) : Prop :=
  exists (content l : string) (start : nat),
    docs !! u = Some content /\
    split LF content !! default 0 (line pos) = Some l /\
    default 0 (character pos) < String.length l /\
    w = substring start (String.length w) l /\
    0 < String.length w /\
    start <= default 0 (character pos) <= start + String.length w /\
    str_forall is_word_char w = true /\
    (start = 0 \/ word_at l (start - 1) = false) /\
    (start + String.length w = String.length l \/
     word_at l (start + String.length w) = false).

(** X8.  The word [_get_word_at_position] returns is the maximal run
    of word characters of the line that touches the position: it
    contains the character at the position, or ends just before it. *)
Theorem get_word_is_maximal_run (docs : documents) (u : string) (pos : Position)
        (w : string) :
  _get_word_at_position docs u pos = Returned (Some w) ->
  maximal_word docs u pos w.
Proof.
  unfold _get_word_at_position, maximal_word.
  destruct (docs !! u) as [content|]; [|done].
  destruct (Nat.leb_spec (length (split LF content)) (default 0 (line pos)))
    as [Hline|Hline]; [done|].
  destruct (lookup_lt_is_Some_2 _ _ Hline) as [l Hl]. rewrite Hl.
  set (c := default 0 (character pos)).
  destruct (Nat.leb_spec (String.length l) c) as [Hchar|Hchar]; [done|].
  destruct (word_start l c) as [start|e] eqn:Hstart; [|done].
  apply word_start_spec in Hstart as (Hsc & Hbefore & Hleft).
  pose proof (word_end_spec l (String.length l - c) c (Nat.le_refl _))
    as (Hce & Hafter & Hright).
  pose proof (word_end_within l (String.length l - c) c (Nat.lt_le_incl _ _ Hchar))
    as Hwithin.
  set (end_ := word_end (String.length l - c) l c) in *.
  destruct (Nat.ltb_spec start end_) as [Hlt|Hge]; [|done].
  intros [= <-].
  assert (Hlen : String.length (substring start (end_ - start) l) = end_ - start)
    by (apply substring_length; lia).
  exists content, l, start. rewrite Hlen.
  split; [done|]. split; [done|]. split; [done|]. split; [done|].
  split; [lia|]. split; [lia|]. split; [|split; [done|]].
  - apply substring_forall. intros i Hi.
    destruct (decide (i < c)); [apply Hbefore|apply Hafter]; lia.
  - replace (start + (end_ - start)) with end_ by lia.
    destruct Hright as [Hright|Hright]; [left; lia|by right].
Qed.

Lemma get_word_is_maximal_run_witness :
  maximal_word
    {[ "file:///city.py" := "import os" +:+ String LF "x = salience_score + 1" ]}
    "file:///city.py" {| line := Some 1; character := Some 18 |} "salience_score".
Proof.
  apply get_word_is_maximal_run. by vm_compute.
Defined.


(** *** The hover of the word at a position *)












(** *** Document symbols *)

Lemma prefix_app (p s : string) :
  String.prefix p s = true -> exists rest, s = p +:+ rest.
Proof.
  revert s. induction p as [|c p IH]; intros s; [by exists s|].
  destruct s as [|c' s]; simpl; [done|].
  destruct (Ascii.ascii_dec c c') as [<-|]; [|done].
  intros (rest & ->)%IH. by exists rest.
Qed.

Lemma rstrip_idem (s : string) : rstrip (rstrip s) = rstrip s.
Proof.
  induction s as [|c s IH]; simpl; [done|].
  destruct (rstrip s) as [|c' r] eqn:Hr.
  - destruct (isspace c) eqn:Hc; simpl; [done|]. by rewrite Hc.
  - simpl in *. by rewrite IH.
Qed.

Lemma rstrip_empty (s : string) : rstrip s = "" -> str_forall isspace s = true.
Proof.
  induction s as [|c s IH]; simpl; [done|].
  destruct (rstrip s) as [|c' r]; [|done].
  destruct (isspace c); [|done]. intros _. by apply IH.
Qed.

Lemma words_empty (s : string) : words s = [] -> str_forall isspace s = true.
Proof.
  induction s as [|c s IH]; simpl; [done|].
  destruct (isspace c); [by simpl|].
  destruct s as [|c' s]; [done|].
  destruct (isspace c'); [done|]. by destruct (words (String c' s)).
Qed.

(** A stripped line that starts with [class ] has a second word. *)
Lemma class_line_second_word (raw : string) :
  String.prefix "class " (strip raw) = true ->
  is_Some (words (strip raw) !! 1).
Proof.
  intros (rest & Hrest)%prefix_app.
  assert (Hfixed : rstrip (strip raw) = strip raw) by apply rstrip_idem.
  rewrite Hrest in *.
  change (words ("class " +:+ rest)) with ("class" :: words rest).
  rewrite rstrip_app in Hfixed.
  destruct (words rest) as [|w ws] eqn:Hwords; [|by eexists].
  apply words_empty in Hwords.
  destruct (rstrip rest) as [|c r] eqn:Hr.
  - simpl in Hfixed. apply (f_equal String.length) in Hfixed.
    rewrite append_length in Hfixed. simpl in Hfixed. lia.
  - exfalso. clear Hfixed Hrest.
    revert c r Hr. induction rest as [|c' rest IH]; intros c r Hr; [done|].
    simpl in *. apply andb_true_iff in Hwords as [Hc' Hwords].
    destruct (rstrip rest) as [|c2 r2]; [by rewrite Hc' in Hr|].
    by eapply IH.
Qed.

Lemma split_head_no_separator (sep : ascii) (s : string) :
  str_forall (not_char sep) (default "" (head (split sep s))) = true.
Proof.
  induction s as [|c s IH]; simpl; [done|].
  destruct (Ascii.eqb c sep) eqn:Hc; [done|].
  destruct (split sep s) as [|l ls]; simpl in *; unfold not_char; rewrite Hc; [done|].
  done.
Qed.

Lemma rstrip_colons_forall (f : ascii -> bool) (s : string) :
  str_forall f s = true -> str_forall f (rstrip_colons s) = true.
Proof.
  induction s as [|c s IH]; simpl; [done|].
  intros [Hc Hs]%andb_true_iff. specialize (IH Hs).
  destruct (rstrip_colons s) as [|c' r].
  - destruct (Ascii.eqb c ":"); simpl; [done|]. by rewrite Hc.
  - simpl in *. by rewrite Hc.
Qed.

(** What every symbol of a line satisfies. *)
Definition symbol_on_line (line_num : nat) (raw : string) (s : symbol) : Prop :=
  sym_line s = line_num /\
  (sym_kind s = 5 \/ sym_kind s = 12) /\
  sym_range_end s = String.length (strip raw) /\
  sym_selection_end s = sym_selection_start s + String.length (sym_name s) /\
  str_forall (not_char "(") (sym_name s) = true.

Lemma symbol_of_line_returns (line_num : nat) (raw : string) :
  exists o, symbol_of_line line_num raw = Returned o /\
            forall s, o = Some s -> symbol_on_line line_num raw s.
Proof.
  unfold symbol_of_line, symbol_on_line.
  destruct (String.prefix "class " (strip raw)) eqn:Hclass.
  - destruct (class_line_second_word raw Hclass) as [second ->].
    eexists. split; [done|]. intros s [= <-]. simpl.
    split; [done|]. split; [by left|]. split; [done|]. split; [done|].
    apply rstrip_colons_forall, split_head_no_separator.
  - destruct (String.prefix "def " (strip raw) || String.prefix "async def " (strip raw)).
    + eexists. split; [done|]. intros s [= <-]. simpl.
      split; [done|]. split; [by right|]. split; [done|]. split; [done|].
      apply split_head_no_separator.
    + eexists. split; [done|]. by intros s [=].
Qed.

Lemma symbols_from_returns (lines : list string) :
  forall (line_num : nat) (found : list symbol),
  exists new,
    symbols_from line_num lines found = Returned (found ++ new) /\
    StronglySorted lt (sym_line <$> new) /\
    Forall (fun s => line_num <= sym_line s < line_num + length lines /\
                     exists raw, lines !! (sym_line s - line_num) = Some raw /\
                                 symbol_on_line (sym_line s) raw s) new.
Proof.
  induction lines as [|raw lines IH]; intros line_num found; simpl.
  - exists []. rewrite app_nil_r. split; [done|]. split; constructor.
  - destruct (symbol_of_line_returns line_num raw) as ([s|] & -> & Hs).
    + destruct (IH (S line_num) (found ++ [s])) as (new & -> & Hsorted & Hall).
      destruct (Hs s eq_refl) as (Hline & Hrest).
      exists (s :: new). rewrite <- app_assoc. split; [done|]. split.
      * simpl. constructor; [done|]. rewrite Forall_fmap.
        eapply Forall_impl; [exact Hall|]. simpl. intros x [Hx _]. lia.
      * constructor.
        -- split; [lia|]. exists raw. rewrite Hline, Nat.sub_diag. split; [done|].
           by rewrite <- Hline.
        -- eapply Forall_impl; [exact Hall|]. simpl.
           intros x [Hx (raw' & Hraw' & Hon)]. split; [lia|]. exists raw'.
           split; [|done].
           replace (sym_line x - line_num) with (S (sym_line x - S line_num)) by lia.
           done.
    + destruct (IH (S line_num) found) as (new & -> & Hsorted & Hall).
      exists new. split; [done|]. split; [done|].
      eapply Forall_impl; [exact Hall|]. simpl.
      intros x [Hx (raw' & Hraw' & Hon)]. split; [lia|]. exists raw'.
      split; [|done].
      replace (sym_line x - line_num) with (S (sym_line x - S line_num)) by lia.
      done.
Qed.

(** X15.  [_extract_symbols] raises on no document: a stripped line
    that starts with [class ] always has the second word the code
    subscripts.  It returns no symbol for a URI that is not open, and
    otherwise at most one symbol per line, in the order of the lines;
    each symbol is a class (kind 5) or a function (kind 12) of a line
    of the document, its range ends at the length of the stripped
    line, its selection range is as long as its name, and its name
    holds no opening parenthesis. *)
Theorem extract_symbols_returns (docs : documents) (u : string) :
  exists symbols,
    _extract_symbols docs u = Returned symbols /\
    (docs !! u = None -> symbols = []) /\
    StronglySorted lt (sym_line <$> symbols) /\
    Forall (fun s => exists content raw,
                docs !! u = Some content /\
                split LF content !! sym_line s = Some raw /\
                symbol_on_line (sym_line s) raw s) symbols.
Proof.
  unfold _extract_symbols. destruct (docs !! u) as [content|].
  - destruct (symbols_from_returns (split LF content) 0 [])
      as (new & -> & Hsorted & Hall).
    exists new. split; [done|]. split; [done|]. split; [done|].
    eapply Forall_impl; [exact Hall|]. simpl.
    intros s [_ (raw & Hraw & Hon)]. exists content, raw.
    rewrite Nat.sub_0_r in Hraw. done.
  - exists []. split; [done|]. split; [done|]. split; constructor.
Qed.


End LSPServerFacts.

(** ** The MCP server *)

Module MCPServerFacts.

Import Py PyFacts MCPServer.

Lemma is_str_true (v : pyval) (s : string) : is_str v s = true <-> v = PStr s.
Proof.
  destruct v; simpl; try (split; [discriminate|by intros [=]]).
  rewrite String.eqb_eq. split; [by intros ->|by intros [=]].
Qed.

Lemma is_str_false (v : pyval) (s : string) : is_str v s = false <-> v <> PStr s.
Proof.
  rewrite <- is_str_true. destruct (is_str v s); split; try done.
Qed.

(** The four message types of the dispatch table. *)
Definition listed_types : list string :=
  ["study_request"; "cognitive_architecture_query"; "neural_transport";
   "protocol_introspection"].

Section Server.

Variable json_loads : string -> option pyval.
Variable json_dumps : pyval -> string.
Variable repr : pyval -> string.
Variable isoformat : nat -> string.

Lemma send_response_registered (client_id : string) (response : pyval)
      (st : server) (ws : websocket) :
  clients st !! client_id = Some ws -> ws_open ws = true ->
  send_response json_dumps client_id response st
  = [(ws_id ws, json_dumps response)].
Proof. intros Hws Hopen. unfold send_response. by rewrite Hws, Hopen. Qed.

Lemma send_error_registered (client_id error_message : string)
      (st : server) (ws : websocket) :
  clients st !! client_id = Some ws -> ws_open ws = true ->
  send_error json_dumps isoformat client_id error_message st
  = (tick st,
     [(ws_id ws,
       json_dumps (error_response error_message (isoformat (clock st))))]).
Proof.
  intros Hws Hopen. unfold send_error. simpl.
  by rewrite (send_response_registered _ _ (tick st) ws).
Qed.

End Server.

(** *** Replies *)

Section Replies.

Variable json_loads : string -> option pyval.
Variable json_dumps : pyval -> string.
Variable repr : pyval -> string.
Variable isoformat : nat -> string.

(** What [send_response] sends to a client, read off the server the
    message arrived at. *)
Definition reply_to (client_id : string) (st : server) (response : pyval)
  : list frame :=
  match clients st !! client_id with
  | Some ws => if ws_open ws then [(ws_id ws, json_dumps response)] else []
  | None => []
  end.

Lemma send_response_reply (client_id : string) (response : pyval) (st st' : server) :
  clients st' = clients st ->
  send_response json_dumps client_id response st' = reply_to client_id st response.
Proof. intros H. unfold send_response, reply_to. by rewrite H. Qed.

(** The handlers leave [clients] alone; a response is a dictionary
    with a [type]. *)
Definition typed_response (response : pyval) : Prop :=
  exists kvs, response = PDict kvs /\ is_Some (dict_get kvs "type").

Lemma route_spec (client_id : string) (data : pyval) (st : server) :
  let r := route repr isoformat client_id data st in
  clients r.2 = clients st /\
  match r.1 with
  | Returned response => typed_response response
  | Raised _ => True
  end.
Proof.
  unfold route. destruct data as [| | | | |xs|data]; try (by split).
  set (message_type := dict_get_or data "type" (PStr "unknown")).
  destruct (is_str message_type "study_request").
  { unfold handle_study_request. simpl.
    repeat match goal with
           | |- context [if ?b then _ else _] => destruct b
           end;
      try (split; [done|]; eexists; split; [done|]; simpl; by eauto).
    destruct (generate_ml_study_content repr _); simpl;
      split; try done. eexists; split; [done|]; simpl; by eauto. }
  destruct (is_str message_type "cognitive_architecture_query").
  { split; [done|]. eexists; split; [done|]; simpl; by eauto. }
  destruct (is_str message_type "neural_transport").
  { split; [done|]. eexists; split; [done|]; simpl; by eauto. }
  destruct (is_str message_type "protocol_introspection").
  { split; [done|]. eexists; split; [done|]; simpl; by eauto. }
  split; [done|]. eexists; split; [done|]; simpl; by eauto.
Qed.

Lemma error_response_typed (e t : string) : typed_response (error_response e t).
Proof. eexists; split; [done|]. simpl. by eauto. Qed.

(** X1.  Whatever the message, [process_message] leaves [clients] as
    it is and answers with one response, a dictionary that has a
    [type]: it is sent, as one frame, on the connection registered for
    the client when that connection is open, and nothing at all is
    sent when the client is not registered or its connection is
    closed. *)
Theorem process_message_one_reply (client_id message : string) (st : server) :
  let r := process_message json_loads json_dumps repr isoformat client_id message st in
  clients r.1 = clients st /\
  exists response, typed_response response /\
                   r.2 = reply_to client_id st response.
Proof.
  unfold process_message.
  destruct (json_loads message) as [data|].
  - destruct (route_spec client_id data st) as [Hclients Hresp].
    destruct (route repr isoformat client_id data st) as [[response|e] st'];
      simpl in *.
    + split; [done|]. exists response. split; [done|].
      by apply send_response_reply.
    + split; [done|]. eexists. split; [apply error_response_typed|].
      by apply send_response_reply.
  - simpl. split; [done|]. eexists. split; [apply error_response_typed|].
    by apply send_response_reply.
Qed.

End Replies.


(** *** Error replies *)

(** X2.  A message that is not valid JSON: the client, registered
    and with an open connection, is sent the error response with the
    error string [Invalid JSON format] and the time of the first
    clock reading; [clients] and [study_sessions] are as before. *)
Theorem invalid_json_error
        (json_loads : string -> option pyval) (json_dumps : pyval -> string)
        (repr : pyval -> string) (isoformat : nat -> string)
        (client_id message : string) (st : server) (ws : websocket) :
  json_loads message = None ->
  clients st !! client_id = Some ws ->
  ws_open ws = true ->
  let r := process_message json_loads json_dumps repr isoformat client_id message st in
  r.2 = [(ws_id ws,
          json_dumps (PDict [("type", PStr "error");
                             ("error", PStr "Invalid JSON format");
                             ("timestamp", PStr (isoformat (clock st)))]))] /\
  clients r.1 = clients st /\
  study_sessions r.1 = study_sessions st.
Proof.
  intros Hloads Hws Hopen. unfold process_message. rewrite Hloads.
  by rewrite (send_error_registered _ _ _ _ _ ws).
Qed.

(** X3.  A message that is valid JSON but not an object (a list, a
    number, a string, a boolean, null): looking up its type raises,
    and the client is sent the error response whose error string is
    the text of that exception; [clients] and [study_sessions] are as
    before. *)
Theorem non_object_json_error
        (json_loads : string -> option pyval) (json_dumps : pyval -> string)
        (repr : pyval -> string) (isoformat : nat -> string)
        (client_id message : string) (data : pyval)
        (st : server) (ws : websocket) :
  json_loads message = Some data ->
  (forall kvs, data <> PDict kvs) ->
  clients st !! client_id = Some ws ->
  ws_open ws = true ->
  let r := process_message json_loads json_dumps repr isoformat client_id message st in
  r.2 = [(ws_id ws,
          json_dumps
            (PDict [("type", PStr "error");
                    ("error",
                     PStr ("'" +:+ type_name data
                               +:+ "' object has no attribute 'get'"));
                    ("timestamp", PStr (isoformat (clock st)))]))] /\
  clients r.1 = clients st /\
  study_sessions r.1 = study_sessions st.
Proof.
  intros Hloads Hshape Hws Hopen. unfold process_message. rewrite Hloads.
  destruct data as [| | | | |xs|kvs]; try (by destruct (Hshape kvs));
    unfold route, respond; by rewrite (send_error_registered _ _ _ _ _ ws).
Qed.

(** X4.  A message that is a JSON object, from a registered client
    with an open connection.  When its type is none of the four of
    the dispatch table, the client is sent the error response whose
    error string is [Unknown message type: ] followed by the type as
    [str] renders it, which is [unknown] when the object has no type;
    [study_sessions] is as before.  When its type is one of the four,
    the message goes to the handler of that name, and what the handler
    returns is sent, or what it raises is reported. *)
Theorem unknown_message_type_error
        (json_loads : string -> option pyval) (json_dumps : pyval -> string)
        (repr : pyval -> string) (isoformat : nat -> string)
        (client_id message : string) (data : dict pyval)
        (st : server) (ws : websocket) :
  json_loads message = Some (PDict data) ->
  clients st !! client_id = Some ws ->
  ws_open ws = true ->
  let message_type := dict_get_or data "type" (PStr "unknown") in
  let processed :=
    process_message json_loads json_dumps repr isoformat client_id message st in
  let dispatched handler :=
    processed = respond json_dumps isoformat client_id (handler client_id data st) in
  ((forall t, t ∈ listed_types -> message_type <> PStr t) ->
   processed
   = (tick st,
      [(ws_id ws,
        json_dumps
          (PDict [("type", PStr "error");
                  ("error",
                   PStr ("Unknown message type: " +:+ str_of repr message_type));
                  ("timestamp", PStr (isoformat (clock st)))]))])) /\
  (dict_get data "type" = None -> str_of repr message_type = "unknown") /\
  (message_type = PStr "study_request" ->
   dispatched (handle_study_request repr isoformat)) /\
  (message_type = PStr "cognitive_architecture_query" ->
   dispatched (handle_cognitive_query repr isoformat)) /\
  (message_type = PStr "neural_transport" ->
   dispatched (handle_neural_transport repr isoformat)) /\
  (message_type = PStr "protocol_introspection" ->
   dispatched (handle_protocol_introspection repr isoformat)).
Proof.
  intros Hloads Hws Hopen message_type processed dispatched.
  unfold dispatched, processed, process_message. rewrite Hloads.
  unfold route. fold message_type.
  split; [|split; [|split; [|split; [|split]]]].
  - intros Hunlisted.
    assert (Hno : forall t, t ∈ listed_types -> is_str message_type t = false).
    { intros t Ht. by apply is_str_false, Hunlisted. }
    rewrite !Hno by (unfold listed_types; set_solver).
    unfold respond, now.
    by rewrite (send_response_registered _ _ _ (tick st) ws).
  - intros Habsent. unfold message_type, dict_get_or. by rewrite Habsent.
  - by intros ->.
  - by intros ->.
  - by intros ->.
  - by intros ->.
Qed.


(** *** A server with one client, and four messages *)

Definition one_client : server :=
  {| clients := {[ "client_1" := {| ws_id := 7; ws_open := true |} ]};
     study_sessions := [];
     clock := 0 |}.

Definition ping_text : string :=
  "{" +:+ quoted "type" +:+ ": " +:+ quoted "ping" +:+ "}".

Definition study_text : string :=
  "{" +:+ quoted "type" +:+ ": " +:+ quoted "study_request" +:+ ", "
      +:+ quoted "study_type" +:+ ": " +:+ quoted "ml_concepts" +:+ ", "
      +:+ quoted "topic" +:+ ": []}".

(** [json.loads] on the messages of the examples: two objects, a
    list, and text that is not JSON. *)
Definition loads_example (message : string) : option pyval :=
  if String.eqb message ping_text then Some (PDict [("type", PStr "ping")])
  else if String.eqb message study_text
       then Some (PDict [("type", PStr "study_request");
                         ("study_type", PStr "ml_concepts");
                         ("topic", PList [])])
  else if String.eqb message "[1]" then Some (PList [PInt 1])
  else None.

(** Stand-ins for [json.dumps], [repr] and the clock that keep the
    examples readable. *)
Definition dumps_example (response : pyval) : string :=
  match response with
  | PDict kvs =>
      match dict_get kvs "error" with
      | Some (PStr e) => "error: " +:+ e
      | _ => "ok"
      end
  | _ => "?"
  end.

Definition repr_example (v : pyval) : string := type_name v.

Definition clock_example (n : nat) : string := "t" +:+ str_of_nat n.

Lemma invalid_json_error_witness :
  (process_message loads_example dumps_example repr_example clock_example
                   "client_1" "{not json" one_client).2
  = [(7, "error: Invalid JSON format")].
Proof.
  apply (invalid_json_error loads_example dumps_example repr_example clock_example
           "client_1" "{not json" one_client {| ws_id := 7; ws_open := true |});
    by vm_compute.
Defined.

Lemma non_object_json_error_witness :
  (process_message loads_example dumps_example repr_example clock_example
                   "client_1" "[1]" one_client).2
  = [(7, "error: 'list' object has no attribute 'get'")].
Proof.
  apply (non_object_json_error loads_example dumps_example repr_example
           clock_example "client_1" "[1]" (PList [PInt 1]) one_client
           {| ws_id := 7; ws_open := true |});
    by vm_compute.
Defined.

Lemma unknown_message_type_error_witness :
  process_message loads_example dumps_example repr_example clock_example
                  "client_1" ping_text one_client
  = (tick one_client, [(7, "error: Unknown message type: ping")]).
Proof.
  apply (unknown_message_type_error loads_example dumps_example repr_example
           clock_example "client_1" ping_text [("type", PStr "ping")] one_client
           {| ws_id := 7; ws_open := true |});
    try by vm_compute.
  intros t Ht. unfold listed_types in Ht. simpl.
  intros [= <-]. set_solver.
Defined.


(** *** Study sessions *)

(** The identifiers the server hands out: [session_0], [session_1],
    ... in the order of creation. *)
Definition session_ids (n : nat) : list string :=
  (fun i => "session_" +:+ str_of_nat i) <$> seq 0 n.

Definition numbered (sessions : dict pyval) : Prop :=
  dict_keys sessions = session_ids (length sessions).

Lemma session_id_fresh (sessions : dict pyval) :
  numbered sessions ->
  "session_" +:+ str_of_nat (length sessions) ∉ dict_keys sessions.
Proof.
  unfold numbered, session_ids. intros -> (i & Heq & Hi)%list_elem_of_fmap.
  apply append_inj_l, str_of_nat_inj in Heq.
  apply list_elem_of_In, in_seq in Hi. lia.
Qed.

Lemma numbered_snoc (sessions : dict pyval) (session : pyval) :
  numbered sessions ->
  numbered (sessions ++ [("session_" +:+ str_of_nat (length sessions), session)]).
Proof.
  unfold numbered, session_ids, dict_keys. intros H.
  by rewrite fmap_app, H, length_app, Nat.add_1_r, seq_S, fmap_app.
Qed.

Section Sessions.

Variable json_loads : string -> option pyval.
Variable json_dumps : pyval -> string.
Variable repr : pyval -> string.
Variable isoformat : nat -> string.

(** Whether a message is a study request: a JSON object whose type
    is [study_request]. *)
Definition is_study_request (message : string) : bool :=
  match json_loads message with
  | Some (PDict data) =>
      is_str (dict_get_or data "type" (PStr "unknown")) "study_request"
  | _ => false
  end.

(** The session a study request stores. *)
Definition session_of (client_id : string) (data : dict pyval) (start_time : string)
  : pyval :=
  PDict [("client_id", PStr client_id);
         ("study_type", dict_get_or data "study_type" (PStr "unknown"));
         ("topic", dict_get_or data "topic" (PStr "general"));
         ("start_time", PStr start_time);
         ("status", PStr "active")].

Lemma handle_study_request_sessions (client_id : string) (data : dict pyval)
      (st : server) :
  study_sessions (handle_study_request repr isoformat client_id data st).2
  = dict_set (study_sessions st)
             ("session_" +:+ str_of_nat (length (study_sessions st)))
             (session_of client_id data (isoformat (clock st))).
Proof.
  unfold handle_study_request. simpl.
  repeat match goal with
         | |- context [if ?b then _ else _] => destruct b
         end; try done.
  by destruct (generate_ml_study_content repr _).
Qed.

Lemma respond_sessions (client_id : string) (r : outcome pyval * server) :
  study_sessions (respond json_dumps isoformat client_id r).1 = study_sessions r.2.
Proof. by destruct r as [[response|e] st]. Qed.

Lemma process_message_sessions (client_id message : string) (st : server) :
  study_sessions
    (process_message json_loads json_dumps repr isoformat client_id message st).1
  = match json_loads message with
    | Some (PDict data) =>
        if is_str (dict_get_or data "type" (PStr "unknown")) "study_request"
        then dict_set (study_sessions st)
                      ("session_" +:+ str_of_nat (length (study_sessions st)))
                      (session_of client_id data (isoformat (clock st)))
        else study_sessions st
    | _ => study_sessions st
    end.
Proof.
  unfold process_message.
  destruct (json_loads message) as [data|]; [|done].
  rewrite respond_sessions.
  destruct data as [| | | | |xs|data]; try done.
  unfold route.
  destruct (is_str (dict_get_or data "type" (PStr "unknown")) "study_request");
    [apply handle_study_request_sessions|].
  by repeat match goal with
            | |- context [if ?b then _ else _] => destruct b
            end.
Qed.

(** X5.  When the sessions are numbered [session_0], [session_1],
    ... in order, they still are after any message.  A study request
    appends exactly one session, under the next number, whether or
    not the request then succeeds; every other message (another type,
    not an object, not JSON) leaves [study_sessions] as it is.  So no
    session is ever overwritten or removed. *)
Theorem study_sessions_numbered (client_id message : string) (st : server) :
  numbered (study_sessions st) ->
  let st' :=
    (process_message json_loads json_dumps repr isoformat client_id message st).1 in
  numbered (study_sessions st') /\
  if is_study_request message
  then exists session,
      study_sessions st'
      = study_sessions st
          ++ [("session_" +:+ str_of_nat (length (study_sessions st)), session)]
  else study_sessions st' = study_sessions st.
Proof.
  intros Hnum st'. unfold st', is_study_request.
  rewrite process_message_sessions.
  destruct (json_loads message) as [[| | | | |xs|data]|]; try done.
  destruct (is_str (dict_get_or data "type" (PStr "unknown")) "study_request");
    [|done].
  rewrite dict_set_fresh by by apply session_id_fresh.
  split; [by apply numbered_snoc|by eexists].
Qed.

End Sessions.

Lemma study_sessions_numbered_witness :
  numbered
    (study_sessions
       (process_message loads_example dumps_example repr_example clock_example
                        "client_1" study_text one_client).1).
Proof.
  apply (study_sessions_numbered loads_example dumps_example repr_example
           clock_example "client_1" study_text one_client).
  reflexivity.
Defined.

(** X6.  A study request of type [ml_concepts] whose topic is a
    list or an object: the lookup of the topic raises, the client is
    sent the error response with the text of that exception, and the
    session the request created stays in [study_sessions]: the failed
    request is not undone. *)
Theorem study_request_unhashable_topic
        (json_loads : string -> option pyval) (json_dumps : pyval -> string)
        (repr : pyval -> string) (isoformat : nat -> string)
        (client_id message : string) (data : dict pyval) (topic : pyval)
        (st : server) (ws : websocket) :
  json_loads message = Some (PDict data) ->
  dict_get data "type" = Some (PStr "study_request") ->
  dict_get data "study_type" = Some (PStr "ml_concepts") ->
  dict_get data "topic" = Some topic ->
  hashable topic = false ->
  clients st !! client_id = Some ws ->
  ws_open ws = true ->
  let r := process_message json_loads json_dumps repr isoformat client_id message st in
  r.2 = [(ws_id ws,
          json_dumps
            (PDict [("type", PStr "error");
                    ("error",
                     PStr ("unhashable type: '" +:+ type_name topic +:+ "'"));
                    ("timestamp", PStr (isoformat (S (clock st))))]))] /\
  study_sessions r.1 =
  dict_set (study_sessions st)
             ("session_" +:+ str_of_nat (length (study_sessions st)))
             (PDict [("client_id", PStr client_id);
                     ("study_type", PStr "ml_concepts");
                     ("topic", topic);
                     ("start_time", PStr (isoformat (clock st)));
                     ("status", PStr "active")]).
Proof.
  intros Hloads Htype Hstudy Htopic Hhash Hws Hopen.
  unfold process_message. rewrite Hloads.
  unfold route, dict_get_or. rewrite Htype. simpl.
  unfold handle_study_request, dict_get_or. rewrite Hstudy, Htopic. simpl.
  unfold generate_ml_study_content. rewrite Hhash.
  unfold respond.
  rewrite (send_error_registered _ _ _ _ _ ws) by done.
  done.
Qed.

Lemma study_request_unhashable_topic_witness :
  (process_message loads_example dumps_example repr_example clock_example
                   "client_1" study_text one_client).2
  = [(7, "error: unhashable type: 'list'")].
Proof.
  apply (study_request_unhashable_topic loads_example dumps_example repr_example
           clock_example "client_1" study_text
           [("type", PStr "study_request"); ("study_type", PStr "ml_concepts");
            ("topic", PList [])]
           (PList []) one_client {| ws_id := 7; ws_open := true |});
    by vm_compute.
Defined.



(** *** A connection *)

Section Connection.

Variable json_loads : string -> option pyval.
Variable json_dumps : pyval -> string.
Variable repr : pyval -> string.
Variable isoformat : nat -> string.

Lemma process_message_effect (client_id message : string) (st : server) :
  let r := process_message json_loads json_dumps repr isoformat client_id message st in
  clients r.1 = clients st /\
  exists response, r.2 = reply_to json_dumps client_id st response.
Proof.
  unfold process_message.
  destruct (json_loads message) as [data|].
  - destruct (route_spec repr isoformat client_id data st) as [Hclients _].
    destruct (route repr isoformat client_id data st) as [[response|e] st'];
      simpl in *; (split; [done|]); eexists; by apply send_response_reply.
  - simpl. split; [done|]. eexists. by apply send_response_reply.
Qed.

Lemma process_message_numbered (client_id message : string) (st : server) :
  numbered (study_sessions st) ->
  let st' :=
    (process_message json_loads json_dumps repr isoformat client_id message st).1 in
  numbered (study_sessions st') /\
  study_sessions st `prefix_of` study_sessions st' /\
  length (study_sessions st')
  = length (study_sessions st)
    + (if is_study_request json_loads message then 1 else 0).
Proof.
  intros Hnum st'. unfold st', is_study_request.
  rewrite process_message_sessions.
  assert (Hsame : numbered (study_sessions st) /\
                  study_sessions st `prefix_of` study_sessions st /\
                  length (study_sessions st) = length (study_sessions st) + 0)
    by (split; [done|]; split; [done|lia]).
  destruct (json_loads message) as [[| | | | |xs|data]|]; try done.
  destruct (is_str (dict_get_or data "type" (PStr "unknown")) "study_request");
    [|done].
  rewrite dict_set_fresh by by apply session_id_fresh.
  split; [by apply numbered_snoc|]. split; [by eexists|].
  rewrite length_app. simpl. lia.
Qed.

(** The loop of [handle_client] over the messages. *)
Definition serve (client_id : string) (messages : list string)
           (start : server * list frame) : server * list frame :=
  fold_left
    (fun '(st, sent) message =>
       let '(st', out) :=
         process_message json_loads json_dumps repr isoformat client_id message st in
       (st', sent ++ out))
    messages start.

Lemma serve_spec (ws : websocket) (messages : list string) :
  forall (st : server) (sent : list frame),
    clients st !! client_id_of ws = Some ws ->
    numbered (study_sessions st) ->
    let r := serve (client_id_of ws) messages (st, sent) in
    clients r.1 = clients st /\
    (exists out, r.2 = sent ++ out /\
                 (if ws_open ws
                  then length out = length messages /\
                       Forall (fun f => f.1 = ws_id ws) out
                  else out = [])) /\
    numbered (study_sessions r.1) /\
    study_sessions st `prefix_of` study_sessions r.1 /\
    length (study_sessions r.1)
    = length (study_sessions st)
      + length (filter (fun m => is_study_request json_loads m = true) messages).
Proof.
  induction messages as [|message messages IH]; intros st sent Hws Hnum; simpl.
  - split; [done|]. split.
    + exists []. rewrite app_nil_r. split; [done|]. by destruct (ws_open ws).
    + split; [done|]. split; [done|lia].
  - destruct (process_message_effect (client_id_of ws) message st)
      as [Hclients [response Hout]].
    destruct (process_message_numbered (client_id_of ws) message st Hnum)
      as (Hnum1 & Hprefix1 & Hlen1).
    destruct (process_message json_loads json_dumps repr isoformat
                (client_id_of ws) message st) as [st1 out1] eqn:Hp.
    simpl in *.
    destruct (IH st1 (sent ++ out1)) as (Hc & (out & Hsent & Hshape) & Hn & Hpre & Hl);
      [by rewrite Hclients|done|].
    fold (serve (client_id_of ws) messages (st1, sent ++ out1)).
    split; [by rewrite Hc|]. split; [|split; [done|split]].
    + exists (out1 ++ out). rewrite Hsent, app_assoc. split; [done|].
      unfold reply_to in Hout. rewrite Hws in Hout.
      destruct (ws_open ws).
      * destruct Hshape as [Hlen Hall]. subst out1. simpl. split; [lia|].
        by constructor.
      * by subst.
    + by etrans.
    + rewrite Hl, Hlen1, filter_cons.
      destruct (is_study_request json_loads message); simpl; lia.
Qed.

(** X13.  A connection served on its own by [handle_client]: the
    server ends with the client removed from [clients] and every other
    client as before; while it is open the websocket is sent exactly
    one frame per message, in order, and none goes to any other
    connection, and when it is closed nothing is sent; the sessions
    stay numbered, none created before is touched, and as many are
    added as there were study requests. *)
Theorem handle_client_session (ws : websocket) (messages : list string)
        (st : server) :
  numbered (study_sessions st) ->
  let r := handle_client json_loads json_dumps repr isoformat ws messages st in
  clients r.1 = delete (client_id_of ws) (clients st) /\
  (if ws_open ws
   then length r.2 = length messages /\ Forall (fun f => f.1 = ws_id ws) r.2
   else r.2 = []) /\
  numbered (study_sessions r.1) /\
  study_sessions st `prefix_of` study_sessions r.1 /\
  length (study_sessions r.1)
  = length (study_sessions st)
    + length (filter (fun m => is_study_request json_loads m = true) messages).
Proof.
  intros Hnum. unfold handle_client.
  set (st0 := set_clients st (<[client_id_of ws := ws]> (clients st))).
  destruct (serve_spec ws messages st0 [])
    as (Hclients & (out & Hout & Hshape) & Hn & Hprefix & Hlen);
    [apply lookup_insert_eq|done|].
  fold (serve (client_id_of ws) messages (st0, [])).
  destruct (serve (client_id_of ws) messages (st0, [])) as [st1 sent].
  simpl in *. subst sent. split; [|done].
  rewrite Hclients. apply delete_insert_eq.
Qed.

End Connection.


Lemma handle_client_session_witness :
  numbered
    (study_sessions
       (handle_client loads_example dumps_example repr_example clock_example
                      {| ws_id := 7; ws_open := true |}
                      [ping_text; study_text; "{not json"]
                      {| clients := ∅; study_sessions := []; clock := 0 |}).1).
Proof.
  apply (handle_client_session loads_example dumps_example repr_example
           clock_example {| ws_id := 7; ws_open := true |}
           [ping_text; study_text; "{not json"]
           {| clients := ∅; study_sessions := []; clock := 0 |}).
  reflexivity.
Defined.

Example handle_client_example :
  handle_client loads_example dumps_example repr_example clock_example
                {| ws_id := 7; ws_open := true |}
                [ping_text; study_text; "{not json"]
                {| clients := ∅; study_sessions := []; clock := 0 |}
  = ({| clients := ∅;
        study_sessions :=
          [("session_0",
            PDict [("client_id", PStr "client_7");
                   ("study_type", PStr "ml_concepts");
                   ("topic", PList []);
                   ("start_time", PStr "t1");
                   ("status", PStr "active")])];
        clock := 4 |},
     [(7, "error: Unknown message type: ping");
      (7, "error: unhashable type: 'list'");
      (7, "error: Invalid JSON format")]).
Proof. by vm_compute. Qed.


(** *** The claims on the dispatch *)

(** The dispatch table: each listed type with its handler. *)
Definition dispatch_table (repr : pyval -> string) (isoformat : nat -> string)
  : list (string * (string -> dict pyval -> server -> outcome pyval * server)) :=
  [("study_request", handle_study_request repr isoformat);
   ("cognitive_architecture_query", handle_cognitive_query repr isoformat);
   ("neural_transport", handle_neural_transport repr isoformat);
   ("protocol_introspection", handle_protocol_introspection repr isoformat)].

(** C7.  A message that is not valid JSON is answered with the
    error response whose error string is [Invalid JSON format]: that
    response is what goes to the client, as one frame on its
    connection when the client is registered and the connection is
    open; and the message changes neither [clients] nor
    [study_sessions]. *)
Theorem invalid_json_atomic
        (json_loads : string -> option pyval) (json_dumps : pyval -> string)
        (repr : pyval -> string) (isoformat : nat -> string)
        (client_id message : string) (st : server) :
  json_loads message = None ->
  let r := process_message json_loads json_dumps repr isoformat client_id message st in
  let response :=
    PDict [("type", PStr "error");
           ("error", PStr "Invalid JSON format");
           ("timestamp", PStr (isoformat (clock st)))] in
  r.2 = reply_to json_dumps client_id st response /\
  (forall ws, clients st !! client_id = Some ws -> ws_open ws = true ->
              r.2 = [(ws_id ws, json_dumps response)]) /\
  clients r.1 = clients st /\
  study_sessions r.1 = study_sessions st.
Proof.
  intros Hloads r response. subst r. unfold process_message. rewrite Hloads.
  unfold send_error. simpl.
  assert (Hsent : send_response json_dumps client_id
                                (error_response "Invalid JSON format"
                                                (isoformat (clock st))) (tick st)
                  = reply_to json_dumps client_id st response)
    by (by apply send_response_reply).
  split; [done|]. split; [|done].
  intros ws Hws Hopen. rewrite Hsent. unfold reply_to. by rewrite Hws, Hopen.
Qed.

Lemma invalid_json_atomic_witness :
  let r := process_message loads_example dumps_example repr_example clock_example
                           "client_1" "{not json" one_client in
  r.2 = [(7, "error: Invalid JSON format")] /\
  clients r.1 = clients one_client /\
  study_sessions r.1 = study_sessions one_client.
Proof.
  destruct (invalid_json_atomic loads_example dumps_example repr_example
              clock_example "client_1" "{not json" one_client)
    as (_ & Hsent & Hclients & Hsessions); [by vm_compute|].
  split; [|by split].
  apply (Hsent {| ws_id := 7; ws_open := true |}); by vm_compute.
Defined.

(** C4.  A message that is a JSON object.  When its type is absent
    or none of the four of the dispatch table, it is answered with the
    error response whose error string is [Unknown message type: ]
    followed by the type, which reads [unknown] when the object has no
    type; that response is what goes to the client, as one frame on
    its connection when the client is registered and the connection
    is open.  When its type is one of the four, the message goes to
    the handler the table lists for it: what that handler returns is
    sent, what it raises is reported. *)
Theorem unlisted_type_error_and_dispatch
        (json_loads : string -> option pyval) (json_dumps : pyval -> string)
        (repr : pyval -> string) (isoformat : nat -> string)
        (client_id message : string) (data : dict pyval) (st : server) :
  json_loads message = Some (PDict data) ->
  let message_type := dict_get_or data "type" (PStr "unknown") in
  let r := process_message json_loads json_dumps repr isoformat client_id message st in
  let response :=
    PDict [("type", PStr "error");
           ("error", PStr ("Unknown message type: " +:+ str_of repr message_type));
           ("timestamp", PStr (isoformat (clock st)))] in
  ((forall t, t ∈ listed_types -> message_type <> PStr t) ->
   r.2 = reply_to json_dumps client_id st response /\
   (forall ws, clients st !! client_id = Some ws -> ws_open ws = true ->
               r.2 = [(ws_id ws, json_dumps response)]) /\
   clients r.1 = clients st /\
   study_sessions r.1 = study_sessions st) /\
  (dict_get data "type" = None ->
   (forall t, t ∈ listed_types -> message_type <> PStr t) /\
   str_of repr message_type = "unknown") /\
  (forall t handler,
      (t, handler) ∈ dispatch_table repr isoformat ->
      message_type = PStr t ->
      r = respond json_dumps isoformat client_id (handler client_id data st)).
Proof.
  intros Hloads message_type r response. subst r.
  unfold process_message. rewrite Hloads. unfold route. fold message_type.
  split; [|split].
  - intros Hunlisted.
    assert (Hno : forall t, t ∈ listed_types -> is_str message_type t = false).
    { intros t Ht. by apply is_str_false, Hunlisted. }
    rewrite !Hno by (unfold listed_types; set_solver).
    unfold respond, now. simpl.
    assert (Hsent : send_response json_dumps client_id response (tick st)
                    = reply_to json_dumps client_id st response)
      by (by apply send_response_reply).
    split; [done|]. split; [|done].
    intros ws Hws Hopen. etrans; [exact Hsent|].
    unfold reply_to. by rewrite Hws, Hopen.
  - intros Habsent. unfold message_type, dict_get_or. rewrite Habsent. simpl.
    split; [|done]. intros t Ht [= <-]. unfold listed_types in Ht. set_solver.
  - intros t handler Hin Htype. rewrite Htype. unfold dispatch_table in Hin.
    repeat (apply elem_of_cons in Hin as [[= -> ->]|Hin]; [done|]).
    by apply elem_of_nil in Hin.
Qed.

Lemma unlisted_type_error_and_dispatch_witness :
  (process_message loads_example dumps_example repr_example clock_example
                   "client_1" ping_text one_client).2
  = [(7, "error: Unknown message type: ping")].
Proof.
  destruct (unlisted_type_error_and_dispatch loads_example dumps_example repr_example
              clock_example "client_1" ping_text [("type", PStr "ping")] one_client)
    as [Hunlisted _]; [by vm_compute|].
  destruct Hunlisted as (_ & Hsent & _).
  { intros t Ht. unfold listed_types in Ht. simpl. intros [= <-]. set_solver. }
  apply (Hsent {| ws_id := 7; ws_open := true |}); by vm_compute.
Defined.


End MCPServerFacts.

(** ** The particle swarm *)

Module CognitiveEcologyDemoFacts.

Import Py PyFacts CognitiveEcologyDemo.

(** *** Comparisons of floats *)

Lemma ltb_neg_infinity (x : float) : (x <? neg_infinity)%float = false.
Proof.
  rewrite ltb_spec. change (Prim2SF neg_infinity) with (S754_infinity true).
  unfold SFltb, SFcompare.
  destruct (Prim2SF x) as [s|s| |s m e]; try destruct s; reflexivity.
Qed.

Lemma ltb_leb (x y : float) : (x <? y)%float = true -> (x <=? y)%float = true.
Proof.
  rewrite ltb_spec, leb_spec. unfold SFltb, SFleb.
  destruct (SFcompare _ _) as [[]|]; congruence.
Qed.

(** A coordinate of the embedding space [[-1, 1]]. *)
Definition in_unit (x : float) : Prop :=
  (-1.0 <=? x)%float = true /\ (x <=? 1.0)%float = true.

Lemma clamp_in_unit (x : float) : in_unit (clamp x).
Proof.
  unfold clamp, in_unit.
  destruct (x <? 1.0)%float eqn:Hupper.
  - destruct (-1.0 <? x)%float eqn:Hlower; [|by vm_compute].
    split; by apply ltb_leb.
  - by vm_compute.
Qed.

Lemma half_in_unit : in_unit 0.5%float.
Proof. by vm_compute. Qed.

(** *** Loops that do not raise *)

Lemma for_each_raise_invariant {A S : Type} (body : A -> S -> outcome S)
      (I : list A -> S -> Prop) (xs : list A) (s0 : S) :
  I [] s0 ->
  (forall pre x post s,
      xs = pre ++ x :: post -> I pre s ->
      exists s1, body x s = Returned s1 /\ I (pre ++ [x]) s1) ->
  exists s', for_each_raise body xs s0 = Returned s' /\ I xs s'.
Proof.
  intros Hinit Hstep.
  assert (Hgen : forall post pre s,
             xs = pre ++ post -> I pre s ->
             exists s', for_each_raise body post s = Returned s' /\ I xs s').
  { induction post as [|x post IH]; intros pre s Hxs Hpre; simpl.
    - exists s. rewrite app_nil_r in Hxs. by subst.
    - destruct (Hstep pre x post s Hxs Hpre) as (s1 & -> & H1).
      apply (IH (pre ++ [x])); [|done]. by rewrite <- app_assoc. }
  by apply (Hgen xs []).
Qed.

(** *** The shape of the swarm *)

Section Swarm.

Variable sum : list float -> float.
Variable pattern : ContextualMemoryPattern.
Variable dimension : nat.

(** A particle has position and velocity of the right length, with
    the position inside the embedding space. *)
Definition shaped (p : particle) : Prop :=
  length (position p) = dimension /\
  length (velocity p) = dimension /\
  Forall in_unit (position p).

(** It has been evaluated with a score above minus infinity: it
    holds a best position, of the right length and inside the space. *)
Definition settled (p : particle) : Prop :=
  exists b, best_position p = Some b /\ length b = dimension /\ Forall in_unit b.

(** A particle of the swarm: shaped, and either settled or still as
    it was created. *)
Definition sound (p : particle) : Prop :=
  shaped p /\ (settled p \/ p = initial_particle dimension).

Lemma initial_particle_sound : sound (initial_particle dimension).
Proof.
  split; [|by right]. unfold shaped. simpl. rewrite !length_replicate.
  split; [done|]. split; [done|].
  apply Forall_replicate. apply half_in_unit.
Qed.

Lemma max_settled (p : particle) (ps : list particle) :
  settled p -> Forall sound ps ->
  exists best, max_by_best_score (p :: ps) = Some best /\ settled best.
Proof.
  intros Hp Hps. simpl. eexists. split; [done|].
  revert p Hp. induction Hps as [|x ps Hx _ IH]; intros p Hp; simpl; [done|].
  apply IH. destruct (best_score p <? best_score x)%float eqn:Hlt; [|done].
  destruct Hx as [_ [Hx| ->]]; [done|].
  simpl in Hlt. by rewrite ltb_neg_infinity in Hlt.
Qed.

Lemma update_coordinates_returns (own_best global_best position0 velocity0 : list float) :
  length own_best = dimension -> length global_best = dimension ->
  length position0 = dimension -> length velocity0 = dimension ->
  Forall in_unit position0 ->
  exists position' velocity',
    for_each_raise (update_coordinate (Some own_best) (Some global_best) pattern)
                   (seq 0 dimension) (position0, velocity0)
    = Returned (position', velocity') /\
    length position' = dimension /\ length velocity' = dimension /\
    Forall in_unit position'.
Proof.
  intros Hown Hglobal Hpos Hvel Hunit.
  destruct (for_each_raise_invariant
              (update_coordinate (Some own_best) (Some global_best) pattern)
              (fun _ pv => length pv.1 = dimension /\ length pv.2 = dimension /\
                           Forall in_unit pv.1)
              (seq 0 dimension) (position0, velocity0))
    as ([position' velocity'] & Hrun & Hfinal); [done| |by eauto].
  intros pre i post [pos vel] Hseq (Hp & Hv & Hu). simpl in *.
  assert (Hi : i < dimension).
  { assert (Hin : i ∈ seq 0 dimension) by (rewrite Hseq; set_solver).
    apply list_elem_of_In, in_seq in Hin. lia. }
  destruct (lookup_lt_is_Some_2 vel i) as [v ->]; [lia|].
  destruct (lookup_lt_is_Some_2 own_best i) as [b ->]; [lia|].
  destruct (lookup_lt_is_Some_2 pos i) as [x ->]; [lia|].
  destruct (lookup_lt_is_Some_2 global_best i) as [g ->]; [lia|].
  eexists. split; [done|]. simpl. rewrite !length_insert.
  split; [done|]. split; [done|].
  apply Forall_insert; [done|apply clamp_in_unit].
Qed.

Lemma update_particle_returns (p : particle) (head : particle) (rest : list particle) :
  shaped p -> settled p -> settled head -> Forall sound rest ->
  exists p', update_particle_dynamics p (head :: rest) pattern = Returned p' /\
             shaped p' /\ settled p'.
Proof.
  intros (Hpos & Hvel & Hunit) (b & Hb & Hblen & Hbunit) Hhead Hrest.
  unfold update_particle_dynamics.
  destruct (max_settled head rest Hhead Hrest) as (best & Hm & g & Hg & Hglen & _).
  rewrite Hm, Hg, Hb, Hvel.
  destruct (update_coordinates_returns b g (position p) (velocity p))
    as (position' & velocity' & -> & Hp' & Hv' & Hu'); try done.
  eexists. split; [done|]. split; [done|]. by exists b.
Qed.

(** The score of the position every particle starts from is above
    minus infinity. *)
Hypothesis initial_score :
  (neg_infinity
     <? evaluate_memory_encoding sum (replicate dimension 0.5%float) pattern)%float
  = true.

(** The head of the swarm is settled. *)
Definition led (swarm : list particle) : Prop :=
  exists head rest, swarm = head :: rest /\ settled head.

Lemma evaluated_settled (p : particle) :
  sound p ->
  let score := evaluate_memory_encoding sum (position p) pattern in
  let p1 :=
    if (best_score p <? score)%float
    then {| position := position p; velocity := velocity p;
            best_position := Some (position p); best_score := score |}
    else p in
  shaped p1 /\ settled p1.
Proof.
  intros [Hshaped Hkind]. simpl.
  destruct (best_score p <? _)%float eqn:Hlt.
  - split; [done|]. destruct Hshaped as (Hpos & _ & Hunit). by exists (position p).
  - split; [done|]. destruct Hkind as [Hsettled| ->]; [done|].
    simpl in Hlt. by rewrite initial_score in Hlt.
Qed.

Lemma step_particle_returns (k : nat) (swarm : list particle) :
  Forall sound swarm -> k < length swarm -> k = 0 \/ led swarm ->
  exists swarm',
    step_particle sum pattern k swarm = Returned swarm' /\
    length swarm' = length swarm /\ Forall sound swarm' /\ led swarm'.
Proof.
  intros Hsound Hk Hled. unfold step_particle.
  destruct (lookup_lt_is_Some_2 swarm k Hk) as [p Hp]. rewrite Hp.
  assert (Hsp : sound p) by (eapply Forall_lookup_1; eauto).
  destruct (evaluated_settled p Hsp) as [Hshaped1 Hsettled1].
  set (p1 := if (best_score p <? _)%float then _ else p) in *.
  assert (Hsound1 : Forall sound (<[k := p1]> swarm)).
  { apply Forall_insert; [done|]. split; [done|by left]. }
  assert (Hled1 : led (<[k := p1]> swarm)).
  { destruct swarm as [|h r]; [simpl in Hk; lia|].
    destruct k as [|k]; [by exists p1, r|].
    destruct Hled as [?|(h' & r' & [= <- <-] & Hh)]; [done|].
    by exists h, (<[k := p1]> r). }
  destruct Hled1 as (h1 & r1 & Heq1 & Hh1). rewrite Heq1 in *.
  destruct (update_particle_returns p1 h1 r1) as (p2 & -> & Hshaped2 & Hsettled2);
    [done|done|done|by apply Forall_cons in Hsound1 as [_ ?]|].
  eexists. split; [done|]. rewrite <- Heq1 in *. rewrite !length_insert.
  split; [done|]. split.
  - apply Forall_insert; [done|]. split; [done|by left].
  - destruct swarm as [|h r]; [simpl in Hk; lia|].
    destruct k as [|k]; simpl in *.
    + by eexists _, _.
    + injection Heq1 as <- <-. by eexists _, _.
Qed.

Lemma iteration_returns (swarm : list particle) :
  Forall sound swarm -> swarm <> [] ->
  exists swarm',
    for_each_raise (step_particle sum pattern) (seq 0 (length swarm)) swarm
    = Returned swarm' /\
    length swarm' = length swarm /\ Forall sound swarm' /\ led swarm'.
Proof.
  intros Hsound Hne.
  destruct (for_each_raise_invariant (step_particle sum pattern)
              (fun pre s => length s = length swarm /\ Forall sound s /\
                            (pre = [] \/ led s))
              (seq 0 (length swarm)) swarm)
    as (swarm' & Hrun & Hlen & Hs & Hled); [by auto| |].
  - intros pre k post s Hseq (Hlen & Hs & Hled).
    assert (Hk : k < length swarm).
    { assert (Hin : k ∈ seq 0 (length swarm)) by (rewrite Hseq; set_solver).
      apply list_elem_of_In, in_seq in Hin. lia. }
    destruct (step_particle_returns k s) as (s1 & -> & Hlen1 & Hs1 & Hled1);
      [done|lia| |].
    + destruct Hled as [->|?]; [|by right]. left.
      destruct (length swarm); simpl in Hseq; [done|]. by injection Hseq.
    + eexists. split; [done|]. split; [lia|]. split; [done|by right].
  - exists swarm'. split; [done|]. split; [done|]. split; [done|].
    destruct Hled as [Hnil|?]; [|done].
    destruct swarm; [done|]. simpl in Hnil. done.
Qed.


Lemma swarm_optimize_returns (particles iterations : nat) :
  0 < particles -> 0 < iterations ->
  exists v,
    swarm_optimize sum particles iterations dimension pattern = Returned (Some v) /\
    length v = dimension /\ Forall in_unit v.
Proof.
  intros Hparticles Hiterations. unfold swarm_optimize.
  set (swarm0 := replicate particles (initial_particle dimension)).
  destruct (for_each_raise_invariant
              (fun (_ : nat) swarm =>
                 for_each_raise (step_particle sum pattern)
                                (seq 0 (length swarm)) swarm)
              (fun pre s => length s = particles /\ Forall sound s /\
                            (pre = [] \/ led s))
              (seq 0 iterations) swarm0)
    as (swarm & -> & Hlen & Hsound & Hled).
  - split; [apply length_replicate|]. split; [|by left].
    apply Forall_replicate, initial_particle_sound.
  - intros pre i post s _ (Hlen & Hs & _).
    destruct (iteration_returns s Hs) as (s1 & -> & Hlen1 & Hs1 & Hled1).
    { destruct s; [simpl in Hlen; lia|done]. }
    eexists. split; [done|]. split; [lia|]. split; [done|by right].
  - destruct Hled as [Hnil|(head & rest & -> & Hhead)].
    { destruct iterations; [lia|done]. }
    apply Forall_cons in Hsound as [_ Hrest].
    destruct (max_settled head rest Hhead Hrest) as (best & -> & v & -> & Hv & Hunit).
    by exists v.
Qed.

End Swarm.

(** A swarm whose first particle has no best position and does not
    get one from its evaluation: its update subscripts [None]. *)
Lemma step_particle_raises (sum : list float -> float)
      (pattern : ContextualMemoryPattern) (p : particle) (rest : list particle) :
  best_position p = None ->
  (best_score p <? evaluate_memory_encoding sum (position p) pattern)%float = false ->
  velocity p <> [] ->
  step_particle sum pattern 0 (p :: rest) = Raised "TypeError".
Proof.
  intros Hbest Hscore Hvelocity. unfold step_particle.
  change ((p :: rest) !! 0) with (Some p). cbv beta iota. rewrite Hscore.
  change (<[0 := p]> (p :: rest)) with (p :: rest).
  unfold update_particle_dynamics.
  unfold max_by_best_score. cbv beta iota zeta.
  rewrite Hbest. destruct (velocity p) as [|v vs]; [done|].
  reflexivity.
Qed.

(** When the score of the starting position is not above minus
    infinity (it is NaN or minus infinity), the first particle keeps
    [None] as its best position and the first update subscripts it. *)
Lemma swarm_optimize_raises (sum : list float -> float)
      (pattern : ContextualMemoryPattern) (particles iterations dimension : nat) :
  (neg_infinity
     <? evaluate_memory_encoding sum (replicate (S dimension) 0.5%float) pattern)%float
  = false ->
  swarm_optimize sum (S particles) (S iterations) (S dimension) pattern
  = Raised "TypeError".
Proof.
  intros Hscore. unfold swarm_optimize.
  change (replicate (S particles) (initial_particle (S dimension)))
    with (initial_particle (S dimension)
            :: replicate particles (initial_particle (S dimension))).
  change (seq 0 (S iterations)) with (0 :: seq 1 iterations).
  cbn [for_each_raise length].
  change (seq 0 (S (length (replicate particles (initial_particle (S dimension))))))
    with (0 :: seq 1 (length (replicate particles (initial_particle (S dimension))))).
  cbn [for_each_raise].
  by rewrite step_particle_raises.
Qed.

(** X12.  [particle_swarm_optimize] on any pattern, whatever the
    arithmetic of [sum]: when the score of the starting position (0.5
    in each of the 768 dimensions) is above minus infinity, it returns
    an embedding of 768 coordinates, every one of them in [[-1, 1]];
    when that score is NaN or minus infinity, no particle ever records
    a best position and the first update raises [TypeError]. *)
Theorem particle_swarm_optimize_outcome (sum : list float -> float)
        (pattern : ContextualMemoryPattern) :
  let score := evaluate_memory_encoding sum (replicate 768 0.5%float) pattern in
  if (neg_infinity <? score)%float
  then exists v, particle_swarm_optimize sum pattern = Returned (Some v) /\
                 length v = 768 /\ Forall in_unit v
  else particle_swarm_optimize sum pattern = Raised "TypeError".
Proof.
  intros score. destruct (neg_infinity <? score)%float eqn:Hscore.
  - apply (swarm_optimize_returns sum pattern 768 Hscore 10 50); lia.
  - apply (swarm_optimize_raises sum pattern 9 49 767 Hscore).
Qed.




(** *** What the swarm depends on *)


Section Agree.

Variable sum : list float -> float.
Variables p q : ContextualMemoryPattern.
Hypothesis same_profile : priority_profile p = priority_profile q.
Hypothesis same_salience : salience_score p = salience_score q.






End Agree.






(** *** The activation landscape *)

(** How often a specialty is listed. *)
Definition listed (s : string) (specs : list string) : nat :=
  length (filter (fun x => x = s) specs).

Lemma listed_cons s x specs :
  listed s (x :: specs) = if decide (x = s) then S (listed s specs) else listed s specs.
Proof. unfold listed. rewrite filter_cons. by case_decide. Qed.

Lemma listed_absent s specs : s ∉ specs -> listed s specs = 0.
Proof.
  induction specs as [|x specs IH]; [done|].
  intros [Hne Hs]%not_elem_of_cons. rewrite listed_cons, decide_False by done. auto.
Qed.

Section Landscape.

Variable format_3f : float -> string.

Lemma propagate_activation_appends channels city specialty activation out :
  exists lines,
    propagate_activation format_3f channels city specialty activation out = out ++ lines.
Proof.
  unfold propagate_activation.
  generalize (neural_transport_channels city).*2. intros targets. revert out.
  induction targets as [|t targets IH]; intros out; simpl.
  - exists []. by rewrite app_nil_r.
  - destruct (dict_get channels (channel_key_of (namespace city) t)) as [ch|].
    + destruct (IH (out ++ [("Transporting "
                               +:+ format_3f (activation * quality ch * bandwidth ch)
                               +:+ " activation for " +:+ specialty
                               +:+ " from " +:+ namespace city +:+ " to " +:+ t)%string]))
        as [lines ->].
      eexists. by rewrite <- app_assoc.
    + apply IH.
Qed.

(** What the loop over the specializations leaves in the landscape
    and on the output. *)
Lemma boost_all channels city pattern specs :
  forall st,
    let st' := fold_left (boost_specialty format_3f channels city pattern) specs st in
    (exists lines, st'.2 = st.2 ++ lines) /\
    forall s,
      dict_get st'.1 s =
      match dict_get (priority_profile pattern) s with
      | Some priority =>
          if decide (s ∈ specs) then
            Some (Nat.iter (listed s specs)
                           (fun x => (x + priority * salience_score pattern)%float)
                           (dict_get_or st.1 s 0.0%float))
          else dict_get st.1 s
      | None => dict_get st.1 s
      end.
Proof.
  induction specs as [|spec specs IH]; intros st; cbn [fold_left].
  { split; [exists []; by rewrite app_nil_r|].
    intros s. destruct (dict_get (priority_profile pattern) s); [|done].
    case_decide as Hin; [by apply elem_of_nil in Hin|done]. }
  destruct (IH (boost_specialty format_3f channels city pattern st spec))
    as [[lines Hout] Hget].
  unfold boost_specialty in Hout, Hget |- *.
  destruct (dict_get (priority_profile pattern) spec) as [q|] eqn:Hq.
  - simpl in Hout, Hget. split.
    + destruct (propagate_activation_appends channels city spec
                  (q * salience_score pattern)%float st.2) as [lines0 Hl].
      rewrite Hout, Hl. exists (lines0 ++ lines). by rewrite app_assoc.
    + intros s. rewrite Hget. clear Hget Hout.
      destruct (dict_get (priority_profile pattern) s) as [priority|] eqn:Hp.
      * rewrite listed_cons. unfold dict_get_or. rewrite dict_get_set.
        destruct (decide (spec = s)) as [->|Hne].
        -- assert (priority = q) as -> by congruence.
           rewrite (decide_True (P := s ∈ s :: specs)) by left. simpl.
           case_decide as Hin.
           ++ f_equal.
              exact (Nat.iter_swap (listed s specs) float
                       (fun x : float => (x + q * salience_score pattern)%float) _).
           ++ by rewrite listed_absent.
        -- case_decide as Hin.
           ++ by rewrite decide_True by (by right).
           ++ rewrite decide_False; [done|].
              intros [?|?]%elem_of_cons; congruence.
      * rewrite dict_get_set. case_decide; [congruence|done].
  - split; [by exists lines|].
    intros s. rewrite Hget. clear Hget Hout.
    destruct (dict_get (priority_profile pattern) s) as [priority|] eqn:Hp; [|done].
    assert (Hne : spec <> s) by congruence.
    rewrite listed_cons, (decide_False (P := spec = s)) by done.
    case_decide as Hin.
    + by rewrite decide_True by (by right).
    + rewrite decide_False; [done|]. intros [?|?]%elem_of_cons; congruence.
Qed.

(** X20.  [update_activation_landscape] changes one thing: the
    activation landscape of the city object registered under the
    pattern's organization.  There, a specialty that the city lists
    and the priority profile holds ends at its old activation (0.0
    when it had none) plus [priority * salience] once for every time
    the city lists it; every other entry stays.  The registrations, the
    transport channels and every other city object are left as they
    were: the transport to connected cities is printed, after what was
    printed before, and applied nowhere.  Without a city registered
    under the organization nothing changes and nothing is printed. *)
Theorem update_activation_landscape_frame
        (pattern : ContextualMemoryPattern) (f : fabric) (out : list string) :
  let r := update_activation_landscape format_3f pattern f out in
  let registered := dict_get (cognitive_cities f) (organization_context pattern) in
  cognitive_cities r.1 = cognitive_cities f /\
  transport_channels r.1 = transport_channels f /\
  length (cities r.1) = length (cities f) /\
  (exists lines, r.2 = out ++ lines) /\
  (registered = None -> r = (f, out)) /\
  (forall address, registered <> Some address ->
                   cities r.1 !! address = cities f !! address) /\
  (forall address city,
      registered = Some address -> cities f !! address = Some city ->
      exists landscape,
        cities r.1 !! address = Some (set_activation_landscape city landscape) /\
        forall s,
          dict_get landscape s =
          match dict_get (priority_profile pattern) s with
          | Some priority =>
              if decide (s ∈ specializations city) then
                Some (Nat.iter (listed s (specializations city))
                               (fun x => (x + priority * salience_score pattern)%float)
                               (dict_get_or (activation_landscape city) s 0.0%float))
              else dict_get (activation_landscape city) s
          | None => dict_get (activation_landscape city) s
          end).
Proof.
  intros r registered. subst r registered. unfold update_activation_landscape.
  destruct (dict_get (cognitive_cities f) (organization_context pattern))
    as [a|] eqn:Hreg.
  2:{ simpl. repeat split; try done.
      exists []. by rewrite app_nil_r. }
  destruct (cities f !! a) as [city|] eqn:Hcity.
  2:{ simpl. repeat split; try done.
      - exists []. by rewrite app_nil_r.
      - intros address c [= <-]. congruence. }
  destruct (boost_all (transport_channels f) city pattern (specializations city)
                      (activation_landscape city, out)) as [Hout Hget].
  simpl in Hout, Hget |- *.
  split; [done|]. split; [done|]. split; [by rewrite length_insert|].
  split; [done|]. split; [done|]. split.
  - intros address Hne. apply list_lookup_insert_ne. congruence.
  - intros address c [= <-] Hc. assert (c = city) as -> by congruence.
    eexists. split; [|exact Hget].
    apply list_lookup_insert_eq. by eapply lookup_lt_Some.
Qed.

End Landscape.


End CognitiveEcologyDemoFacts.
